(** * Token burner: balance acquisition and batch-burn call construction

    A shallow embedding of the token-burner Mini App:

    - [src/lib/batched-transactions.ts]  (module [BatchedTransactions])
    - [src/app/api/tokens/[address]/route.ts]  (module [Route])
    - [src/components/token-burner.tsx], the client direct-fetch variant
      (module [TokenBurner])
    - the batched [useSendCalls] variant of the component
      (module [BatchBurner])

    Definitions come first, the theorems about them follow. *)

From Stdlib Require Import ZArith String Ascii List Lia.
From stdpp Require Import base decidable option list strings gmap sorting pretty.

Local Open Scope string_scope.
Local Open Scope Z_scope.
Local Open Scope list_scope.

(* ================================================================== *)
(** * The JavaScript platform *)
(* ================================================================== *)

(** What the code takes from the language runtime.  Strings are byte
    strings, read as UTF-8; the white space that [parseInt], [Number] and
    [BigInt] skip is that of the language: TAB, LF, VT, FF, CR, SP and the
    space separators and line terminators outside ASCII. *)
Module JS.

(** ** Errors *)

(** A thrown value; [message] is what [err.message] reads. *)
Record Error := mkError { message : string }.

(** [Array.prototype.map] with a callback that may throw: the elements
    are visited in order and the first throw ends the call. *)
Fixpoint mapThrow {A B : Type} (f : A -> Error + B) (l : list A) : Error + list B :=
  match l with
  | nil => inr nil
  | cons x rest =>
      match f x with
      | inl err => inl err
      | inr y =>
          match mapThrow f rest with
          | inl err => inl err
          | inr ys => inr (cons y ys)
          end
      end
  end.

(** ** Truthiness and defaults *)

(** A string is falsy exactly when it is empty. *)
Definition truthy (s : string) : bool :=
  match s with EmptyString => false | String _ _ => true end.

(** An absent ([undefined] or [null]) value is falsy. *)
Definition truthy_opt (o : option string) : bool :=
  match o with Some s => truthy s | None => false end.

(** [o || d] for a string-or-absent [o]. *)
Definition or_else (o : option string) (d : string) : string :=
  match o with
  | Some s => if truthy s then s else d
  | None => d
  end.

(** [a || b] for two string-or-absent operands. *)
Definition or_opt (a b : option string) : option string :=
  if truthy_opt a then a else b.

(** ** Characters and digits *)

(** Strings are read as UTF-8.  The white space and line terminators
    of one byte: U+0009 to U+000D and U+0020. *)
Definition isWhiteSpace (c : ascii) : bool :=
  let n := N_of_ascii c in
  ((9 <=? n) && (n <=? 13) || (n =? 32))%N.

(** Of two bytes: U+00A0. *)
Definition isWhiteSpace2 (c1 c2 : ascii) : bool :=
  ((N_of_ascii c1 =? 194) && (N_of_ascii c2 =? 160))%N.

(** Of three bytes: U+1680, U+2000 to U+200A, U+2028, U+2029, U+202F,
    U+205F, U+3000 and U+FEFF. *)
Definition isWhiteSpace3 (c1 c2 c3 : ascii) : bool :=
  let n1 := N_of_ascii c1 in
  let n2 := N_of_ascii c2 in
  let n3 := N_of_ascii c3 in
  ((n1 =? 225) && (n2 =? 154) && (n3 =? 128)
   || (n1 =? 226) && (n2 =? 128)
      && ((128 <=? n3) && (n3 <=? 138) || (n3 =? 168) || (n3 =? 169) || (n3 =? 175))
   || (n1 =? 226) && (n2 =? 129) && (n3 =? 159)
   || (n1 =? 227) && (n2 =? 128) && (n3 =? 128)
   || (n1 =? 239) && (n2 =? 187) && (n3 =? 191))%N.

(** The string without the white space at its head, where [ws2] and
    [ws3] tell the characters of two and of three bytes. *)
Fixpoint dropWhiteSpace (ws2 : ascii -> ascii -> bool)
    (ws3 : ascii -> ascii -> ascii -> bool) (s : string) : string :=
  match s with
  | String c1 s1 =>
      if isWhiteSpace c1 then dropWhiteSpace ws2 ws3 s1
      else
        match s1 with
        | String c2 s2 =>
            if ws2 c1 c2 then dropWhiteSpace ws2 ws3 s2
            else
              match s2 with
              | String c3 s3 =>
                  if ws3 c1 c2 c3 then dropWhiteSpace ws2 ws3 s3 else s
              | EmptyString => s
              end
        | EmptyString => s
        end
  | EmptyString => EmptyString
  end.

Definition trimStart (s : string) : string :=
  dropWhiteSpace isWhiteSpace2 isWhiteSpace3 s.

(** From the end the bytes of a character come in reverse. *)
Definition trimEnd (s : string) : string :=
  String.rev
    (dropWhiteSpace (fun c2 c1 => isWhiteSpace2 c1 c2)
                    (fun c3 c2 c1 => isWhiteSpace3 c1 c2 c3)
                    (String.rev s)).

Definition trim (s : string) : string := trimEnd (trimStart s).

(** Value of [c] as a digit, for radixes up to 16. *)
Definition digitValue (c : ascii) : option Z :=
  let n := Z.of_N (N_of_ascii c) in
  if (48 <=? n) && (n <=? 57) then Some (n - 48)
  else if (97 <=? n) && (n <=? 102) then Some (n - 87)
  else if (65 <=? n) && (n <=? 70) then Some (n - 55)
  else None.

Definition digitOf (radix : Z) (c : ascii) : option Z :=
  match digitValue c with
  | Some d => if d <? radix then Some d else None
  | None => None
  end.

(** The longest prefix of radix-[radix] digits, and what follows it. *)
Fixpoint spanDigits (radix : Z) (s : string) : list Z * string :=
  match s with
  | String c s' =>
      match digitOf radix c with
      | Some d => let '(ds, r) := spanDigits radix s' in (d :: ds, r)
      | None => ([], s)
      end
  | EmptyString => ([], EmptyString)
  end.

Definition digitsValue (radix : Z) (ds : list Z) : Z :=
  fold_left (fun acc d => acc * radix + d) ds 0.

(** A leading sign: [(negative, rest)]. *)
Definition splitSign (s : string) : bool * string :=
  match s with
  | String "-" r => (true, r)
  | String "+" r => (false, r)
  | _ => (false, s)
  end.

Definition applySign (neg : bool) (z : Z) : Z := if neg then - z else z.

(** ** [parseInt(s, 16)] *)

(** [None] is [NaN].  The result is the mathematical integer that the
    runtime then rounds to a double; rounding keeps the sign and never
    turns a non-zero integer into zero, so comparisons with [0] agree. *)
Definition parseInt16 (s : string) : option Z :=
  let '(neg, s2) := splitSign (trimStart s) in
  let s3 := match s2 with
            | String "0" (String "x" r) => r
            | String "0" (String "X" r) => r
            | _ => s2
            end in
  match spanDigits 16 s3 with
  | ([], _) => None
  | (ds, _) => Some (applySign neg (digitsValue 16 ds))
  end.

(** [parseInt(s, 16) > 0] *)
Definition parseInt16_gt0 (s : string) : bool :=
  match parseInt16 s with
  | Some z => 0 <? z
  | None => false
  end.

(** ** [Number(s)] *)

(** The value of a string as a number before it is rounded to a double:
    [Fin neg m e] is [(-1)^neg * m * 10^e]. *)
Inductive Numeric :=
| NaN
| Inf (neg : bool)
| Fin (neg : bool) (m : Z) (e : Z).

(** A literal in radix 2, 8 or 16 following its [0b], [0o] or [0x]. *)
Definition nonDecimal (radix : Z) (s : string) : Numeric :=
  match spanDigits radix s with
  | ([], _) => NaN
  | (ds, EmptyString) => Fin false (digitsValue radix ds) 0
  | (_, String _ _) => NaN
  end.

(** The exponent part, empty or [e] / [E], an optional sign and digits. *)
Definition exponentPart (s : string) : option Z :=
  match s with
  | EmptyString => Some 0
  | String c r =>
      if (Ascii.eqb c "e" || Ascii.eqb c "E")%bool then
        let '(neg, r') := splitSign r in
        match spanDigits 10 r' with
        | ([], _) => None
        | (ds, EmptyString) => Some (applySign neg (digitsValue 10 ds))
        | (_, String _ _) => None
        end
      else None
  end.

Definition decimalLiteral (s : string) : Numeric :=
  let '(neg, u) := splitSign s in
  if String.eqb u "Infinity" then Inf neg
  else
    let '(ip, r1) := spanDigits 10 u in
    let '(fp, r2) := match r1 with
                     | String "." r => spanDigits 10 r
                     | _ => ([], r1)
                     end in
    match (ip ++ fp)%list with
    | [] => NaN
    | ds =>
        match exponentPart r2 with
        | Some e => Fin neg (digitsValue 10 ds) (e - Z.of_nat (length fp))
        | None => NaN
        end
    end.

Definition StringToNumber (s : string) : Numeric :=
  match trim s with
  | EmptyString => Fin false 0 0
  | String "0" (String "x" r) | String "0" (String "X" r) => nonDecimal 16 r
  | String "0" (String "o" r) | String "0" (String "O" r) => nonDecimal 8 r
  | String "0" (String "b" r) | String "0" (String "B" r) => nonDecimal 2 r
  | t => decimalLiteral t
  end.

(** [x > 0] after rounding to a double: a positive value rounds to zero
    exactly when it is at most [2^-1075], half the least subnormal. *)
Definition gt0 (x : Numeric) : bool :=
  match x with
  | NaN => false
  | Inf neg => negb neg
  | Fin neg m e =>
      negb neg &&
      (if 0 <=? e then 0 <? m else 10 ^ (- e) <? m * 2 ^ 1075)
  end.

(** [Number(s) > 0] *)
Definition Number_gt0 (s : string) : bool := gt0 (StringToNumber s).

(** ** [BigInt(s)] *)

(** [None] when the string is not an integer literal. *)
Definition StringToBigInt (s : string) : option Z :=
  let allOf (radix : Z) (neg : bool) (r : string) :=
    match spanDigits radix r with
    | ([], _) => None
    | (ds, EmptyString) => Some (applySign neg (digitsValue radix ds))
    | (_, String _ _) => None
    end in
  match trim s with
  | EmptyString => Some 0
  | String "0" (String "x" r) | String "0" (String "X" r) => allOf 16 false r
  | String "0" (String "o" r) | String "0" (String "O" r) => allOf 8 false r
  | String "0" (String "b" r) | String "0" (String "B" r) => allOf 2 false r
  | t => let '(neg, u) := splitSign t in allOf 10 neg u
  end.

(** [BigInt(s)]; the [SyntaxError] carries the message V8 gives it. *)
Definition BigInt (s : string) : Error + Z :=
  match StringToBigInt s with
  | Some z => inr z
  | None => inl (mkError ("Cannot convert " +:+ s +:+ " to a BigInt"))
  end.

(** ** [toLowerCase], on ASCII letters (addresses are hex strings) *)

Definition lowerChar (c : ascii) : ascii :=
  let n := N_of_ascii c in
  if ((65 <=? n) && (n <=? 90))%N then ascii_of_N (n + 32) else c.

Fixpoint toLowerCase (s : string) : string :=
  match s with
  | String c s' => String (lowerChar c) (toLowerCase s')
  | EmptyString => EmptyString
  end.

(** ** [String.prototype.localeCompare] *)

(** The collation of the runtime's default locale; negative, zero or
    positive. *)
Class Intl := { localeCompare : string -> string -> Z }.

(** ** [Array.prototype.sort] *)

(** The sort is stable; with a consistent comparator its result is the
    stable sorted permutation, computed here by insertion from the
    right.  [cmp a b <= 0] keeps [a] before [b]. *)
Section Sort.
Context {A : Type} (cmp : A -> A -> Z).

Fixpoint insert (x : A) (l : list A) : list A :=
  match l with
  | [] => [x]
  | y :: l' => if cmp x y <=? 0 then x :: y :: l' else y :: insert x l'
  end.

Fixpoint sort (l : list A) : list A :=
  match l with
  | [] => []
  | x :: l' => insert x (sort l')
  end.
End Sort.

End JS.


(* ================================================================== *)
(** * Effects: the network, the clock and thrown errors *)
(* ================================================================== *)

Module Effects.

(** What a run leaves behind, in order. *)
Inductive Event :=
| Slept (ms : Z)                          (* [await sleep(ms)] *)
| Retrying (retryCount maxRetries : Z).   (* [onRetry(retryCount, maxRetries)] *)

(** [clock] counts the [fetch] calls issued so far; the network answers
    a call according to its position in that sequence. *)
Record World := mkWorld { clock : nat; log : list Event }.

Definition start : World := mkWorld 0 [].

(** An [async] computation: it ends by throwing ([inl]) or by returning
    ([inr]), in a new world. *)
Definition M (A : Type) : Type := World -> (JS.Error + A) * World.

Definition ret {A} (a : A) : M A := fun w => (inr a, w).

Definition throw {A} (e : JS.Error) : M A := fun w => (inl e, w).

Definition bind {A B} (m : M A) (k : A -> M B) : M B :=
  fun w =>
    match m w with
    | (inr a, w') => k a w'
    | (inl e, w') => (inl e, w')
    end.

(** [try { m } catch (err) { handler err }] *)
Definition tryCatch {A} (m : M A) (handler : JS.Error -> M A) : M A :=
  fun w =>
    match m w with
    | (inr a, w') => (inr a, w')
    | (inl e, w') => handler e w'
    end.

Definition record (ev : Event) : M unit :=
  fun w => (inr tt, mkWorld (clock w) (log w ++ [ev])).

Definition sleep (ms : Z) : M unit := record (Slept ms).

(** The delays of a log, and their sum in milliseconds. *)
Definition delays (l : list Event) : list Z :=
  omap (fun ev => match ev with Slept ms => Some ms | _ => None end) l.

Definition totalDelay (l : list Event) : Z := foldr Z.add 0 (delays l).

(** ** [fetch] *)

(** A [Response]: its status and what [response.json()] gives, a thrown
    error when the body is not JSON. *)
Record Response (B : Type) := mkResponse { status : Z; json : JS.Error + B }.
Arguments mkResponse {B} _ _.
Arguments status {B} _.
Arguments json {B} _.

(** [response.ok] *)
Definition ok {B} (r : Response B) : bool :=
  (200 <=? status r) && (status r <=? 299).

(** The outcome of one [fetch]: rejected, or resolved with a response. *)
Inductive FetchOutcome (B : Type) :=
| Rejected (e : JS.Error)
| Resolved (r : Response B).
Arguments Rejected {B} _.
Arguments Resolved {B} _.

(** An endpoint applied to a request: the outcome of the call, given
    how many calls came before it. *)
Definition Fetch (B : Type) : Type := nat -> FetchOutcome B.

Definition fetch {B} (f : Fetch B) : M (Response B) :=
  fun w =>
    let w' := mkWorld (S (clock w)) (log w) in
    match f (clock w) with
    | Rejected e => (inl e, w')
    | Resolved r => (inr r, w')
    end.

(** [await response.json()] *)
Definition readJson {B} (r : Response B) : M B :=
  match json r with
  | inl e => throw e
  | inr b => ret b
  end.

End Effects.

Import Effects.

Declare Scope js_scope.
Delimit Scope js_scope with js.
Notation "x <- m ;; k" := (bind m (fun x => k))
  (at level 100, m at next level, right associativity) : js_scope.
Notation "m ;;; k" := (bind m (fun _ => k))
  (at level 100, right associativity) : js_scope.
Local Open Scope js_scope.

(* ================================================================== *)
(** * src/lib/batched-transactions.ts *)
(* ================================================================== *)

Module BatchedTransactions.

Definition Address := string.
Definition Hex := string.

(** An element of [args: any[]]. *)
Inductive Arg :=
| AddressArg (a : Address)
| BigIntArg (n : Z).

(** What the module imports from viem: the ERC20 ABI and the call
    encoder.  The encoder checks the arguments against the types of the
    function and throws when they do not fit: for the ERC20 [transfer] and
    [approve], an address argument that is not an address, or an amount
    outside uint256. *)
Class Viem := {
  Abi : Type;
  erc20Abi : Abi;
  encodeFunctionData : Abi -> string -> list Arg -> JS.Error + Hex
}.

Record TransactionStep `{Viem} := mkStep {
  name : string;
  contractAddress : Address;
  abi : Abi;
  functionName : string;
  args : list Arg;
  step_value : option Z            (* [value?: bigint] *)
}.

Record BatchCall := mkCall {
  to : Address;
  data : Hex;
  value : option Z                 (* [value?: bigint] *)
}.

Record TokenTransfer := mkTransfer {
  tokenAddress : Address;
  amount : Z;
  tokenSymbol : option string
}.

Definition DEFAULT_BURN_ADDRESS : Address :=
  "0x000000000000000000000000000000000000dEaD".

(** A parameter with a default: an omitted argument takes it. *)
Definition burnAddressOr (burnAddress : option Address) : Address :=
  default DEFAULT_BURN_ADDRESS burnAddress.

Definition createTokenBurnSteps `{Viem}
    (tokenTransfers : list TokenTransfer) (burnAddress : option Address)
    : list TransactionStep :=
  imap (fun index transfer =>
          {| name := "Burn " +:+ JS.or_else (tokenSymbol transfer) "token"
                     +:+ " " +:+ pretty (Z.of_nat index + 1);
             contractAddress := tokenAddress transfer;
             abi := erc20Abi;
             functionName := "transfer";
             args := [AddressArg (burnAddressOr burnAddress);
                      BigIntArg (amount transfer)];
             step_value := None |})
       tokenTransfers.

Definition transactionStepsToBatchCalls `{Viem}
    (steps : list TransactionStep) : JS.Error + list BatchCall :=
  JS.mapThrow
    (fun step =>
       match encodeFunctionData (abi step) (functionName step) (args step) with
       | inl err => inl err
       | inr encoded =>
           inr {| to := contractAddress step;
                  data := encoded;
                  value := step_value step |}
       end)
    steps.

Definition createTokenBurnBatchCalls `{Viem}
    (tokenTransfers : list TokenTransfer) (burnAddress : option Address)
    : JS.Error + list BatchCall :=
  JS.mapThrow
    (fun transfer =>
       match encodeFunctionData erc20Abi "transfer"
               [AddressArg (burnAddressOr burnAddress);
                BigIntArg (amount transfer)] with
       | inl err => inl err
       | inr encoded =>
           inr {| to := tokenAddress transfer;
                  data := encoded;
                  value := None |}
       end)
    tokenTransfers.

(** ** Approve and mint *)

(** [mintValue: bigint = BigInt(0)] *)
Definition mintValueOr (mintValue : option Z) : Z := default 0 mintValue.

Definition createApproveAndMintSteps `{Viem}
    (erc20TokenAddress spenderAddress : Address) (approvalAmount : Z)
    (mintContractAddress : Address) (mintAbi : Abi) (mintFunctionName : string)
    (mintArgs : list Arg) (mintValue : option Z) : list TransactionStep :=
  [ {| name := "Approve tokens";
       contractAddress := erc20TokenAddress;
       abi := erc20Abi;
       functionName := "approve";
       args := [AddressArg spenderAddress; BigIntArg approvalAmount];
       step_value := None |};
    {| name := "Mint NFT";
       contractAddress := mintContractAddress;
       abi := mintAbi;
       functionName := mintFunctionName;
       args := mintArgs;
       step_value := Some (mintValueOr mintValue) |} ].

Definition createApproveAndMintBatchCalls `{Viem}
    (erc20TokenAddress spenderAddress : Address) (approvalAmount : Z)
    (mintContractAddress : Address) (mintAbi : Abi) (mintFunctionName : string)
    (mintArgs : list Arg) (mintValue : option Z) : JS.Error + list BatchCall :=
  match encodeFunctionData erc20Abi "approve"
          [AddressArg spenderAddress; BigIntArg approvalAmount] with
  | inl err => inl err
  | inr approveData =>
      match encodeFunctionData mintAbi mintFunctionName mintArgs with
      | inl err => inl err
      | inr mintData =>
          inr [ {| to := erc20TokenAddress;
                   data := approveData;
                   value := None |};
                {| to := mintContractAddress;
                   data := mintData;
                   value := Some (mintValueOr mintValue) |} ]
      end
  end.

(** ** [checkTokenApproval] *)

(** [publicClient.readContract] for [allowance(owner, spender)] on a
    token: the allowance, or a thrown error. *)
Definition ReadAllowance : Type := Address -> Address -> Address -> JS.Error + Z.

Definition checkTokenApproval (tokenAddress owner spender : Address) (amount : Z)
    (publicClient : ReadAllowance) : bool :=
  match publicClient tokenAddress owner spender with
  | inr allowance => amount <=? allowance
  | inl error => false
  end.

End BatchedTransactions.

(* ================================================================== *)
(** * src/app/api/tokens/[address]/route.ts *)
(* ================================================================== *)

Module Route.

(** ** Provider payloads *)

(** [interface ZapperToken], with the fields the query asks for. *)
Module ZapperToken.
Record t := mk {
  symbol : option string;
  tokenAddress : string;
  balance : string;
  balanceRaw : string;
  name : option string;
  decimals : option Z
}.
End ZapperToken.

Record ZapperEdge := { node : ZapperToken.t }.
Record ZapperByToken := { edges : option (list ZapperEdge) }.
Record ZapperTokenBalances := { byToken : option ZapperByToken }.
Record ZapperPortfolio := { tokenBalances : option ZapperTokenBalances }.
Record ZapperData := { portfolioV2 : option ZapperPortfolio }.
Record ZapperError := { zapper_message : option string }.
Record ZapperResponse := {
  errors : option (list ZapperError);
  zapper_data : option ZapperData
}.

(** A value that may be missing ([undefined]) or [null]. *)
Inductive Nullable (A : Type) :=
| Undefined
| Null
| Value (a : A).
Arguments Undefined {A}.
Arguments Null {A}.
Arguments Value {A} _.

(** [tokenMetadata] of [interface AlchemyPortfolioToken]. *)
Module TokenMetadata.
Record t := mk {
  decimals : Nullable Z;
  logo : option string;
  name : option string;
  symbol : option string
}.
End TokenMetadata.

(** [interface AlchemyPortfolioToken]; prices are not requested. *)
Module AlchemyPortfolioToken.
Record t := mk {
  address : string;
  network : string;
  tokenAddress : option string;
  tokenBalance : string;
  tokenMetadata : option TokenMetadata.t
}.
End AlchemyPortfolioToken.

Record AlchemyError := { alchemy_message : string }.
Record AlchemyData := {
  tokens : option (list AlchemyPortfolioToken.t);
  pageKey : option string
}.
Record AlchemyResponse := {
  error : option AlchemyError;
  alchemy_data : option AlchemyData
}.

(** ** The token the route answers with *)

(** A display string.  The Alchemy path computes it in floating point,
    [(parseInt(tokenBalance, 16) / Math.pow(10, decimals)).toString()];
    it is kept as that expression. *)
Inductive Display :=
| AsGiven (s : string)
| Quotient (tokenBalance : string) (decimals : Z).

(** Modelled from the spec: the [Token] type of [~/lib/types], which is
    not among the sources; its fields are the ones the object literals
    of the route set. *)
Record Token := mkToken {
  contractAddress : string;
  symbol : string;
  name : string;
  balance : string;
  balanceFormatted : Display
}.

(** ** The two endpoints *)

Class Network := {
  (** POST https://public.zapper.xyz/graphql, by API key and address *)
  zapperGraphql : string -> string -> Fetch ZapperResponse;
  (** POST .../assets/tokens/by-address, by API key, address and the
      page key of the request body *)
  alchemyTokensByAddress : string -> string -> option string -> Fetch AlchemyResponse
}.

(** ** [fetchWithRetry] *)

(** The loop [for (let i = 0; i < retries; i++)]: [remaining] is
    [retries - i], so the loop test holds exactly when it is not [0]. *)
Fixpoint attempt {B} (f : Fetch B) (retries : Z) (remaining : nat) (i : Z)
    : M (Response B) :=
  match remaining with
  | O => throw (JS.mkError "Max retries exceeded")
  | S remaining' =>
      tryCatch
        (response <- fetch f ;;
         if ok response then ret response
         else throw (JS.mkError ("HTTP " +:+ pretty (status response))))
        (fun err =>
           if i =? retries - 1 then throw err
           else
             let delay := 2 ^ i * 1000 in
             sleep delay ;;;
             attempt f retries remaining' (i + 1))
  end.

Definition fetchWithRetry {B} (f : Fetch B) (retries : option Z)
    : M (Response B) :=
  let retries := default 3 retries in
  attempt f retries (Z.to_nat retries) 0.

(** ** [fetchAlchemyPortfolioTokens] *)

Definition maxPages : nat := 10.

(** The [do ... while (pageKey)] loop; [remaining] is
    [maxPages - pageCount]. *)
Fixpoint fetchPages `{Network} (address alchemyApiKey : string)
    (remaining : nat) (pageKey0 : option string)
    (allTokens : list AlchemyPortfolioToken.t)
    : M (list AlchemyPortfolioToken.t) :=
  match remaining with
  | O => ret allTokens
  | S remaining' =>
      let requestPageKey := if JS.truthy_opt pageKey0 then pageKey0 else None in
      response <- fetchWithRetry
                    (alchemyTokensByAddress alchemyApiKey address requestPageKey)
                    None ;;
      data <- readJson response ;;
      match error data with
      | Some err =>
          throw (JS.mkError ("Alchemy Portfolio API Error: " +:+ alchemy_message err))
      | None =>
          let tokens := default [] (alchemy_data data ≫= tokens) in
          let allTokens := (allTokens ++ tokens)%list in
          let pageKey1 := alchemy_data data ≫= pageKey in
          if (remaining' =? 0)%nat then ret allTokens
          else if JS.truthy_opt pageKey1
               then fetchPages address alchemyApiKey remaining' pageKey1 allTokens
               else ret allTokens
      end
  end.

(** [token.tokenMetadata?.decimals] *)
Definition metadataDecimals (token : AlchemyPortfolioToken.t) : Nullable Z :=
  match AlchemyPortfolioToken.tokenMetadata token with
  | Some md => TokenMetadata.decimals md
  | None => Undefined
  end.

Definition notNull {A} (x : Nullable A) : bool :=
  match x with Null => false | _ => true end.

(** The filter: balance > 0, valid tokenAddress and decimals. *)
Definition hasBalance (token : AlchemyPortfolioToken.t) : bool :=
  JS.parseInt16_gt0 (AlchemyPortfolioToken.tokenBalance token)
  && JS.truthy_opt (AlchemyPortfolioToken.tokenAddress token)
  && notNull (metadataDecimals token).

(** The map.  It runs after the filter, when [tokenAddress] is a
    non-empty string. *)
Definition alchemyToToken (token : AlchemyPortfolioToken.t) : Token :=
  let md := AlchemyPortfolioToken.tokenMetadata token in
  let decimals := match metadataDecimals token with
                  | Value d => d
                  | _ => 18
                  end in
  {| contractAddress := default "" (AlchemyPortfolioToken.tokenAddress token);
     symbol := JS.or_else (md ≫= TokenMetadata.symbol) "UNKNOWN";
     name := JS.or_else (md ≫= TokenMetadata.name) "Unknown Token";
     balance := AlchemyPortfolioToken.tokenBalance token;
     balanceFormatted :=
       Quotient (AlchemyPortfolioToken.tokenBalance token) decimals |}.

Definition fetchAlchemyPortfolioTokens `{Network}
    (address alchemyApiKey : string) : M (list Token) :=
  allTokens <- fetchPages address alchemyApiKey maxPages None [] ;;
  ret (map alchemyToToken (filter (fun token => hasBalance token = true) allTokens)).

(** ** [fetchZapperTokens] *)

(** The callback of [edges.map]: a token, or [null]. *)
Definition zapperToToken (edge : ZapperEdge) : option Token :=
  let token := node edge in
  if JS.Number_gt0 (ZapperToken.balance token)
     || JS.Number_gt0 (ZapperToken.balanceRaw token)
  then Some {| contractAddress := ZapperToken.tokenAddress token;
               symbol := JS.or_else (ZapperToken.symbol token) "UNKNOWN";
               name := JS.or_else (ZapperToken.name token) "Unknown Token";
               balance := ZapperToken.balanceRaw token;
               balanceFormatted := AsGiven (ZapperToken.balance token) |}
  else None.

(** [data.errors[0]?.message] *)
Definition firstMessage (errs : list ZapperError) : option string :=
  head errs ≫= zapper_message.

(** [data.data?.portfolioV2] *)
Definition portfolioOf (data : ZapperResponse) : option ZapperPortfolio :=
  zapper_data data ≫= portfolioV2.

(** [tokenBalances?.byToken?.edges] *)
Definition edgesOf (tokenBalances : option ZapperTokenBalances)
    : option (list ZapperEdge) :=
  (tokenBalances ≫= byToken) ≫= edges.

Definition fetchZapperTokens `{Network}
    (address zapperApiKey : string) : M (list Token) :=
  response <- fetchWithRetry (zapperGraphql zapperApiKey address) None ;;
  data <- readJson response ;;
  match errors data with
  | Some errs =>
      throw (JS.mkError
               ("Zapper API Error: "
                +:+ JS.or_else (firstMessage errs) "Unknown error"))
  | None =>
      match portfolioOf data with
      | None => throw (JS.mkError "No portfolio data returned from Zapper")
      | Some portfolio =>
          match edgesOf (tokenBalances portfolio) with
          | None => ret []
          | Some edges => ret (omap zapperToToken edges)   (* map, filter(Boolean) *)
          end
      end
  end.

(** ** [GET] *)

Record Env := {
  ZAPPER_API_KEY : option string;
  ALCHEMY_API_KEY : option string;
  NEXT_PUBLIC_ALCHEMY_API_KEY : option string
}.

Inductive Body :=
| TokensBody (tokens : list Token) (source : string)
| ErrorBody (error : string).

Record NextResponse := { body : Body; statusCode : Z }.

(** [NextResponse.json(body, { status })]; the status defaults to 200. *)
Definition NextResponse_json (b : Body) (status : option Z) : NextResponse :=
  {| body := b; statusCode := default 200 status |}.

(** [allTokens.sort((a, b) => a.symbol.localeCompare(b.symbol))] *)
Definition sortBySymbol `{JS.Intl} (allTokens : list Token) : list Token :=
  JS.sort (fun a b => JS.localeCompare (symbol a) (symbol b)) allTokens.

(** Step 1.  [inl] is a response returned from inside the block, [inr]
    the value of [allTokens] with which control goes on. *)
Definition tryZapper `{JS.Intl} `{Network} (address : string)
    (zapperApiKey : option string) (allTokens : list Token)
    : M (NextResponse + list Token) :=
  if JS.truthy_opt zapperApiKey then
    tryCatch
      (zapperTokens <- fetchZapperTokens address (default "" zapperApiKey) ;;
       let allTokens := zapperTokens in
       if (0 <? length allTokens)%nat
       then ret (inl (NextResponse_json
                        (TokensBody (sortBySymbol allTokens) "zapper") None))
       else ret (inr allTokens))
      (fun zapperError => ret (inr allTokens))
  else ret (inr allTokens).

(** Step 2. *)
Definition tryAlchemy `{JS.Intl} `{Network} (address : string)
    (alchemyApiKey : option string) (allTokens : list Token)
    : M (NextResponse + list Token) :=
  if JS.truthy_opt alchemyApiKey then
    tryCatch
      (alchemyTokens <- fetchAlchemyPortfolioTokens address (default "" alchemyApiKey) ;;
       let allTokens := alchemyTokens in
       if (0 <? length allTokens)%nat
       then ret (inl (NextResponse_json
                        (TokensBody (sortBySymbol allTokens) "alchemy-portfolio") None))
       else ret (inr allTokens))
      (fun alchemyError => ret (inr allTokens))
  else ret (inr allTokens).

Definition GET `{JS.Intl} `{Network} (env : Env) (address : string)
    : M NextResponse :=
  let zapperApiKey := ZAPPER_API_KEY env in
  let alchemyApiKey :=
    JS.or_opt (ALCHEMY_API_KEY env) (NEXT_PUBLIC_ALCHEMY_API_KEY env) in
  if negb (JS.truthy address)
  then ret (NextResponse_json (ErrorBody "Address is required") (Some 400))
  else
    tryCatch
      (step1 <- tryZapper address zapperApiKey [] ;;
       match step1 with
       | inl response => ret response
       | inr allTokens =>
           step2 <- tryAlchemy address alchemyApiKey allTokens ;;
           match step2 with
           | inl response => ret response
           | inr allTokens =>
               if negb (JS.truthy_opt zapperApiKey)
                  && negb (JS.truthy_opt alchemyApiKey)
               then ret (NextResponse_json
                           (ErrorBody "No API keys configured. Please set ZAPPER_API_KEY or ALCHEMY_API_KEY")
                           (Some 500))
               else ret (NextResponse_json
                           (TokensBody (sortBySymbol allTokens) "none") None)
           end
       end)
      (fun error =>
         ret (NextResponse_json
                (ErrorBody ("Failed to fetch tokens: " +:+ JS.message error))
                (Some 500))).

End Route.

(* ================================================================== *)
(** * src/components/token-burner.tsx *)
(* ================================================================== *)

(** The client direct-fetch variant.  The [setLoadingState] calls that
    only move the progress bar are left out; the retry callbacks, which
    [fetchWithRetry] invokes, are kept as [Retrying] events. *)
Module TokenBurner.

Record Token := mkToken {
  contractAddress : string;
  name : string;
  symbol : string;
  balance : string;
  decimals : Z;
  logo : option string;
  isPriority : option bool
}.

Module TokenCache.
Record t := mk { symbol : string; name : string; decimals : Z }.
End TokenCache.

Definition BURN_ADDRESS : string := "0x000000000000000000000000000000000000dEaD".

Definition BASE_PRIORITY_TOKENS : list string :=
  map JS.toLowerCase
    [ "0x833589fCD6eDb6E08f4c7C32D4f71b54bdA02913";   (* USDC *)
      "0x4ed4E862860beD51a9570b96d89aF5E1B0Efefed";   (* DEGEN *)
      "0x4200000000000000000000000000000000000006";   (* WETH *)
      "0x1111111111166b7fe7bd91427724b487980afc69";   (* ZORA *)
      "0x44ff8620b8ca30902395a7bd3f2407e1a091bf73";   (* VIRTUALS *)
      "0x58d97b57bb95320f9a05dc918aef65434969c2b2";   (* MORPHO *)
      "0x1abaea1f7c830bd89acc67ec4af516284b1bc33c";   (* EURC *)
      "0x40d16fc0246ad3160ccc09b8d0d3a2cd28ae6c2f";   (* GHO *)
      "0x2Ae3F1Ec7F1F5012CFEab0185bfc7aa3cf0DEc22";   (* cbETH *)
      "0x50c5725949A6F0c72E6C4a641F24049A917DB0Cb" ]. (* DAI *)

(** The own entries of the object.  The code reads it with
    [TOKEN_METADATA_CACHE[lowerAddress]], which for a name that every
    object inherits ([constructor], [__proto__]) finds the inherited
    value instead of nothing; the map is what the read finds for every
    other string, among them [0x] and hexadecimal digits. *)
Definition TOKEN_METADATA_CACHE : gmap string TokenCache.t :=
  list_to_map
    [ ("0x833589fcd6edb6e08f4c7c32d4f71b54bda02913", TokenCache.mk "USDC" "USD Coin" 6);
      ("0x4ed4e862860bed51a9570b96d89af5e1b0efefed", TokenCache.mk "DEGEN" "Degen" 18);
      ("0x4200000000000000000000000000000000000006", TokenCache.mk "WETH" "Wrapped Ether" 18);
      ("0x1111111111166b7fe7bd91427724b487980afc69", TokenCache.mk "ZORA" "Zora" 18);
      ("0x44ff8620b8ca30902395a7bd3f2407e1a091bf73", TokenCache.mk "VIRTUAL" "Virtuals Protocol" 18);
      ("0x58d97b57bb95320f9a05dc918aef65434969c2b2", TokenCache.mk "MORPHO" "Morpho Token" 18);
      ("0x1abaea1f7c830bd89acc67ec4af516284b1bc33c", TokenCache.mk "EURC" "Euro Coin" 6);
      ("0x40d16fc0246ad3160ccc09b8d0d3a2cd28ae6c2f", TokenCache.mk "GHO" "GHO Token" 18);
      ("0x2ae3f1ec7f1f5012cfeab0185bfc7aa3cf0dec22", TokenCache.mk "cbETH" "Coinbase Wrapped ETH" 18);
      ("0x50c5725949a6f0c72e6c4a641f24049a917db0cb", TokenCache.mk "DAI" "Dai Stablecoin" 18) ].

(** ** The Alchemy JSON-RPC endpoint *)

Record TokenBalance := { tb_contractAddress : string; tokenBalance : string }.
Record BalancesResult := { tokenBalances : option (list TokenBalance) }.
Record RpcError := { rpc_message : string }.
Record BalancesResponse := {
  rpc_error : option RpcError;
  balances_result : option BalancesResult
}.

Module Metadata.
Record t := mk {
  name : option string;
  symbol : option string;
  decimals : option Z;
  logo : option string
}.
End Metadata.
Record MetadataResponse := { metadata_result : option Metadata.t }.

(** The second parameter of [alchemy_getTokenBalances]. *)
Inductive BalancesOf :=
| Erc20                               (* ['erc20'] *)
| Contracts (addresses : list string).

Class Network := {
  (** [alchemy_getTokenBalances], by API key, address and token set *)
  getTokenBalances : string -> string -> BalancesOf -> Fetch BalancesResponse;
  (** [alchemy_getTokenMetadata], by API key and contract address *)
  getTokenMetadata : string -> string -> Fetch MetadataResponse
}.

(** ** [fetchWithRetry] *)

(** As in the route, with the optional [onRetry] callback invoked
    before each wait. *)
Fixpoint attempt {B} (f : Fetch B) (retries : Z)
    (onRetry : option (Z -> Z -> M unit)) (remaining : nat) (i : Z)
    : M (Response B) :=
  match remaining with
  | O => throw (JS.mkError "Max retries exceeded")
  | S remaining' =>
      tryCatch
        (response <- fetch f ;;
         if ok response then ret response
         else throw (JS.mkError ("HTTP " +:+ pretty (status response))))
        (fun err =>
           if i =? retries - 1 then throw err
           else
             let delay := 2 ^ i * 1000 in
             match onRetry with
             | Some onRetry => onRetry (i + 1) retries
             | None => ret tt
             end ;;;
             sleep delay ;;;
             attempt f retries onRetry remaining' (i + 1))
  end.

Definition fetchWithRetry {B} (f : Fetch B) (retries : option Z)
    (onRetry : option (Z -> Z -> M unit)) : M (Response B) :=
  let retries := default 3 retries in
  attempt f retries onRetry (Z.to_nat retries) 0.

(** The callbacks the component passes: they put the retry count into
    the loading state. *)
Definition reportRetry : Z -> Z -> M unit :=
  fun retryCount maxRetries => record (Retrying retryCount maxRetries).

(** ** [fetchTokenMetadata] *)

(** [BASE_PRIORITY_TOKENS.includes(lowerAddress)] *)
Definition includesPriority (lowerAddress : string) : bool :=
  bool_decide (lowerAddress ∈ BASE_PRIORITY_TOKENS).

(** [metadata.decimals || 18] *)
Definition decimalsOr18 (d : option Z) : Z :=
  match d with
  | Some z => if z =? 0 then 18 else z
  | None => 18
  end.

Definition fetchTokenMetadata `{Network} (contractAddress alchemyApiKey : string)
    (onRetry : option (Z -> Z -> M unit)) : M (option Token) :=
  let lowerAddress := JS.toLowerCase contractAddress in
  match TOKEN_METADATA_CACHE !! lowerAddress with
  | Some cachedMetadata =>
      ret (Some {| contractAddress := contractAddress;
                   name := TokenCache.name cachedMetadata;
                   symbol := TokenCache.symbol cachedMetadata;
                   balance := "0";
                   decimals := TokenCache.decimals cachedMetadata;
                   logo := None;
                   isPriority := Some (includesPriority lowerAddress) |})
  | None =>
      tryCatch
        (response <- fetchWithRetry (getTokenMetadata alchemyApiKey contractAddress)
                       (Some 3) onRetry ;;
         metadataData <- readJson response ;;
         match metadata_result metadataData with
         | Some metadata =>
             ret (Some {| contractAddress := contractAddress;
                          name := JS.or_else (Metadata.name metadata) "Unknown Token";
                          symbol := JS.or_else (Metadata.symbol metadata) "UNKNOWN";
                          balance := "0";
                          decimals := decimalsOr18 (Metadata.decimals metadata);
                          logo := Metadata.logo metadata;
                          isPriority := Some (includesPriority lowerAddress) |})
         | None => ret None
         end)
        (fun err => ret None)
  end.

(** [metadata.balance = token.tokenBalance] *)
Definition withBalance (metadata : Token) (balance : string) : Token :=
  {| contractAddress := contractAddress metadata;
     name := name metadata;
     symbol := symbol metadata;
     balance := balance;
     decimals := decimals metadata;
     logo := logo metadata;
     isPriority := isPriority metadata |}.

(** ** The component state *)

Record State := mkState {
  tokens : list Token;
  selectedTokens : gset string;
  showConfirmation : bool;
  error : option string;
  allTokensLoaded : bool
}.

Definition setTokens (l : list Token) (st : State) : State :=
  mkState l (selectedTokens st) (showConfirmation st) (error st) (allTokensLoaded st).
Definition setSelectedTokens (s : gset string) (st : State) : State :=
  mkState (tokens st) s (showConfirmation st) (error st) (allTokensLoaded st).
Definition setError (e : option string) (st : State) : State :=
  mkState (tokens st) (selectedTokens st) (showConfirmation st) e (allTokensLoaded st).
Definition setAllTokensLoaded (b : bool) (st : State) : State :=
  mkState (tokens st) (selectedTokens st) (showConfirmation st) (error st) b.

(** ** [fetchPriorityTokens] and [fetchAllTokens] *)

(** [data.result?.tokenBalances || []] *)
Definition balancesOf (data : BalancesResponse) : list TokenBalance :=
  default [] (balances_result data ≫= tokenBalances).

Definition isTruthy (b : option bool) : bool := default false b.

(** The comparator of the full scan: priority tokens first, then by
    symbol. *)
Definition compareTokens `{JS.Intl} (a b : Token) : Z :=
  if isTruthy (isPriority a) && negb (isTruthy (isPriority b)) then -1
  else if negb (isTruthy (isPriority a)) && isTruthy (isPriority b) then 1
  else JS.localeCompare (symbol a) (symbol b).

Definition sortTokens `{JS.Intl} (l : list Token) : list Token :=
  JS.sort compareTokens l.

Definition sortBySymbol `{JS.Intl} (l : list Token) : list Token :=
  JS.sort (fun a b => JS.localeCompare (symbol a) (symbol b)) l.

(** The loop of [fetchPriorityTokens] over [tokenBalances]. *)
Fixpoint priorityLoop `{Network} (alchemyApiKey : string)
    (tokenBalances : list TokenBalance) : M (list Token) :=
  match tokenBalances with
  | [] => ret []
  | token :: rest =>
      if JS.parseInt16_gt0 (tokenBalance token) then
        metadata <- fetchTokenMetadata (tb_contractAddress token) alchemyApiKey
                      (Some reportRetry) ;;
        pushed <- priorityLoop alchemyApiKey rest ;;
        ret (match metadata with
             | Some metadata => withBalance metadata (tokenBalance token) :: pushed
             | None => pushed
             end)
      else priorityLoop alchemyApiKey rest
  end.

Definition fetchPriorityTokens `{JS.Intl} `{Network}
    (address alchemyApiKey : option string) (st : State) : M State :=
  if negb (JS.truthy_opt address) || negb (JS.truthy_opt alchemyApiKey) then
    if negb (JS.truthy_opt alchemyApiKey)
    then ret (setError (Some "Alchemy API key not configured. Please check your environment variables.") st)
    else ret st
  else
    let address := default "" address in
    let alchemyApiKey := default "" alchemyApiKey in
    let st := setError None st in
    tryCatch
      (response <- fetchWithRetry
                     (getTokenBalances alchemyApiKey address (Contracts BASE_PRIORITY_TOKENS))
                     (Some 3) (Some reportRetry) ;;
       data <- readJson response ;;
       match rpc_error data with
       | Some err => throw (JS.mkError ("API Error: " +:+ rpc_message err))
       | None =>
           tokensWithMetadata <- priorityLoop alchemyApiKey (balancesOf data) ;;
           ret (setTokens (sortBySymbol tokensWithMetadata) st)
       end)
      (fun err =>
         ret (setError (Some ("Failed to fetch priority tokens: " +:+ JS.message err)) st)).

(** The loop of [fetchAllTokens] over [tokensWithBalance]. *)
Fixpoint metadataLoop `{Network} (alchemyApiKey : string)
    (tokensWithBalance : list TokenBalance) : M (list Token) :=
  match tokensWithBalance with
  | [] => ret []
  | token :: rest =>
      metadata <- fetchTokenMetadata (tb_contractAddress token) alchemyApiKey
                    (Some reportRetry) ;;
      pushed <- metadataLoop alchemyApiKey rest ;;
      ret (match metadata with
           | Some metadata => withBalance metadata (tokenBalance token) :: pushed
           | None => pushed
           end)
  end.

Definition fetchAllTokens `{JS.Intl} `{Network}
    (address alchemyApiKey : option string) (st : State) : M State :=
  if negb (JS.truthy_opt address) || negb (JS.truthy_opt alchemyApiKey) then ret st
  else
    let address := default "" address in
    let alchemyApiKey := default "" alchemyApiKey in
    let st := setError None st in
    tryCatch
      (response <- fetchWithRetry
                     (getTokenBalances alchemyApiKey address Erc20)
                     (Some 3) (Some reportRetry) ;;
       data <- readJson response ;;
       match rpc_error data with
       | Some err => throw (JS.mkError ("API Error: " +:+ rpc_message err))
       | None =>
           let tokenBalances := balancesOf data in
           let tokensWithBalance :=
             filter (fun token => JS.parseInt16_gt0 (tokenBalance token) = true)
                    tokenBalances in
           tokensWithMetadata <- metadataLoop alchemyApiKey tokensWithBalance ;;
           let sortedTokens := sortTokens tokensWithMetadata in
           ret (setAllTokensLoaded true (setTokens sortedTokens st))
       end)
      (fun err =>
         ret (setError (Some ("Failed to fetch all tokens: " +:+ JS.message err)) st)).

(** ** Selection *)

Definition selectedTokensList (st : State) : list Token :=
  filter (fun token => contractAddress token ∈ selectedTokens st) (tokens st).

Definition handleTokenSelect (contractAddress : string) (checked : bool)
    (st : State) : State :=
  let newSelected := selectedTokens st in          (* [new Set(selectedTokens)] *)
  let newSelected :=
    if checked then {[contractAddress]} ∪ newSelected   (* [add] *)
    else newSelected ∖ {[contractAddress]} in           (* [delete] *)
  setSelectedTokens newSelected st.

(** ** [handleBurnTokens]: one transaction per token, in sequence *)

(** What the handler does towards the wallet and the clock:
    [writeContract] is wagmi's mutation, which returns at once and reports
    a failure through [writeError], not by throwing. *)
Inductive Action `{BatchedTransactions.Viem} :=
| WriteContract (address : string) (abi : BatchedTransactions.Abi)
    (functionName : string) (args : list BatchedTransactions.Arg) (chainId : Z)
| Pause (ms : Z).

(** [base.id] *)
Definition base_id : Z := 8453.

(** The [for] loop over [selectedTokensList], from its element [token]
    on: what was done, and the error that ended it, if any. *)
Fixpoint burnLoop `{BatchedTransactions.Viem} (l : list Token)
    : list Action * option JS.Error :=
  match l with
  | [] => ([], None)
  | token :: rest =>
      match JS.BigInt (balance token) with
      | inl err => ([], Some err)
      | inr balance =>
          let write :=
            WriteContract (contractAddress token) BatchedTransactions.erc20Abi
              "transfer"
              [BatchedTransactions.AddressArg BURN_ADDRESS;
               BatchedTransactions.BigIntArg balance]
              base_id in
          let pause := match rest with
                       | [] => []                 (* [i < length - 1] fails *)
                       | _ :: _ => [Pause 1000]
                       end in
          let '(done, err) := burnLoop rest in
          (write :: pause ++ done, err)
      end
  end.

Definition handleBurnTokens `{BatchedTransactions.Viem} (publicClient : bool)
    (st : State) : list Action * State :=
  if negb publicClient || (length (selectedTokensList st) =? 0)%nat then ([], st)
  else
    let '(done, err) := burnLoop (selectedTokensList st) in
    (done,
     match err with
     | Some err => setError (Some ("Transaction failed: " +:+ JS.message err)) st
     | None => st
     end).

End TokenBurner.

(* ================================================================== *)
(** * The batched variant of the component ([useSendCalls]) *)
(* ================================================================== *)

Module BatchBurner.

Import BatchedTransactions.

Definition BURN_ADDRESS : Address := "0x000000000000000000000000000000000000dEaD".

(** [base.id] *)
Definition base_id : Z := 8453.

Record State := mkState {
  tokens : list Route.Token;
  selectedTokens : gset string;
  showConfirmation : bool;
  error : option string
}.

Definition setSelectedTokens (s : gset string) (st : State) : State :=
  mkState (tokens st) s (showConfirmation st) (error st).
Definition setError (e : option string) (st : State) : State :=
  mkState (tokens st) (selectedTokens st) (showConfirmation st) e.

(** What [useWaitForCallsStatus] reports as [data]. *)
Record CallsStatus := { calls_status : option string }.

(** The effect on [isCallsSuccess, callsStatus]: reset the selected
    tokens when the burn is successful. *)
Definition successEffect (isCallsSuccess : bool) (callsStatus : option CallsStatus)
    (st : State) : State :=
  if isCallsSuccess
     && bool_decide ((callsStatus ≫= calls_status) = Some "success")
  then setSelectedTokens ∅ st
  else st.

Definition selectedTokensList (st : State) : list Route.Token :=
  filter (fun token => Route.contractAddress token ∈ selectedTokens st) (tokens st).

Definition handleTokenSelect (contractAddress : string) (checked : bool)
    (st : State) : State :=
  let newSelected := selectedTokens st in          (* [new Set(selectedTokens)] *)
  let newSelected :=
    if checked then {[contractAddress]} ∪ newSelected   (* [add] *)
    else newSelected ∖ {[contractAddress]} in           (* [delete] *)
  setSelectedTokens newSelected st.

(** The argument of [sendCalls]. *)
Record SendCalls := { calls : list BatchCall; chainId : Z }.

(** The callback of [selectedTokensList.map(token => ...)]: [BigInt]
    throws on a balance that is not an integer literal, and
    [encodeFunctionData] on an amount that is not a uint256. *)
Definition burnCall `{Viem} (token : Route.Token) : JS.Error + BatchCall :=
  match JS.BigInt (Route.balance token) with
  | inl err => inl err
  | inr balance =>
      match encodeFunctionData erc20Abi "transfer"
              [AddressArg BURN_ADDRESS; BigIntArg balance] with
      | inl err => inl err
      | inr encoded =>
          inr {| to := Route.contractAddress token;
                 data := encoded;
                 value := None |}
      end
  end.

Definition burnCalls `{Viem} (l : list Route.Token) : JS.Error + list BatchCall :=
  JS.mapThrow burnCall l.

(** [handleBurnTokens]: the request handed to the wallet, if any, and
    the state it leaves.  [publicClient] tells whether the client is
    there. *)
Definition handleBurnTokens `{Viem} (publicClient : bool) (st : State)
    : option SendCalls * State :=
  if negb publicClient || (length (selectedTokensList st) =? 0)%nat then (None, st)
  else
    let st := setError None st in
    match burnCalls (selectedTokensList st) with
    | inr calls => (Some {| calls := calls; chainId := base_id |}, st)
    | inl err =>
        (None, setError (Some ("Batched token burn failed: " +:+ JS.message err)) st)
    end.

End BatchBurner.

(* ================================================================== *)
(** * Vocabulary of the statements *)
(* ================================================================== *)

(** An attempt fails when [fetch] rejects or the response is not ok. *)
Definition failed {B} (o : FetchOutcome B) : bool :=
  match o with
  | Rejected _ => true
  | Resolved r => negb (ok r)
  end.

(** The error a failed attempt raises inside [fetchWithRetry]. *)
Definition failure {B} (o : FetchOutcome B) : JS.Error :=
  match o with
  | Rejected e => e
  | Resolved r => JS.mkError ("HTTP " +:+ pretty (status r))
  end.

(** The [onRetry] argument: the component's callback, or none. *)
Definition callback (report : bool) : option (Z -> Z -> M unit) :=
  if report then Some TokenBurner.reportRetry else None.

(** What [n] failed rounds from round [i] on leave in the log: a wait of
    [2^i] seconds each, after the retry report when there is a callback. *)
Fixpoint reported (report : bool) (retries i : Z) (n : nat) : list Event :=
  match n with
  | O => []
  | S n' =>
      (if report then [Retrying (i + 1) retries] else [])
      ++ Slept (2 ^ i * 1000) :: reported report retries (i + 1) n'
  end.

(** The attempts [from], ..., [from + n - 1] of the network all fail. *)
Definition allFailed {B} (f : Fetch B) (from n : nat) : bool :=
  forallb (fun j => failed (f (from + j)%nat)) (seq 0 n).

(** The waits of a call whose attempts all fail, in milliseconds: one
    after each attempt but the last. *)
Definition waits (retries : Z) : list Z :=
  (fun j => 2 ^ Z.of_nat j * 1000) <$> seq 0 (Z.to_nat retries - 1).

(** A server that answers every request with the given status. *)
Definition alwaysStatus (status : Z) : Fetch unit :=
  fun _ => Resolved (mkResponse status (inr tt)).

(** A network on which every request is rejected. *)
Definition unreachable : Fetch unit :=
  fun _ => Rejected (JS.mkError "fetch failed").

(** With the comparator [cmp], [a] may stand before [b]. *)
Definition before {A} (cmp : A → A → Z) (a b : A) : Prop := cmp a b <= 0.

(** A collation is consistent when it is total and transitive. *)
Definition consistent `{JS.Intl} : Prop :=
  (∀ a b, JS.localeCompare a b <= 0 ∨ JS.localeCompare b a <= 0)
  ∧ (∀ a b c, JS.localeCompare a b <= 0 → JS.localeCompare b c <= 0
              → JS.localeCompare a c <= 0).

(** A small consistent collation for the examples: shorter strings
    first. *)
Definition byLength : JS.Intl :=
  {| JS.localeCompare a b := Z.of_nat (String.length a) - Z.of_nat (String.length b) |}.

(** A client token with the given address, symbol and priority flag. *)
Definition clientToken (address symbol : string) (priority : bool) : TokenBurner.Token :=
  TokenBurner.mkToken address symbol symbol "0x1" 18 None (Some priority).

(** The Zapper path keeps a token when its formatted balance or its raw
    balance is a number above zero; the token carries both. *)
Definition zapperKept (t : Route.Token) : bool :=
  match Route.balanceFormatted t with
  | Route.AsGiven formatted => JS.Number_gt0 formatted || JS.Number_gt0 (Route.balance t)
  | Route.Quotient _ _ => false
  end.

(** The same test on a node of the Zapper answer. *)
Definition zapperNonzero (token : Route.ZapperToken.t) : bool :=
  JS.Number_gt0 (Route.ZapperToken.balance token)
  || JS.Number_gt0 (Route.ZapperToken.balanceRaw token).

(** Sample payloads. *)
Definition zapperEdge (address symbol formatted raw : string) : Route.ZapperEdge :=
  {| Route.node := Route.ZapperToken.mk (Some symbol) address formatted raw
                     (Some symbol) (Some 18) |}.

Definition zapperBody (edges : list Route.ZapperEdge) : Route.ZapperResponse :=
  {| Route.errors := None;
     Route.zapper_data :=
       Some {| Route.portfolioV2 :=
                 Some {| Route.tokenBalances :=
                           Some {| Route.byToken :=
                                     Some {| Route.edges := Some edges |} |} |} |} |}.

Definition alchemyToken (address : option string) (balance symbol : string)
    (decimals : Route.Nullable Z) : Route.AlchemyPortfolioToken.t :=
  Route.AlchemyPortfolioToken.mk "0xowner" "base-mainnet" address balance
    (Some (Route.TokenMetadata.mk decimals None (Some symbol) (Some symbol))).

Definition alchemyPage (tokens : list Route.AlchemyPortfolioToken.t)
    : Route.AlchemyResponse :=
  {| Route.error := None;
     Route.alchemy_data := Some {| Route.tokens := Some tokens; Route.pageKey := None |} |}.

(** A network on which both providers answer with the given bodies. *)
Definition bothAnswer (body : Route.ZapperResponse) (page : Route.AlchemyResponse)
    : Route.Network :=
  {| Route.zapperGraphql _ _ _ := Resolved (mkResponse 200 (inr body));
     Route.alchemyTokensByAddress _ _ _ _ := Resolved (mkResponse 200 (inr page)) |}.

(** A network on which Zapper cannot be reached and Alchemy answers. *)
Definition zapperDown (page : Route.AlchemyResponse) : Route.Network :=
  {| Route.zapperGraphql _ _ _ := Rejected (JS.mkError "fetch failed");
     Route.alchemyTokensByAddress _ _ _ _ := Resolved (mkResponse 200 (inr page)) |}.

(** An environment with both keys set. *)
Definition bothKeys : Route.Env :=
  {| Route.ZAPPER_API_KEY := Some "zapper-key";
     Route.ALCHEMY_API_KEY := Some "alchemy-key";
     Route.NEXT_PUBLIC_ALCHEMY_API_KEY := None |}.

(** A network call that is rejected the first [failures] times and
    answered with status 200 from then on. *)
Definition flaky (failures : nat) : Fetch unit :=
  fun n => if (n <? failures)%nat
           then Rejected (JS.mkError "fetch failed")
           else Resolved (mkResponse 200 (inr tt)).

(** [data.data?.tokens || []] of a page. *)
Definition pageTokens (page : Route.AlchemyResponse)
    : list Route.AlchemyPortfolioToken.t :=
  default [] (Route.alchemy_data page ≫= Route.tokens).

(** The pages a server hands out when its continuation keys are
    followed from [pageKey], at most [remaining] of them: [answer] gives
    the page for the key of a request. *)
Fixpoint follow (answer : option string → Route.AlchemyResponse)
    (remaining : nat) (pageKey : option string) : list Route.AlchemyResponse :=
  match remaining with
  | O => []
  | S remaining' =>
      let page := answer (if JS.truthy_opt pageKey then pageKey else None) in
      let next := Route.alchemy_data page ≫= Route.pageKey in
      page :: (if JS.truthy_opt next then follow answer remaining' next else [])
  end.

(** A network whose Alchemy endpoint answers every request with the page
    for its key; Zapper cannot be reached. *)
Definition pagedAlchemy (answer : option string → Route.AlchemyResponse)
    : Route.Network :=
  {| Route.zapperGraphql _ _ _ := Rejected (JS.mkError "fetch failed");
     Route.alchemyTokensByAddress _ _ pageKey _ :=
       Resolved (mkResponse 200 (inr (answer pageKey))) |}.

(** Two pages, the first of which names the second. *)
Definition twoPages (pageKey : option string) : Route.AlchemyResponse :=
  match pageKey with
  | None =>
      {| Route.error := None;
         Route.alchemy_data :=
           Some {| Route.tokens :=
                     Some [alchemyToken (Some "0xt1") "0x2a" "ONE" (Route.Value 6)];
                   Route.pageKey := Some "page-2" |} |}
  | Some _ => alchemyPage [alchemyToken (Some "0xt2") "0x10" "TWO" (Route.Value 18)]
  end.

(** A Zapper answer that carries both a token and a list of GraphQL
    errors. *)
Definition zapperBodyWithErrors (errs : list Route.ZapperError) : Route.ZapperResponse :=
  {| Route.errors := Some errs;
     Route.zapper_data := Route.zapper_data (zapperBody [zapperEdge "0xt0" "TKN" "1" "1000"]) |}.

(** A client network on which every request is rejected. *)
Definition clientDown : TokenBurner.Network :=
  {| TokenBurner.getTokenBalances _ _ _ _ := Rejected (JS.mkError "fetch failed");
     TokenBurner.getTokenMetadata _ _ _ := Rejected (JS.mkError "fetch failed") |}.

(** A client network that answers the balance request with the given
    entries and has no metadata to give. *)
Definition balancesOnly (entries : list TokenBurner.TokenBalance) : TokenBurner.Network :=
  {| TokenBurner.getTokenBalances _ _ _ _ :=
       Resolved (mkResponse 200
                   (inr {| TokenBurner.rpc_error := None;
                           TokenBurner.balances_result :=
                             Some {| TokenBurner.tokenBalances := Some entries |} |}));
     TokenBurner.getTokenMetadata _ _ _ := Rejected (JS.mkError "fetch failed") |}.

(** An initial state of the client component. *)
Definition emptyState : TokenBurner.State :=
  TokenBurner.mkState [] ∅ false None false.

(** The token the client lists for a balance entry of a priority token:
    the metadata of the built-in table under the entry's address and raw
    balance. *)
Definition fromCache (entry : TokenBurner.TokenBalance) (t : TokenBurner.Token) : Prop :=
  ∃ cached,
    TokenBurner.TOKEN_METADATA_CACHE
      !! JS.toLowerCase (TokenBurner.tb_contractAddress entry) = Some cached
    ∧ t = TokenBurner.mkToken (TokenBurner.tb_contractAddress entry)
            (TokenBurner.TokenCache.name cached) (TokenBurner.TokenCache.symbol cached)
            (TokenBurner.tokenBalance entry) (TokenBurner.TokenCache.decimals cached)
            None (Some true).

(** The transaction the sequential handler writes for a token and the
    amount read from its balance. *)
Definition burnWrite `{BatchedTransactions.Viem} (t : TokenBurner.Token) (amount : Z)
    : TokenBurner.Action :=
  TokenBurner.WriteContract (TokenBurner.contractAddress t)
    BatchedTransactions.erc20Abi "transfer"
    [BatchedTransactions.AddressArg "0x000000000000000000000000000000000000dEaD";
     BatchedTransactions.BigIntArg amount]
    8453.

(** The transfer of the whole of a token of the batched component. *)
Definition burnTransfer (t : Route.Token) (amount : Z) : BatchedTransactions.TokenTransfer :=
  BatchedTransactions.mkTransfer (Route.contractAddress t) amount None.

(** The strings Alchemy gives as raw balances: [0x] and one or more
    hexadecimal digits. *)
Fixpoint allChars (p : ascii → bool) (s : string) : bool :=
  match s with
  | EmptyString => true
  | String c s' => p c && allChars p s'
  end.

Definition isHexDigit (c : ascii) : bool :=
  match JS.digitOf 16 c with Some _ => true | None => false end.

Definition hexLiteral (s : string) : bool :=
  match s with
  | String "0" (String "x" (String c r)) => isHexDigit c && allChars isHexDigit r
  | _ => false
  end.

(** What a contract address looks like: [0x] and forty hexadecimal
    digits. *)
Definition isAddress (s : string) : bool :=
  match s with
  | String "0" (String "x" r) => (String.length r =? 40)%nat && allChars isHexDigit r
  | _ => false
  end.

(** A call that returns, rather than throws. *)
Definition returns {A : Type} (r : JS.Error + A) : Prop := ∃ a, r = inr a.

(** An encoder to run the examples with.  Like viem's on the ERC20
    functions, it refuses an address argument that is not an address and an
    amount outside uint256 (the checksum of an address in mixed case is not
    looked at); the call data it gives names the function and shows its
    arguments. *)
Definition plainViem : BatchedTransactions.Viem :=
  {| BatchedTransactions.Abi := unit;
     BatchedTransactions.erc20Abi := tt;
     BatchedTransactions.encodeFunctionData _ functionName args :=
       if forallb (fun arg => match arg with
                              | BatchedTransactions.AddressArg a => isAddress a
                              | BatchedTransactions.BigIntArg n =>
                                  (0 <=? n) && (n <? 2 ^ 256)
                              end) args
       then inr (functionName +:+ "("
                 +:+ String.concat ","
                       ((fun arg => match arg with
                                    | BatchedTransactions.AddressArg a => a
                                    | BatchedTransactions.BigIntArg n => pretty n
                                    end) <$> args)
                 +:+ ")")
       else inl (JS.mkError "the arguments do not fit the types of the function") |}.



(** The collation that compares the lower-cased strings character by
    character. *)
Definition lowerCased : JS.Intl :=
  {| JS.localeCompare a b :=
       match String.compare (JS.toLowerCase a) (JS.toLowerCase b) with
       | Lt => -1
       | Eq => 0
       | Gt => 1
       end |}.

(* ================================================================== *)
(** * Sanity checks of the platform model *)
(* ================================================================== *)

Example parseInt16_ex1 : JS.parseInt16 "0x1f" = Some 31. Proof. reflexivity. Qed.
Example parseInt16_ex2 : JS.parseInt16 "0x" = None. Proof. reflexivity. Qed.
Example parseInt16_ex3 : JS.parseInt16 "  -ff zz" = Some (-255). Proof. reflexivity. Qed.
Example Number_ex1 : JS.StringToNumber " 12.50e1 " = JS.Fin false 1250 (-1). Proof. reflexivity. Qed.
Example Number_ex2 : JS.Number_gt0 "0.000" = false. Proof. reflexivity. Qed.
Example Number_ex3 : JS.Number_gt0 "1e-400" = false. Proof. vm_compute. reflexivity. Qed.
Example Number_ex4 : JS.Number_gt0 "5e-324" = true. Proof. vm_compute. reflexivity. Qed.
Example Number_ex5 : JS.StringToNumber "1e" = JS.NaN. Proof. reflexivity. Qed.
Example Number_ex6 : JS.StringToNumber "." = JS.NaN. Proof. reflexivity. Qed.
Example Number_ex7 : JS.StringToNumber ".5" = JS.Fin false 5 (-1). Proof. reflexivity. Qed.
Example BigInt_ex1 : JS.StringToBigInt "0x10" = Some 16. Proof. reflexivity. Qed.
Example BigInt_ex2 : JS.StringToBigInt "1.5" = None. Proof. reflexivity. Qed.
Example BigInt_ex3 :
  JS.StringToBigInt (String (ascii_of_N 194) (String (ascii_of_N 160) "42 ")) = Some 42.
Proof. reflexivity. Qed.
Example BigInt_ex4 :
  JS.StringToBigInt
    ("7" +:+ String (ascii_of_N 239) (String (ascii_of_N 187) (String (ascii_of_N 191) "")))
  = Some 7.
Proof. reflexivity. Qed.
Example BigInt_ex5 : JS.StringToBigInt "-5" = Some (-5). Proof. reflexivity. Qed.
Example sort_ex1 : JS.sort (fun a b => a - b) [3; 1; 2] = [1; 2; 3]. Proof. reflexivity. Qed.

(* ================================================================== *)
(** * Call-list construction *)
(* ================================================================== *)

Section MapThrow.
Context {A B : Type} (f : A → JS.Error + B).

(** [map] returns exactly when the callback returns on every element,
    with the results in order. *)
Lemma mapThrow_inr (l : list A) (ys : list B) :
  JS.mapThrow f l = inr ys ↔ Forall2 (fun x y => f x = inr y) l ys.
Proof.
  revert ys. induction l as [|x l IH]; intros ys; simpl.
  - split; [intros [= <-]; constructor|intros Hnil; inversion Hnil; reflexivity].
  - destruct (f x) as [err|y] eqn:Hx.
    + split; [discriminate|]. intros Hcons. inversion Hcons; congruence.
    + destruct (JS.mapThrow f l) as [err|ys'] eqn:Hrest.
      * split; [discriminate|]. intros Hcons. inversion Hcons; subst.
        match goal with Hl : Forall2 _ l _ |- _ => apply IH in Hl; discriminate end.
      * split.
        -- intros [= <-]. constructor; [exact Hx|]. apply IH. reflexivity.
        -- intros Hcons. inversion Hcons; subst.
           match goal with Hl : Forall2 _ l _ |- _ => apply IH in Hl end.
           congruence.
Qed.

Lemma mapThrow_returns (l : list A) :
  returns (JS.mapThrow f l) ↔ Forall (fun x => returns (f x)) l.
Proof.
  induction l as [|x l IH]; simpl.
  - split; [constructor|]. intros _. eexists; reflexivity.
  - destruct (f x) as [err|y] eqn:Hx.
    + split; [intros [ys Hys]; discriminate|].
      intros Hall. inversion Hall as [|? ? [y Hy] _]. congruence.
    + destruct (JS.mapThrow f l) as [err|ys] eqn:Hrest.
      * split; [intros [ys Hys]; discriminate|].
        intros Hall. inversion Hall as [|? ? _ Hl]. apply IH in Hl as [ys Hys].
        discriminate.
      * split; [|intros _; eexists; reflexivity].
        intros _. constructor; [eexists; exact Hx|]. apply IH. eexists; reflexivity.
Qed.

(** [map] throws what the callback throws on the first element it does
    not return on. *)
Lemma mapThrow_inl (before : list A) (x : A) (after : list A) (err : JS.Error) :
  Forall (fun x' => returns (f x')) before →
  f x = inl err →
  JS.mapThrow f (before ++ x :: after) = inl err.
Proof.
  intros Hbefore Hx. induction Hbefore as [|x' before [y Hy] _ IH]; simpl.
  - rewrite Hx. reflexivity.
  - rewrite Hy, IH. reflexivity.
Qed.

Lemma mapThrow_first_throw (l : list A) (err : JS.Error) :
  JS.mapThrow f l = inl err →
  ∃ before x after,
    l = before ++ x :: after
    ∧ Forall (fun x' => returns (f x')) before
    ∧ f x = inl err.
Proof.
  induction l as [|x l IH]; simpl; [discriminate|].
  destruct (f x) as [e|y] eqn:Hx.
  - intros [= <-]. exists [], x, l. split; [reflexivity|]. split; [constructor|exact Hx].
  - destruct (JS.mapThrow f l) as [e|ys]; [|discriminate].
    intros [= <-]. destruct (IH eq_refl) as (before & x' & after & -> & Hbefore & Hx').
    exists (x :: before), x', after. split; [reflexivity|].
    split; [constructor; [eexists; exact Hx|exact Hbefore]|exact Hx'].
Qed.

End MapThrow.

(** [map] over the result of a [map] with index. *)
Lemma mapThrow_imap {A B C : Type} (f : B → JS.Error + C) (g : A → JS.Error + C)
    (l : list A) :
  ∀ h : nat → A → B,
    (∀ i x, f (h i x) = g x) → JS.mapThrow f (imap h l) = JS.mapThrow g l.
Proof.
  induction l as [|x l IH]; intros h Hfg; [reflexivity|].
  simpl. rewrite Hfg, (IH (h ∘ S)); [reflexivity|].
  intros i y. apply Hfg.
Qed.

Section CallList.
Import BatchedTransactions.
Context `{Viem}.

(** The call that burns one transfer. *)
Lemma burn_steps_lookup (tokenTransfers : list TokenTransfer)
    (burnAddress : option Address) (i : nat) :
  createTokenBurnSteps tokenTransfers burnAddress !! i
  = (fun transfer =>
       {| name := "Burn " +:+ JS.or_else (tokenSymbol transfer) "token"
                  +:+ " " +:+ pretty (Z.of_nat i + 1);
          contractAddress := tokenAddress transfer;
          abi := erc20Abi;
          functionName := "transfer";
          args := [AddressArg (burnAddressOr burnAddress);
                   BigIntArg (amount transfer)];
          step_value := None |}) <$> tokenTransfers !! i.
Proof.
  unfold createTokenBurnSteps. rewrite list_lookup_imap.
  destruct (tokenTransfers !! i); reflexivity.
Qed.

(** The calls of a list that [createTokenBurnBatchCalls] returns. *)
Lemma burn_calls_lookup (tokenTransfers : list TokenTransfer)
    (burnAddress : option Address) (calls : list BatchCall) (i : nat) :
  createTokenBurnBatchCalls tokenTransfers burnAddress = inr calls →
  match tokenTransfers !! i with
  | Some transfer =>
      ∃ encoded,
        encodeFunctionData erc20Abi "transfer"
          [AddressArg (burnAddressOr burnAddress); BigIntArg (amount transfer)]
        = inr encoded
        ∧ calls !! i = Some {| to := tokenAddress transfer;
                               data := encoded;
                               value := None |}
  | None => calls !! i = None
  end.
Proof.
  unfold createTokenBurnBatchCalls. intros Hcalls. apply mapThrow_inr in Hcalls.
  destruct (tokenTransfers !! i) as [transfer|] eqn:Hi.
  - destruct (Forall2_lookup_l _ _ _ _ _ Hcalls Hi) as (call & Hcall & Hencoded).
    destruct (encodeFunctionData _ _ _) as [err|encoded]; [discriminate|].
    injection Hencoded as <-. exists encoded. split; [reflexivity|exact Hcall].
  - apply lookup_ge_None. apply lookup_ge_None in Hi.
    rewrite <- (Forall2_length _ _ _ Hcalls). exact Hi.
Qed.

(** C1 (amended): for a list of N transfers and any burn address (the
    dead address when none is given), [createTokenBurnSteps] gives exactly
    N steps; the i-th one targets the token contract of the i-th transfer,
    is the ERC20 [transfer] with arguments (burn address, the transfer's
    whole amount), and carries no value.  [createTokenBurnBatchCalls]
    returns exactly when the encoder accepts these arguments for every
    transfer, and throws otherwise; the list it returns has exactly N
    calls, the i-th one to the token contract of the i-th transfer, with
    the data the encoder gave for these arguments and no value. *)
Theorem burn_builders_one_call_per_transfer
    (tokenTransfers : list TokenTransfer) (burnAddress : option Address) :
  let steps := createTokenBurnSteps tokenTransfers burnAddress in
  let transferArgs transfer :=
    [AddressArg (burnAddressOr burnAddress); BigIntArg (amount transfer)] in
  let encoded transfer := encodeFunctionData erc20Abi "transfer" (transferArgs transfer) in
  burnAddressOr None = "0x000000000000000000000000000000000000dEaD"
  ∧ (∀ a, burnAddressOr (Some a) = a)
  ∧ length steps = length tokenTransfers
  ∧ (∀ i : nat,
       contractAddress <$> steps !! i = tokenAddress <$> tokenTransfers !! i
       ∧ abi <$> steps !! i = (fun _ => erc20Abi) <$> tokenTransfers !! i
       ∧ functionName <$> steps !! i = (fun _ => "transfer") <$> tokenTransfers !! i
       ∧ args <$> steps !! i = transferArgs <$> tokenTransfers !! i
       ∧ step_value <$> steps !! i = (fun _ => None) <$> tokenTransfers !! i)
  ∧ (returns (createTokenBurnBatchCalls tokenTransfers burnAddress)
     ↔ Forall (fun transfer => returns (encoded transfer)) tokenTransfers)
  ∧ ∀ calls, createTokenBurnBatchCalls tokenTransfers burnAddress = inr calls →
      length calls = length tokenTransfers
      ∧ ∀ i : nat,
          to <$> calls !! i = tokenAddress <$> tokenTransfers !! i
          ∧ inr <$> (data <$> calls !! i) = encoded <$> tokenTransfers !! i
          ∧ value <$> calls !! i = (fun _ => None) <$> tokenTransfers !! i.
Proof.
  intros steps transferArgs encoded. subst steps transferArgs encoded.
  split; [reflexivity|]. split; [reflexivity|].
  split; [apply length_imap|]. split.
  { intros i. rewrite burn_steps_lookup.
    destruct (tokenTransfers !! i); repeat split; reflexivity. }
  split.
  { unfold createTokenBurnBatchCalls. rewrite mapThrow_returns.
    apply Forall_iff. intros transfer.
    destruct (encodeFunctionData _ _ _) as [err|data].
    - split; intros [? ?]; discriminate.
    - split; intros _; eexists; reflexivity. }
  intros calls Hcalls. split.
  { unfold createTokenBurnBatchCalls in Hcalls. apply mapThrow_inr in Hcalls.
    symmetry. exact (Forall2_length _ _ _ Hcalls). }
  intros i. pose proof (burn_calls_lookup _ _ _ i Hcalls) as Hi.
  destruct (tokenTransfers !! i) as [transfer|].
  - destruct Hi as (data & Hdata & ->). simpl. rewrite Hdata. repeat split; reflexivity.
  - rewrite Hi. repeat split; reflexivity.
Qed.

(** C10: converting the steps of [createTokenBurnSteps] with
    [transactionStepsToBatchCalls] gives what
    [createTokenBurnBatchCalls] gives directly, the same list or the same
    thrown error: the same [to] and [data] at every position, and no value
    in either. *)
Theorem burn_steps_to_calls_agree
    (tokenTransfers : list TokenTransfer) (burnAddress : option Address) :
  let viaSteps :=
    transactionStepsToBatchCalls (createTokenBurnSteps tokenTransfers burnAddress) in
  let direct := createTokenBurnBatchCalls tokenTransfers burnAddress in
  viaSteps = direct
  ∧ ∀ stepCalls directCalls,
      viaSteps = inr stepCalls → direct = inr directCalls →
      stepCalls = directCalls
      ∧ map to stepCalls = map to directCalls
      ∧ map data stepCalls = map data directCalls
      ∧ Forall (fun call => value call = None) stepCalls
      ∧ Forall (fun call => value call = None) directCalls.
Proof.
  intros viaSteps direct.
  assert (Heq : viaSteps = direct).
  { subst viaSteps direct.
    unfold transactionStepsToBatchCalls, createTokenBurnSteps, createTokenBurnBatchCalls.
    apply mapThrow_imap. intros i transfer. reflexivity. }
  split; [exact Heq|].
  intros stepCalls directCalls Hsteps Hdirect.
  assert (stepCalls = directCalls) as -> by congruence.
  assert (Hnone : Forall (fun call => value call = None) directCalls).
  { subst direct. unfold createTokenBurnBatchCalls in Hdirect.
    apply mapThrow_inr in Hdirect.
    apply Forall_forall. intros call Hin.
    apply list_elem_of_lookup in Hin as [i Hi].
    destruct (Forall2_lookup_r _ _ _ _ _ Hdirect Hi) as (transfer & _ & Hcall).
    destruct (encodeFunctionData _ _ _); [discriminate|].
    injection Hcall as <-. reflexivity. }
  repeat split; assumption.
Qed.

End CallList.

Lemma burn_builders_witness :
  let transfers :=
    [ BatchedTransactions.mkTransfer "0x4200000000000000000000000000000000000006"
        42 (Some "WETH");
      BatchedTransactions.mkTransfer "0x50c5725949A6F0c72E6C4a641F24049A917DB0Cb"
        (2 ^ 256 - 1) None ] in
  ∃ calls,
    @BatchedTransactions.createTokenBurnBatchCalls plainViem transfers None = inr calls
    ∧ length calls = 2%nat
    ∧ BatchedTransactions.to <$> calls !! 1%nat
      = Some "0x50c5725949A6F0c72E6C4a641F24049A917DB0Cb".
Proof.
  intros transfers.
  destruct (@burn_builders_one_call_per_transfer plainViem transfers None)
    as (_ & _ & _ & _ & Hreturns & Hcalls).
  destruct (proj2 Hreturns) as [calls Hrun].
  { repeat constructor; eexists; reflexivity. }
  exists calls. split; [exact Hrun|].
  destruct (Hcalls calls Hrun) as [Hlength Hat].
  split; [exact Hlength|]. exact (proj1 (Hat 1%nat)).
Defined.

(** C1, as stated, fails: for an amount outside uint256, here 2^256, or a
    negative one, the encoder throws and [createTokenBurnBatchCalls]
    gives no list, while [createTokenBurnSteps], which does not encode,
    gives its step. *)
Lemma burn_batch_calls_throw_outside_uint256 :
  let tooLarge :=
    [BatchedTransactions.mkTransfer "0x4200000000000000000000000000000000000006"
       (2 ^ 256) None] in
  let negative :=
    [BatchedTransactions.mkTransfer "0x4200000000000000000000000000000000000006"
       (-5) None] in
  length (@BatchedTransactions.createTokenBurnSteps plainViem tooLarge None) = 1%nat
  ∧ (∀ calls,
       @BatchedTransactions.createTokenBurnBatchCalls plainViem tooLarge None
       ≠ inr calls)
  ∧ (∀ calls,
       @BatchedTransactions.createTokenBurnBatchCalls plainViem negative None
       ≠ inr calls).
Proof.
  intros tooLarge negative. split; [reflexivity|].
  split; intros calls; vm_compute; discriminate.
Qed.

(* ================================================================== *)
(** * Retry-wrapped fetch *)
(* ================================================================== *)

Section Retry.
Context {B : Type} (f : Fetch B).

Ltac run :=
  unfold bind, tryCatch, fetch, ret, throw, sleep, record, TokenBurner.reportRetry; simpl.

(** The route's helper is the component's without a callback. *)
Lemma route_attempt_as_client (retries : Z) (remaining : nat) :
  ∀ (i : Z) (w : World),
    Route.attempt f retries remaining i w
    = TokenBurner.attempt f retries None remaining i w.
Proof.
  induction remaining as [|n IH]; intros i w; [reflexivity|].
  simpl. run.
  destruct (f (clock w)) as [e|r]; simpl.
  - destruct (i =? retries - 1); [reflexivity|]. apply IH.
  - destruct (ok r); [reflexivity|]. simpl.
    destruct (i =? retries - 1); [reflexivity|]. apply IH.
Qed.

Lemma failed_attempt_client (retries : Z) (report : bool) (remaining : nat)
    (i : Z) (w : World) :
  failed (f (clock w)) = true →
  TokenBurner.attempt f retries (callback report) (S remaining) i w
  = if i =? retries - 1
    then (inl (failure (f (clock w))), mkWorld (S (clock w)) (log w))
    else TokenBurner.attempt f retries (callback report) remaining (i + 1)
           (mkWorld (S (clock w)) (log w ++ reported report retries i 1)).
Proof.
  intros Hf. simpl. run. unfold failed, failure in *.
  destruct (f (clock w)) as [e|r]; simpl.
  - destruct (i =? retries - 1); [reflexivity|].
    destruct report; simpl; run; rewrite <- ?app_assoc; reflexivity.
  - apply negb_true_iff in Hf. rewrite Hf. simpl.
    destruct (i =? retries - 1); [reflexivity|].
    destruct report; simpl; run; rewrite <- ?app_assoc; reflexivity.
Qed.

Lemma reported_S (report : bool) (retries i : Z) (n : nat) :
  reported report retries i (S n)
  = reported report retries i 1 ++ reported report retries (i + 1) n.
Proof. destruct report; reflexivity. Qed.

(** Every attempt fails: the loop runs to its last round. *)
Lemma attempt_exhausted_client (retries : Z) (report : bool) (remaining : nat) :
  ∀ (i : Z) (w : World),
    retries = i + Z.of_nat (S remaining) →
    (∀ j : nat, (j < S remaining)%nat → failed (f (clock w + j)%nat) = true) →
    TokenBurner.attempt f retries (callback report) (S remaining) i w
    = (inl (failure (f (clock w + remaining)%nat)),
       mkWorld (clock w + S remaining) (log w ++ reported report retries i remaining)).
Proof.
  induction remaining as [|n IH]; intros i w Hr Hall.
  - rewrite failed_attempt_client
      by (specialize (Hall 0%nat); rewrite Nat.add_0_r in Hall; apply Hall; lia).
    replace (i =? retries - 1) with true by (symmetry; apply Z.eqb_eq; lia).
    rewrite Nat.add_0_r, Nat.add_1_r.
    destruct report; simpl; rewrite app_nil_r; reflexivity.
  - rewrite failed_attempt_client
      by (specialize (Hall 0%nat); rewrite Nat.add_0_r in Hall; apply Hall; lia).
    replace (i =? retries - 1) with false by (symmetry; apply Z.eqb_neq; lia).
    rewrite IH; simpl.
    + rewrite <- !app_assoc. simpl. repeat f_equal; lia.
    + lia.
    + intros j Hj. replace (S (clock w + j)) with (clock w + S j)%nat by lia.
      apply Hall. lia.
Qed.

Lemma allFailed_spec (from n : nat) :
  allFailed f from n = true →
  ∀ j : nat, (j < n)%nat → failed (f (from + j)%nat) = true.
Proof.
  unfold allFailed. rewrite forallb_forall. intros Hall j Hj.
  apply Hall, in_seq. lia.
Qed.

Lemma delays_app (l1 l2 : list Event) : delays (l1 ++ l2) = delays l1 ++ delays l2.
Proof. unfold delays. apply omap_app. Qed.

Lemma delays_reported (report : bool) (retries : Z) (n : nat) :
  ∀ i : Z,
    delays (reported report retries i n)
    = (fun j => 2 ^ (i + Z.of_nat j) * 1000) <$> seq 0 n.
Proof.
  induction n as [|n IH]; intros i; [reflexivity|].
  rewrite reported_S, delays_app, IH.
  change (seq 0 (S n)) with (0%nat :: seq 1 n).
  rewrite <- seq_shift, fmap_cons, <- list_fmap_compose.
  replace (delays (reported report retries i 1)) with [2 ^ (i + Z.of_nat 0) * 1000]
    by (rewrite Z.add_0_r; destruct report; reflexivity).
  simpl. f_equal. apply list_fmap_ext. intros _ j _. simpl.
  do 2 f_equal. lia.
Qed.

(** What a call leaves when all the attempts its budget allows fail. *)
Lemma exhausted_client (retries : Z) (report : bool) (w : World) :
  allFailed f (clock w) (Z.to_nat retries) = true →
  TokenBurner.fetchWithRetry f (Some retries) (callback report) w
  = (inl (if 1 <=? retries
          then failure (f (clock w + Z.to_nat retries - 1)%nat)
          else JS.mkError "Max retries exceeded"),
     mkWorld (clock w + Z.to_nat retries)
             (log w ++ reported report retries 0 (Z.to_nat retries - 1))).
Proof.
  intros Hall. unfold TokenBurner.fetchWithRetry. simpl.
  destruct (Z.leb_spec 1 retries) as [Hge|Hlt].
  - destruct (Z.to_nat retries) as [|n] eqn:Hn; [lia|].
    rewrite attempt_exhausted_client.
    + repeat f_equal; lia.
    + lia.
    + apply allFailed_spec, Hall.
  - replace (Z.to_nat retries) with 0%nat by lia. simpl.
    unfold throw. destruct w. simpl. rewrite Nat.add_0_r, app_nil_r. reflexivity.
Qed.

Lemma exhausted_route (retries : Z) (w : World) :
  allFailed f (clock w) (Z.to_nat retries) = true →
  Route.fetchWithRetry f (Some retries) w
  = (inl (if 1 <=? retries
          then failure (f (clock w + Z.to_nat retries - 1)%nat)
          else JS.mkError "Max retries exceeded"),
     mkWorld (clock w + Z.to_nat retries)
             (log w ++ reported false retries 0 (Z.to_nat retries - 1))).
Proof.
  intros Hall. unfold Route.fetchWithRetry. simpl.
  rewrite route_attempt_as_client. apply (exhausted_client retries false w Hall).
Qed.

(** After [k] failed attempts a successful one ends the call. *)
Lemma attempt_recovers_client (retries : Z) (report : bool) (r : Response B) (k : nat) :
  ∀ (remaining : nat) (i : Z) (w : World),
    (k < remaining)%nat →
    retries = i + Z.of_nat remaining →
    (∀ j : nat, (j < k)%nat → failed (f (clock w + j)%nat) = true) →
    f (clock w + k)%nat = Resolved r →
    ok r = true →
    TokenBurner.attempt f retries (callback report) remaining i w
    = (inr r, mkWorld (clock w + S k) (log w ++ reported report retries i k)).
Proof.
  induction k as [|k IH]; intros remaining i w Hk Hr Hall Hres Hok.
  - destruct remaining as [|n]; [lia|]. simpl. run.
    rewrite Nat.add_0_r in Hres. rewrite Hres, Hok, app_nil_r, Nat.add_1_r.
    reflexivity.
  - destruct remaining as [|n]; [lia|].
    rewrite failed_attempt_client
      by (specialize (Hall 0%nat); rewrite Nat.add_0_r in Hall; apply Hall; lia).
    replace (i =? retries - 1) with false by (symmetry; apply Z.eqb_neq; lia).
    rewrite (IH n (i + 1)); simpl.
    + rewrite <- !app_assoc. simpl. repeat f_equal; lia.
    + lia.
    + lia.
    + intros j Hj. replace (S (clock w + j)) with (clock w + S j)%nat by lia.
      apply Hall. lia.
    + rewrite <- Hres. f_equal. lia.
    + exact Hok.
Qed.

(** Any failure, a rejected [fetch] or a response that is not ok, is
    followed by another attempt while the budget lasts. *)
Lemma fetchWithRetry_recovers (retries : Z) (report : bool) (r : Response B)
    (k : nat) (w : World) :
  (k < Z.to_nat retries)%nat →
  allFailed f (clock w) k = true →
  f (clock w + k)%nat = Resolved r →
  ok r = true →
  Route.fetchWithRetry f (Some retries) w
  = (inr r, mkWorld (clock w + S k) (log w ++ reported false retries 0 k))
  ∧ TokenBurner.fetchWithRetry f (Some retries) (callback report) w
    = (inr r, mkWorld (clock w + S k) (log w ++ reported report retries 0 k)).
Proof.
  intros Hk Hall Hres Hok.
  unfold Route.fetchWithRetry, TokenBurner.fetchWithRetry. simpl.
  rewrite route_attempt_as_client.
  pose proof (allFailed_spec _ _ Hall) as Hspec.
  split.
  - apply (attempt_recovers_client retries false r k); [lia|lia|exact Hspec|exact Hres|exact Hok].
  - apply (attempt_recovers_client retries report r k); [lia|lia|exact Hspec|exact Hres|exact Hok].
Qed.

End Retry.

(** C5 (amended): with a budget of at least one attempt, when every
    attempt fails (rejected, or answered with a status outside 200-299)
    [fetchWithRetry] makes all the attempts of its budget (3 when none is
    given) and then fails with the error of the last attempt, the network
    error or "HTTP <status>"; "Max retries exceeded" is the error only of a
    budget below one, with which no attempt is made. *)
Theorem retry_exhaustion_rethrows_last_error {B : Type} (f : Fetch B)
    (retries : option Z) (report : bool) (w : World) :
  let budget := default 3 retries in
  allFailed f (clock w) (Z.to_nat budget) = true →
  let thrown :=
    if 1 <=? budget
    then failure (f (clock w + Z.to_nat budget - 1)%nat)
    else JS.mkError "Max retries exceeded" in
  let route := Route.fetchWithRetry f retries w in
  let client := TokenBurner.fetchWithRetry f retries (callback report) w in
  fst route = inl thrown
  ∧ fst client = inl thrown
  ∧ clock (snd route) = (clock w + Z.to_nat budget)%nat
  ∧ clock (snd client) = (clock w + Z.to_nat budget)%nat.
Proof.
  intros budget Hall thrown route client.
  assert (Hr : route = Route.fetchWithRetry f (Some budget) w)
    by (subst route budget; destruct retries; reflexivity).
  assert (Hc : client = TokenBurner.fetchWithRetry f (Some budget) (callback report) w)
    by (subst client budget; destruct retries; reflexivity).
  rewrite Hr, Hc, exhausted_route, exhausted_client by exact Hall.
  repeat split; reflexivity.
Qed.

Lemma retry_exhaustion_witness :
  fst (Route.fetchWithRetry (alwaysStatus 503) (Some 3) start)
  = inl (JS.mkError "HTTP 503").
Proof.
  exact (proj1 (retry_exhaustion_rethrows_last_error
                  (alwaysStatus 503) (Some 3) true start eq_refl)).
Defined.

(** C5, as stated, fails: three attempts answered with status 500 end in
    the error "HTTP 500", not in "Max retries exceeded". *)
Lemma retry_exhaustion_is_not_max_retries :
  let route := fst (Route.fetchWithRetry (alwaysStatus 500) None start) in
  let client :=
    fst (TokenBurner.fetchWithRetry (alwaysStatus 500) None
           (Some TokenBurner.reportRetry) start) in
  route = inl (JS.mkError "HTTP 500")
  ∧ client = inl (JS.mkError "HTTP 500")
  ∧ route ≠ inl (JS.mkError "Max retries exceeded")
  ∧ client ≠ inl (JS.mkError "Max retries exceeded").
Proof.
  vm_compute. repeat split; discriminate.
Qed.

(** C9 (amended): when every attempt fails, [fetchWithRetry] waits
    [2^i] seconds after the attempt number [i] (from 0) if another attempt
    remains, and not after the last one; with the default budget of 3 the
    waits are 1 s and 2 s, 3 seconds in all. *)
Theorem backoff_waits {B : Type} (f : Fetch B)
    (retries : option Z) (report : bool) (w : World) :
  let budget := default 3 retries in
  allFailed f (clock w) (Z.to_nat budget) = true →
  let route := snd (Route.fetchWithRetry f retries w) in
  let client := snd (TokenBurner.fetchWithRetry f retries (callback report) w) in
  delays (log route) = delays (log w) ++ waits budget
  ∧ delays (log client) = delays (log w) ++ waits budget
  ∧ waits (default 3 None) = [1000; 2000]
  ∧ foldr Z.add 0 (waits (default 3 None)) = 3000.
Proof.
  intros budget Hall route client.
  assert (Hr : route = snd (Route.fetchWithRetry f (Some budget) w))
    by (subst route budget; destruct retries; reflexivity).
  assert (Hc : client
               = snd (TokenBurner.fetchWithRetry f (Some budget) (callback report) w))
    by (subst client budget; destruct retries; reflexivity).
  rewrite Hr, Hc, exhausted_route, exhausted_client by exact Hall.
  simpl. rewrite !delays_app, !delays_reported.
  repeat split; reflexivity.
Qed.

Lemma backoff_waits_witness :
  delays (log (snd (Route.fetchWithRetry unreachable None start))) = [1000; 2000].
Proof.
  exact (proj1 (backoff_waits unreachable None false start eq_refl)).
Defined.

(** C9, as stated, fails: with the default budget a call whose attempts
    all fail waits 3 seconds in all, not 7. *)
Lemma backoff_total_is_not_seven_seconds :
  let route := snd (Route.fetchWithRetry unreachable None start) in
  let client :=
    snd (TokenBurner.fetchWithRetry unreachable None
           (Some TokenBurner.reportRetry) start) in
  totalDelay (log route) = 3000
  ∧ totalDelay (log client) = 3000
  ∧ totalDelay (log route) ≠ 7000
  ∧ totalDelay (log client) ≠ 7000.
Proof.
  vm_compute. repeat split; discriminate.
Qed.

(* ================================================================== *)
(** * Selection set and settled submissions *)
(* ================================================================== *)

Lemma select_deselect_client (a : string) (st : TokenBurner.State) :
  TokenBurner.selectedTokens
    (TokenBurner.handleTokenSelect a false (TokenBurner.handleTokenSelect a true st))
  = TokenBurner.selectedTokens st ∖ {[a]}.
Proof.
  destruct st. simpl.
  rewrite difference_union_distr_l_L, difference_diag_L. apply (left_id_L ∅ (∪)).
Qed.

Lemma select_deselect_batch (a : string) (st : BatchBurner.State) :
  BatchBurner.selectedTokens
    (BatchBurner.handleTokenSelect a false (BatchBurner.handleTokenSelect a true st))
  = BatchBurner.selectedTokens st ∖ {[a]}.
Proof.
  destruct st. simpl.
  rewrite difference_union_distr_l_L, difference_diag_L. apply (left_id_L ∅ (∪)).
Qed.

(** C8 (amended): for a token that is not in the selection set,
    selecting it and then deselecting it gives back the state before, in
    both variants of the component.  (For a token already selected the
    two steps leave it deselected.) *)
Theorem select_then_deselect_restores (contractAddress : string)
    (st : TokenBurner.State) (bst : BatchBurner.State) :
  contractAddress ∉ TokenBurner.selectedTokens st →
  contractAddress ∉ BatchBurner.selectedTokens bst →
  TokenBurner.handleTokenSelect contractAddress false
    (TokenBurner.handleTokenSelect contractAddress true st) = st
  ∧ BatchBurner.handleTokenSelect contractAddress false
      (BatchBurner.handleTokenSelect contractAddress true bst) = bst.
Proof.
  intros Hst Hbst. split.
  - pose proof (select_deselect_client contractAddress st) as Hsel.
    destruct st as [tokens selected confirm err loaded]. simpl in *.
    unfold TokenBurner.handleTokenSelect, TokenBurner.setSelectedTokens. simpl.
    f_equal. rewrite Hsel. apply difference_disjoint_L, disjoint_singleton_r, Hst.
  - pose proof (select_deselect_batch contractAddress bst) as Hsel.
    destruct bst as [tokens selected confirm err]. simpl in *.
    unfold BatchBurner.handleTokenSelect, BatchBurner.setSelectedTokens. simpl.
    f_equal. rewrite Hsel. apply difference_disjoint_L, disjoint_singleton_r, Hbst.
Qed.

Lemma select_then_deselect_witness :
  TokenBurner.handleTokenSelect "0xdef" false
    (TokenBurner.handleTokenSelect "0xdef" true
       (TokenBurner.mkState [] {["0xabc"]} false None false))
  = TokenBurner.mkState [] {["0xabc"]} false None false.
Proof.
  refine (proj1 (select_then_deselect_restores "0xdef"
                   (TokenBurner.mkState [] {["0xabc"]} false None false)
                   (BatchBurner.mkState [] {["0xabc"]} false None) _ _));
    simpl; apply not_elem_of_singleton; discriminate.
Defined.

(** C8, as stated, fails: with the token already selected, selecting and
    then deselecting it leaves a different selection set. *)
Lemma select_then_deselect_loses_selected_token :
  let st := TokenBurner.mkState [] {["0xabc"]} false None false in
  let bst := BatchBurner.mkState [] {["0xabc"]} false None in
  TokenBurner.handleTokenSelect "0xabc" false
    (TokenBurner.handleTokenSelect "0xabc" true st) ≠ st
  ∧ BatchBurner.handleTokenSelect "0xabc" false
      (BatchBurner.handleTokenSelect "0xabc" true bst) ≠ bst.
Proof.
  split; intros Heq.
  - apply (f_equal TokenBurner.selectedTokens) in Heq.
    rewrite select_deselect_client in Heq. simpl in Heq.
    rewrite difference_diag_L in Heq.
    exact (non_empty_singleton_L "0xabc" (eq_sym Heq)).
  - apply (f_equal BatchBurner.selectedTokens) in Heq.
    rewrite select_deselect_batch in Heq. simpl in Heq.
    rewrite difference_diag_L in Heq.
    exact (non_empty_singleton_L "0xabc" (eq_sym Heq)).
Qed.

Section Settled.
Import BatchedTransactions.
Context `{Viem}.

(** The request of [handleBurnTokens] is read off the token list and the
    selection set alone. *)
Lemma handleBurnTokens_request (publicClient : bool) (st st' : BatchBurner.State) :
  BatchBurner.tokens st' = BatchBurner.tokens st →
  BatchBurner.selectedTokens st' = BatchBurner.selectedTokens st →
  fst (BatchBurner.handleBurnTokens publicClient st')
  = fst (BatchBurner.handleBurnTokens publicClient st).
Proof.
  intros Ht Hs. unfold BatchBurner.handleBurnTokens.
  assert (Hl : BatchBurner.selectedTokensList st' = BatchBurner.selectedTokensList st)
    by (unfold BatchBurner.selectedTokensList; rewrite Ht, Hs; reflexivity).
  assert (Hl' : ∀ e s, BatchBurner.selectedTokensList (BatchBurner.setError e s)
                       = BatchBurner.selectedTokensList s) by reflexivity.
  rewrite Hl. destruct (negb publicClient || _); [reflexivity|].
  rewrite !Hl', Hl.
  destruct (BatchBurner.burnCalls _); reflexivity.
Qed.

Lemma handleBurnTokens_keeps (publicClient : bool) (st : BatchBurner.State) :
  let st' := snd (BatchBurner.handleBurnTokens publicClient st) in
  BatchBurner.tokens st' = BatchBurner.tokens st
  ∧ BatchBurner.selectedTokens st' = BatchBurner.selectedTokens st.
Proof.
  unfold BatchBurner.handleBurnTokens.
  destruct (negb publicClient || _); [split; reflexivity|].
  destruct (BatchBurner.burnCalls _); split; reflexivity.
Qed.

(** C6: a settled submission with status success empties the selection
    set; one with status failure leaves the state, and so the selection
    set, as it was, and burning again hands the wallet the same request as
    the first time. *)
Theorem settled_success_clears_failure_keeps
    (st : BatchBurner.State) (isCallsSuccess publicClient : bool) :
  let success := Some {| BatchBurner.calls_status := Some "success" |} in
  let failure := Some {| BatchBurner.calls_status := Some "failure" |} in
  let submitted := BatchBurner.handleBurnTokens publicClient st in
  let afterFailure := BatchBurner.successEffect isCallsSuccess failure (snd submitted) in
  BatchBurner.selectedTokens (BatchBurner.successEffect true success st) = ∅
  ∧ BatchBurner.successEffect isCallsSuccess failure st = st
  ∧ BatchBurner.selectedTokens afterFailure = BatchBurner.selectedTokens st
  ∧ fst (BatchBurner.handleBurnTokens publicClient afterFailure) = fst submitted.
Proof.
  intros success failure submitted afterFailure.
  assert (Hkeep : ∀ s, BatchBurner.successEffect isCallsSuccess failure s = s).
  { intros s. unfold BatchBurner.successEffect.
    destruct isCallsSuccess; reflexivity. }
  destruct (handleBurnTokens_keeps publicClient st) as [Ht Hs].
  subst afterFailure. rewrite !Hkeep.
  repeat split.
  - exact Hs.
  - apply handleBurnTokens_request; assumption.
Qed.

End Settled.

(* ================================================================== *)
(** * Sorting *)
(* ================================================================== *)

Section SortCorrect.
Context {A : Type} (cmp : A → A → Z).

Hypothesis cmp_total : ∀ a b, before cmp a b ∨ before cmp b a.
Hypothesis cmp_trans : ∀ a b c, before cmp a b → before cmp b c → before cmp a c.

Lemma insert_Permutation (x : A) (l : list A) : JS.insert cmp x l ≡ₚ x :: l.
Proof.
  induction l as [|y l IH]; simpl; [reflexivity|].
  destruct (cmp x y <=? 0); [reflexivity|].
  rewrite IH. apply Permutation_swap.
Qed.

Lemma sort_Permutation (l : list A) : JS.sort cmp l ≡ₚ l.
Proof.
  induction l as [|x l IH]; simpl; [reflexivity|].
  rewrite insert_Permutation, IH. reflexivity.
Qed.




End SortCorrect.

Section TokenOrder.
Context `{JS.Intl}.
Hypothesis collation : consistent.




End TokenOrder.







Lemma byLength_consistent : @consistent byLength.
Proof. split; simpl; intros; lia. Qed.


Example sortTokens_ex2 :
  @TokenBurner.sortTokens lowerCased
    [clientToken "0xa" "zzz" false; clientToken "0xb" "WETH" true;
     clientToken "0xc" "Ab" false; clientToken "0xd" "dai" true;
     clientToken "0xe" "AAVE" false]
  = [clientToken "0xd" "dai" true; clientToken "0xb" "WETH" true;
     clientToken "0xe" "AAVE" false; clientToken "0xc" "Ab" false;
     clientToken "0xa" "zzz" false].
Proof. reflexivity. Qed.

Example sortTokens_ex1 :
  @TokenBurner.sortTokens byLength
    [clientToken "0xa" "ZZZ" false; clientToken "0xb" "WETH" true;
     clientToken "0xc" "AB" false; clientToken "0xd" "DAI" true]
  = [clientToken "0xd" "DAI" true; clientToken "0xb" "WETH" true;
     clientToken "0xc" "AB" false; clientToken "0xa" "ZZZ" false].
Proof. reflexivity. Qed.

(* ================================================================== *)
(** * Balance acquisition *)
(* ================================================================== *)

Ltac step :=
  unfold bind, tryCatch, ret, throw, readJson; simpl.

Section Acquisition.
Context `{Route.Network}.

(** What [fetchZapperTokens] returns once the request has gone through
    and the answer holds edges. *)
Lemma fetchZapperTokens_run (address zapperApiKey : string) (w w' : World)
    (response : Response Route.ZapperResponse) (data : Route.ZapperResponse)
    (portfolio : Route.ZapperPortfolio) (edges : list Route.ZapperEdge) :
  Route.fetchWithRetry (Route.zapperGraphql zapperApiKey address) None w
  = (inr response, w') →
  json response = inr data →
  Route.errors data = None →
  Route.portfolioOf data = Some portfolio →
  Route.edgesOf (Route.tokenBalances portfolio) = Some edges →
  Route.fetchZapperTokens address zapperApiKey w
  = (inr (omap Route.zapperToToken edges), w').
Proof.
  intros Hrun Hjson Herr Hport Hedges.
  unfold Route.fetchZapperTokens. step.
  rewrite Hrun. step. rewrite Hjson. step.
  rewrite Herr, Hport, Hedges. reflexivity.
Qed.

(** Whatever the network does, a list from [fetchZapperTokens] is the
    image of some edges. *)
Lemma fetchZapperTokens_shape (address zapperApiKey : string) (w : World) :
  match fst (Route.fetchZapperTokens address zapperApiKey w) with
  | inr l => ∃ edges, l = omap Route.zapperToToken edges
  | inl _ => True
  end.
Proof.
  unfold Route.fetchZapperTokens. step.
  destruct (Route.fetchWithRetry _ None w) as [[e|response] w']; simpl; [exact I|].
  destruct (json response) as [e|data]; simpl; [exact I|].
  destruct (Route.errors data); simpl; [exact I|].
  destruct (Route.portfolioOf data) as [portfolio|]; simpl; [|exact I].
  destruct (Route.edgesOf _) as [edges|]; simpl.
  - exists edges. reflexivity.
  - exists []. reflexivity.
Qed.

Lemma zapperToToken_kept (edge : Route.ZapperEdge) (t : Route.Token) :
  Route.zapperToToken edge = Some t →
  zapperNonzero (Route.node edge) = true
  ∧ zapperKept t = true
  ∧ Route.contractAddress t = Route.ZapperToken.tokenAddress (Route.node edge)
  ∧ Route.balance t = Route.ZapperToken.balanceRaw (Route.node edge).
Proof.
  unfold Route.zapperToToken, zapperNonzero, zapperKept.
  destruct (_ || _) eqn:Hpos; [|discriminate].
  intros [= <-]. simpl. auto.
Qed.

Lemma zapper_tokens_kept (edges : list Route.ZapperEdge) :
  Forall (fun t => zapperKept t = true) (omap Route.zapperToToken edges).
Proof.
  apply Forall_forall. intros t Ht.
  apply list_elem_of_omap in Ht as (edge & _ & Hedge).
  apply zapperToToken_kept in Hedge. tauto.
Qed.

(** [fetchAlchemyPortfolioTokens] filters and maps the tokens of the
    pages it read. *)
Lemma fetchAlchemyPortfolioTokens_run (address alchemyApiKey : string) (w : World) :
  Route.fetchAlchemyPortfolioTokens address alchemyApiKey w
  = match Route.fetchPages address alchemyApiKey Route.maxPages None [] w with
    | (inr allTokens, w') =>
        (inr (map Route.alchemyToToken
                (filter (fun token => Route.hasBalance token = true) allTokens)), w')
    | (inl e, w') => (inl e, w')
    end.
Proof.
  unfold Route.fetchAlchemyPortfolioTokens, bind, ret.
  destruct (Route.fetchPages _ _ _ _ _ w) as [[e|allTokens] w']; reflexivity.
Qed.

Lemma alchemy_tokens_kept (allTokens : list Route.AlchemyPortfolioToken.t) :
  Forall (fun t => JS.parseInt16_gt0 (Route.balance t) = true)
    (map Route.alchemyToToken
       (filter (fun token => Route.hasBalance token = true) allTokens)).
Proof.
  apply Forall_fmap, Forall_forall. intros token Htoken.
  apply list_elem_of_filter in Htoken as [Hkeep _].
  unfold Route.hasBalance in Hkeep.
  apply andb_true_iff in Hkeep as [Hkeep _].
  apply andb_true_iff in Hkeep as [Hkeep _].
  exact Hkeep.
Qed.

End Acquisition.

Section ClientAcquisition.
Context `{JS.Intl} `{TokenBurner.Network}.

(** [fetchTokenMetadata] catches what it throws. *)
Lemma fetchTokenMetadata_returns (contractAddress alchemyApiKey : string)
    (onRetry : option (Z → Z → M unit)) (w : World) :
  ∃ metadata w',
    TokenBurner.fetchTokenMetadata contractAddress alchemyApiKey onRetry w
    = (inr metadata, w').
Proof.
  unfold TokenBurner.fetchTokenMetadata.
  destruct (TokenBurner.TOKEN_METADATA_CACHE !! _) as [cached|]; step; [eauto|].
  destruct (TokenBurner.fetchWithRetry _ _ _ w) as [[e|response] w']; simpl; [eauto|].
  destruct (json response) as [e|data]; simpl; [eauto|].
  destruct (TokenBurner.metadata_result data); simpl; eauto.
Qed.

(** The tokens the loop of the full scan pushes carry the raw balances
    of the entries it went through. *)
Lemma metadataLoop_balances (alchemyApiKey : string) (P : string → Prop)
    (l : list TokenBurner.TokenBalance) :
  Forall (fun token => P (TokenBurner.tokenBalance token)) l →
  ∀ w : World,
    ∃ pushed w',
      TokenBurner.metadataLoop alchemyApiKey l w = (inr pushed, w')
      ∧ Forall (fun t => P (TokenBurner.balance t)) pushed.
Proof.
  induction 1 as [|token rest Htoken Hrest IH]; intros w; simpl.
  - step. eauto.
  - unfold bind at 1.
    destruct (fetchTokenMetadata_returns (TokenBurner.tb_contractAddress token)
                alchemyApiKey (Some TokenBurner.reportRetry) w)
      as (metadata & w1 & ->).
    unfold bind at 1. destruct (IH w1) as (pushed & w2 & -> & Hpushed).
    unfold ret. eexists _, _. split; [reflexivity|].
    destruct metadata; [constructor|]; assumption.
Qed.

Lemma priorityLoop_balances (alchemyApiKey : string)
    (l : list TokenBurner.TokenBalance) :
  ∀ w : World,
    ∃ pushed w',
      TokenBurner.priorityLoop alchemyApiKey l w = (inr pushed, w')
      ∧ Forall (fun t => JS.parseInt16_gt0 (TokenBurner.balance t) = true) pushed.
Proof.
  induction l as [|token rest IH]; intros w; simpl.
  - step. eauto.
  - destruct (JS.parseInt16_gt0 (TokenBurner.tokenBalance token)) eqn:Hpos; [|apply IH].
    unfold bind at 1.
    destruct (fetchTokenMetadata_returns (TokenBurner.tb_contractAddress token)
                alchemyApiKey (Some TokenBurner.reportRetry) w)
      as (metadata & w1 & ->).
    unfold bind at 1. destruct (IH w1) as (pushed & w2 & -> & Hpushed).
    unfold ret. eexists _, _. split; [reflexivity|].
    destruct metadata; [constructor|]; assumption.
Qed.

(** The full scan returns, and either leaves the token list alone or
    sets it to tokens with a positive raw balance. *)
Lemma fetchAllTokens_positive (address alchemyApiKey : option string)
    (st : TokenBurner.State) (w : World) :
  ∃ st' w',
    TokenBurner.fetchAllTokens address alchemyApiKey st w = (inr st', w')
    ∧ (TokenBurner.tokens st' = TokenBurner.tokens st
       ∨ Forall (fun t => JS.parseInt16_gt0 (TokenBurner.balance t) = true)
           (TokenBurner.tokens st')).
Proof.
  unfold TokenBurner.fetchAllTokens.
  destruct (negb (JS.truthy_opt address) || negb (JS.truthy_opt alchemyApiKey));
    [step; eauto|].
  unfold tryCatch, bind at 1.
  destruct (TokenBurner.fetchWithRetry _ _ _ w) as [[e|response] w1];
    [step; eauto|].
  unfold bind at 1, readJson.
  destruct (json response) as [e|data]; [step; eauto|].
  unfold ret at 1.
  destruct (TokenBurner.rpc_error data); [step; eauto|].
  unfold bind.
  destruct (metadataLoop_balances (default "" alchemyApiKey)
              (fun balance => JS.parseInt16_gt0 balance = true)
              (filter (fun token => JS.parseInt16_gt0 (TokenBurner.tokenBalance token) = true)
                 (TokenBurner.balancesOf data))) with (w := w1)
    as (pushed & w2 & -> & Hpushed).
  { apply Forall_forall. intros token Htoken.
    apply list_elem_of_filter in Htoken. tauto. }
  unfold ret. eexists _, _. split; [reflexivity|]. right. simpl.
  unfold TokenBurner.sortTokens. rewrite sort_Permutation. exact Hpushed.
Qed.

Lemma fetchPriorityTokens_positive (address alchemyApiKey : option string)
    (st : TokenBurner.State) (w : World) :
  ∃ st' w',
    TokenBurner.fetchPriorityTokens address alchemyApiKey st w = (inr st', w')
    ∧ (TokenBurner.tokens st' = TokenBurner.tokens st
       ∨ Forall (fun t => JS.parseInt16_gt0 (TokenBurner.balance t) = true)
           (TokenBurner.tokens st')).
Proof.
  unfold TokenBurner.fetchPriorityTokens.
  destruct (negb (JS.truthy_opt address) || negb (JS.truthy_opt alchemyApiKey)).
  { destruct (negb (JS.truthy_opt alchemyApiKey)); step; eauto. }
  unfold tryCatch, bind at 1.
  destruct (TokenBurner.fetchWithRetry _ _ _ w) as [[e|response] w1];
    [step; eauto|].
  unfold bind at 1, readJson.
  destruct (json response) as [e|data]; [step; eauto|].
  unfold ret at 1.
  destruct (TokenBurner.rpc_error data); [step; eauto|].
  unfold bind.
  destruct (priorityLoop_balances (default "" alchemyApiKey)
              (TokenBurner.balancesOf data) w1)
    as (pushed & w2 & -> & Hpushed).
  unfold ret. eexists _, _. split; [reflexivity|]. right. simpl.
  unfold TokenBurner.sortBySymbol. rewrite sort_Permutation. exact Hpushed.
Qed.

End ClientAcquisition.

(* ================================================================== *)
(** * The route handler *)
(* ================================================================== *)

Section Handler.
Context `{JS.Intl} `{Route.Network}.

Lemma tryZapper_run (address : string) (zapperApiKey : option string) (w : World) :
  let run := Route.fetchZapperTokens address (default "" zapperApiKey) w in
  Route.tryZapper address zapperApiKey [] w
  = if JS.truthy_opt zapperApiKey then
      match fst run with
      | inr (t :: l) =>
          (inr (inl (Route.NextResponse_json
                       (Route.TokensBody (Route.sortBySymbol (t :: l)) "zapper") None)),
           snd run)
      | _ => (inr (inr []), snd run)
      end
    else (inr (inr []), w).
Proof.
  intros run. subst run. unfold Route.tryZapper.
  destruct (JS.truthy_opt zapperApiKey); [|reflexivity].
  unfold tryCatch, bind.
  destruct (Route.fetchZapperTokens _ _ w) as [[e|[|t l]] w']; reflexivity.
Qed.

Lemma tryAlchemy_run (address : string) (alchemyApiKey : option string) (w : World) :
  let run := Route.fetchAlchemyPortfolioTokens address (default "" alchemyApiKey) w in
  Route.tryAlchemy address alchemyApiKey [] w
  = if JS.truthy_opt alchemyApiKey then
      match fst run with
      | inr (t :: l) =>
          (inr (inl (Route.NextResponse_json
                       (Route.TokensBody (Route.sortBySymbol (t :: l)) "alchemy-portfolio")
                       None)),
           snd run)
      | _ => (inr (inr []), snd run)
      end
    else (inr (inr []), w).
Proof.
  intros run. subst run. unfold Route.tryAlchemy.
  destruct (JS.truthy_opt alchemyApiKey); [|reflexivity].
  unfold tryCatch, bind.
  destruct (Route.fetchAlchemyPortfolioTokens _ _ w) as [[e|[|t l]] w']; reflexivity.
Qed.

(** The handler, with its blocks flattened: the answer of Zapper when it
    is not empty, else that of Alchemy when it is not empty, else the
    configuration error or the empty list. *)
Lemma GET_run (env : Route.Env) (address : string) (w : World) :
  JS.truthy address = true →
  let zapperApiKey := Route.ZAPPER_API_KEY env in
  let alchemyApiKey :=
    JS.or_opt (Route.ALCHEMY_API_KEY env) (Route.NEXT_PUBLIC_ALCHEMY_API_KEY env) in
  let zapper := Route.fetchZapperTokens address (default "" zapperApiKey) w in
  let w1 := if JS.truthy_opt zapperApiKey then snd zapper else w in
  let zapperTokens :=
    if JS.truthy_opt zapperApiKey
    then match fst zapper with inr l => l | inl _ => [] end else [] in
  let alchemy := Route.fetchAlchemyPortfolioTokens address (default "" alchemyApiKey) w1 in
  let w2 := if JS.truthy_opt alchemyApiKey then snd alchemy else w1 in
  let alchemyTokens :=
    if JS.truthy_opt alchemyApiKey
    then match fst alchemy with inr l => l | inl _ => [] end else [] in
  Route.GET env address w
  = match zapperTokens, alchemyTokens with
    | _ :: _, _ =>
        (inr (Route.NextResponse_json
                (Route.TokensBody (Route.sortBySymbol zapperTokens) "zapper") None), w1)
    | [], _ :: _ =>
        (inr (Route.NextResponse_json
                (Route.TokensBody (Route.sortBySymbol alchemyTokens) "alchemy-portfolio")
                None), w2)
    | [], [] =>
        if negb (JS.truthy_opt zapperApiKey) && negb (JS.truthy_opt alchemyApiKey)
        then (inr (Route.NextResponse_json
                     (Route.ErrorBody "No API keys configured. Please set ZAPPER_API_KEY or ALCHEMY_API_KEY")
                     (Some 500)), w2)
        else (inr (Route.NextResponse_json (Route.TokensBody [] "none") None), w2)
    end.
Proof.
  intros Haddress zapperApiKey alchemyApiKey zapper w1 zapperTokens alchemy w2
         alchemyTokens.
  unfold Route.GET. rewrite Haddress. change (negb true) with false. cbv iota.
  fold zapperApiKey alchemyApiKey.
  unfold tryCatch at 1, bind at 1. rewrite tryZapper_run. fold zapper.
  subst zapperTokens w2 alchemyTokens alchemy w1.
  destruct (JS.truthy_opt zapperApiKey) eqn:Hz.
  - destruct zapper as [[e|[|t l]] wz]; simpl; [| |reflexivity].
    + unfold bind at 1. rewrite tryAlchemy_run.
      destruct (JS.truthy_opt alchemyApiKey) eqn:Ha; [|reflexivity].
      simpl. destruct (Route.fetchAlchemyPortfolioTokens _ _ wz) as [[e'|[|t l]] wa];
        reflexivity.
    + unfold bind at 1. rewrite tryAlchemy_run.
      destruct (JS.truthy_opt alchemyApiKey) eqn:Ha; [|reflexivity].
      simpl. destruct (Route.fetchAlchemyPortfolioTokens _ _ wz) as [[e'|[|t l]] wa];
        reflexivity.
  - simpl. unfold bind at 1. rewrite tryAlchemy_run.
    destruct (JS.truthy_opt alchemyApiKey) eqn:Ha; [|reflexivity].
    simpl. destruct (Route.fetchAlchemyPortfolioTokens _ _ w) as [[e'|[|t l]] wa];
      reflexivity.
Qed.

End Handler.

(** C2: for a non-empty address the handler asks Zapper first, when its
    key is set, and answers with its tokens and source "zapper" when the
    list is not empty; when Zapper is not configured, throws or gives no
    tokens, it asks Alchemy, when that key is set, and answers with
    source "alchemy-portfolio" when that list is not empty; with neither
    key it answers with the configuration error and status 500; every
    other answer has status 200 and names its source, "zapper",
    "alchemy-portfolio" or, with an empty list, "none". *)
Theorem GET_fallback_chain `{JS.Intl} `{Route.Network}
    (env : Route.Env) (address : string) (w : World) :
  JS.truthy address = true →
  let zapperApiKey := Route.ZAPPER_API_KEY env in
  let alchemyApiKey :=
    JS.or_opt (Route.ALCHEMY_API_KEY env) (Route.NEXT_PUBLIC_ALCHEMY_API_KEY env) in
  let zapper := Route.fetchZapperTokens address (default "" zapperApiKey) w in
  let w1 := if JS.truthy_opt zapperApiKey then snd zapper else w in
  let alchemy := Route.fetchAlchemyPortfolioTokens address (default "" alchemyApiKey) w1 in
  let answer (source : string) (tokens : list Route.Token) :=
    {| Route.body := Route.TokensBody (Route.sortBySymbol tokens) source;
       Route.statusCode := 200 |} in
  let configurationError :=
    {| Route.body :=
         Route.ErrorBody "No API keys configured. Please set ZAPPER_API_KEY or ALCHEMY_API_KEY";
       Route.statusCode := 500 |} in
  let zapperGaveNothing :=
    JS.truthy_opt zapperApiKey = false
    ∨ fst zapper = inr []
    ∨ ∃ e, fst zapper = inl e in
  (∀ l, JS.truthy_opt zapperApiKey = true → fst zapper = inr l → l ≠ [] →
        Route.GET env address w = (inr (answer "zapper" l), snd zapper))
  ∧ (∀ l, zapperGaveNothing → JS.truthy_opt alchemyApiKey = true →
          fst alchemy = inr l → l ≠ [] →
          Route.GET env address w = (inr (answer "alchemy-portfolio" l), snd alchemy))
  ∧ (JS.truthy_opt zapperApiKey = false → JS.truthy_opt alchemyApiKey = false →
     Route.GET env address w = (inr configurationError, w))
  ∧ ∃ response w',
      Route.GET env address w = (inr response, w')
      ∧ ((JS.truthy_opt zapperApiKey = false ∧ JS.truthy_opt alchemyApiKey = false
          ∧ response = configurationError)
         ∨ ((JS.truthy_opt zapperApiKey = true ∨ JS.truthy_opt alchemyApiKey = true)
            ∧ ((∃ l, response = answer "zapper" l
                     ∧ JS.truthy_opt zapperApiKey = true
                     ∧ fst zapper = inr l ∧ l ≠ [])
               ∨ (∃ l, response = answer "alchemy-portfolio" l
                       ∧ zapperGaveNothing
                       ∧ JS.truthy_opt alchemyApiKey = true
                       ∧ fst alchemy = inr l ∧ l ≠ [])
               ∨ response = answer "none" []))).
Proof.
  intros Haddress. cbv zeta. rewrite (GET_run env address w Haddress). cbv zeta.
  destruct (JS.truthy_opt (Route.ZAPPER_API_KEY env)) eqn:Hz;
    destruct (Route.fetchZapperTokens address _ w) as [[ez|[|tz lz]] wz];
    simpl;
    destruct (JS.truthy_opt (JS.or_opt _ _)) eqn:Ha;
    destruct (Route.fetchAlchemyPortfolioTokens address _ _) as [[ea|[|ta la]] wa];
    simpl;
    (split; [intros l; intros; simplify_eq; done|]);
    (split; [intros l Hnothing; intros; simplify_eq;
             try done; destruct Hnothing as [?|[?|[? ?]]]; simplify_eq; done|]);
    (split; [intros; simplify_eq; done|]);
    eexists _, _; (split; [reflexivity|]);
    first [ left; repeat split; done
          | right; split; [auto|];
            first [ left; eexists; repeat split; done
                  | right; left; eexists; repeat split; eauto; done
                  | right; right; reflexivity ] ].
Qed.

Lemma GET_fallback_witness :
  fst (@Route.GET byLength
         (zapperDown (alchemyPage [alchemyToken (Some "0xt0") "0x2a" "TKN" (Route.Value 6)]))
         bothKeys "0xowner" start)
  = inr {| Route.body :=
             Route.TokensBody
               [Route.mkToken "0xt0" "TKN" "TKN" "0x2a" (Route.Quotient "0x2a" 6)]
               "alchemy-portfolio";
           Route.statusCode := 200 |}.
Proof.
  pose proof (@GET_fallback_chain byLength
                (zapperDown (alchemyPage [alchemyToken (Some "0xt0") "0x2a" "TKN" (Route.Value 6)]))
                bothKeys "0xowner" start eq_refl) as (_ & Hfallback & _).
  rewrite (Hfallback [Route.mkToken "0xt0" "TKN" "TKN" "0x2a" (Route.Quotient "0x2a" 6)]).
  - reflexivity.
  - right. right. eexists. reflexivity.
  - reflexivity.
  - reflexivity.
  - discriminate.
Defined.

Section Listed.
Context `{JS.Intl} `{Route.Network}.

Lemma zapper_run_kept (address zapperApiKey : string) (w : World) :
  match fst (Route.fetchZapperTokens address zapperApiKey w) with
  | inr l => Forall (fun t => zapperKept t = true) l
  | inl _ => True
  end.
Proof.
  pose proof (fetchZapperTokens_shape address zapperApiKey w) as Hshape.
  destruct (fst _) as [e|l]; [exact I|].
  destruct Hshape as [edges ->]. apply zapper_tokens_kept.
Qed.

Lemma alchemy_run_kept (address alchemyApiKey : string) (w : World) :
  match fst (Route.fetchAlchemyPortfolioTokens address alchemyApiKey w) with
  | inr l => Forall (fun t => JS.parseInt16_gt0 (Route.balance t) = true) l
  | inl _ => True
  end.
Proof.
  rewrite fetchAlchemyPortfolioTokens_run.
  destruct (Route.fetchPages _ _ _ _ _ w) as [[e|allTokens] w']; simpl; [exact I|].
  apply alchemy_tokens_kept.
Qed.

Lemma sortBySymbol_Forall (P : Route.Token → Prop) (l : list Route.Token) :
  Forall P l → Forall P (Route.sortBySymbol l).
Proof.
  intros Hl. unfold Route.sortBySymbol. rewrite sort_Permutation. exact Hl.
Qed.

(** The tokens of an answer of the handler passed the test of the
    provider named as its source. *)
Lemma GET_tokens_kept (env : Route.Env) (address : string) (w : World) :
  match fst (Route.GET env address w) with
  | inr response =>
      match Route.body response with
      | Route.TokensBody tokens source =>
          (source = "zapper" ∧ Forall (fun t => zapperKept t = true) tokens)
          ∨ (source = "alchemy-portfolio"
             ∧ Forall (fun t => JS.parseInt16_gt0 (Route.balance t) = true) tokens)
          ∨ (source = "none" ∧ tokens = [])
      | Route.ErrorBody _ => True
      end
  | inl _ => True
  end.
Proof.
  destruct (JS.truthy address) eqn:Haddress.
  2:{ unfold Route.GET. rewrite Haddress. exact I. }
  rewrite (GET_run env address w Haddress). cbv zeta.
  pose proof (zapper_run_kept address (default "" (Route.ZAPPER_API_KEY env)) w) as Hz.
  destruct (JS.truthy_opt (Route.ZAPPER_API_KEY env));
    destruct (Route.fetchZapperTokens address _ w) as [[ez|[|tz lz]] wz];
    cbn [fst snd negb andb Route.body Route.NextResponse_json] in *;
    try (left; split; [reflexivity|]; apply sortBySymbol_Forall; exact Hz);
    match goal with
    | |- context [Route.fetchAlchemyPortfolioTokens ?a ?k ?w0] =>
        pose proof (alchemy_run_kept a k w0) as Ha
    end;
    destruct (JS.truthy_opt (JS.or_opt _ _));
    destruct (Route.fetchAlchemyPortfolioTokens address _ _) as [[ea|[|ta la]] wa];
    cbn [fst snd negb andb Route.body Route.NextResponse_json] in *; try exact I;
    first [ right; left; split; [reflexivity|]; apply sortBySymbol_Forall; exact Ha
          | right; right; split; reflexivity ].
Qed.

End Listed.

(** C3 (amended): every token in a produced list passed the balance
    test of its path.  On the Alchemy paths, the route and the two client
    scans, the raw hex balance of a listed token parses to a number above
    zero, so tokens that report a zero raw balance are left out.  On the
    Zapper path a token is listed when its formatted balance or its raw
    balance is a number above zero, and left out when neither is. *)
Theorem listed_tokens_passed_balance_test
    `{JS.Intl} `{Route.Network} `{TokenBurner.Network}
    (env : Route.Env) (address apiKey : string)
    (clientAddress clientKey : option string)
    (st : TokenBurner.State) (w : World) :
  let positive (balance : string) := JS.parseInt16_gt0 balance = true in
  match fst (Route.fetchAlchemyPortfolioTokens address apiKey w) with
  | inr l => Forall (fun t => positive (Route.balance t)) l
  | inl _ => True
  end
  ∧ match fst (Route.fetchZapperTokens address apiKey w) with
    | inr l => Forall (fun t => zapperKept t = true) l
    | inl _ => True
    end
  ∧ match fst (Route.GET env address w) with
    | inr response =>
        match Route.body response with
        | Route.TokensBody tokens source =>
            (source = "zapper" ∧ Forall (fun t => zapperKept t = true) tokens)
            ∨ (source = "alchemy-portfolio"
               ∧ Forall (fun t => positive (Route.balance t)) tokens)
            ∨ (source = "none" ∧ tokens = [])
        | Route.ErrorBody _ => True
        end
    | inl _ => True
    end
  ∧ (∃ st' w',
       TokenBurner.fetchAllTokens clientAddress clientKey st w = (inr st', w')
       ∧ (TokenBurner.tokens st' = TokenBurner.tokens st
          ∨ Forall (fun t => positive (TokenBurner.balance t)) (TokenBurner.tokens st')))
  ∧ (∃ st' w',
       TokenBurner.fetchPriorityTokens clientAddress clientKey st w = (inr st', w')
       ∧ (TokenBurner.tokens st' = TokenBurner.tokens st
          ∨ Forall (fun t => positive (TokenBurner.balance t)) (TokenBurner.tokens st')))
  ∧ (∀ edge, zapperNonzero (Route.node edge) = false → Route.zapperToToken edge = None)
  ∧ (∀ token, positive (Route.AlchemyPortfolioToken.tokenBalance token) ∨ Route.hasBalance token = false).
Proof.
  intros positive. subst positive.
  split; [apply alchemy_run_kept|].
  split; [apply zapper_run_kept|].
  split; [apply GET_tokens_kept|].
  split; [apply fetchAllTokens_positive|].
  split; [apply fetchPriorityTokens_positive|].
  split.
  - intros edge Hzero. unfold Route.zapperToToken, zapperNonzero in *.
    rewrite Hzero. reflexivity.
  - intros token. unfold Route.hasBalance.
    destruct (JS.parseInt16_gt0 _); [left; reflexivity|right; reflexivity].
Qed.

(** C3, as stated, fails on the Zapper path: a node with formatted
    balance "1" and raw balance "0" is listed, with the raw balance "0". *)
Lemma zapper_lists_token_with_zero_raw_balance :
  let network :=
    bothAnswer (zapperBody [zapperEdge "0xt0" "TKN" "1" "0"]) (alchemyPage []) in
  let listed := Route.mkToken "0xt0" "TKN" "TKN" "0" (Route.AsGiven "1") in
  fst (@Route.fetchZapperTokens network "0xowner" "zapper-key" start) = inr [listed]
  ∧ fst (@Route.GET byLength network bothKeys "0xowner" start)
    = inr {| Route.body := Route.TokensBody [listed] "zapper"; Route.statusCode := 200 |}
  ∧ JS.Number_gt0 (Route.balance listed) = false
  ∧ JS.parseInt16_gt0 (Route.balance listed) = false.
Proof.
  vm_compute. repeat split; reflexivity.
Qed.

(** C4 (amended): the raw balance reaches the list as the provider gave
    it.  Every node of the Zapper answer whose formatted or raw balance is
    above zero has an entry with its token address and its [balanceRaw];
    every token on the pages read from Alchemy that passes the filter of
    the route (a balance above zero, a non-empty token address, decimals
    that are not [null]) has an entry with its token address and its
    [tokenBalance]. *)
Theorem raw_balance_passed_verbatim `{Route.Network}
    (address zapperApiKey alchemyApiKey : string) (w wz w' wa : World)
    (response : Response Route.ZapperResponse) (data : Route.ZapperResponse)
    (portfolio : Route.ZapperPortfolio) (edges : list Route.ZapperEdge)
    (allTokens : list Route.AlchemyPortfolioToken.t) :
  Route.fetchWithRetry (Route.zapperGraphql zapperApiKey address) None w
  = (inr response, wz) →
  json response = inr data →
  Route.errors data = None →
  Route.portfolioOf data = Some portfolio →
  Route.edgesOf (Route.tokenBalances portfolio) = Some edges →
  Route.fetchPages address alchemyApiKey Route.maxPages None [] w' = (inr allTokens, wa) →
  ∃ zapperTokens alchemyTokens,
    Route.fetchZapperTokens address zapperApiKey w = (inr zapperTokens, wz)
    ∧ Route.fetchAlchemyPortfolioTokens address alchemyApiKey w' = (inr alchemyTokens, wa)
    ∧ (∀ edge, edge ∈ edges → zapperNonzero (Route.node edge) = true →
         ∃ t, t ∈ zapperTokens
              ∧ Route.contractAddress t = Route.ZapperToken.tokenAddress (Route.node edge)
              ∧ Route.balance t = Route.ZapperToken.balanceRaw (Route.node edge))
    ∧ (∀ token, token ∈ allTokens → Route.hasBalance token = true →
         ∃ t, t ∈ alchemyTokens
              ∧ Some (Route.contractAddress t) = Route.AlchemyPortfolioToken.tokenAddress token
              ∧ Route.balance t = Route.AlchemyPortfolioToken.tokenBalance token).
Proof.
  intros Hrun Hjson Herr Hport Hedges Hpages.
  eexists _, _. split; [eapply fetchZapperTokens_run; eassumption|].
  split; [rewrite fetchAlchemyPortfolioTokens_run, Hpages; reflexivity|].
  split.
  - intros edge Hin Hpos.
    destruct (Route.zapperToToken edge) as [t|] eqn:Ht.
    + exists t. apply zapperToToken_kept in Ht as Hkept.
      split; [|tauto]. apply list_elem_of_omap. eauto.
    + unfold Route.zapperToToken, zapperNonzero in *. rewrite Hpos in Ht. discriminate.
  - intros token Hin Hkeep. exists (Route.alchemyToToken token). split.
    + apply list_elem_of_fmap_2, list_elem_of_filter. auto.
    + unfold Route.hasBalance in Hkeep.
      apply andb_true_iff in Hkeep as [Hkeep _].
      apply andb_true_iff in Hkeep as [_ Haddr].
      destruct (Route.AlchemyPortfolioToken.tokenAddress token) eqn:Ha;
        [|discriminate].
      unfold Route.alchemyToToken. simpl. rewrite Ha. split; reflexivity.
Qed.

Lemma raw_balance_passed_verbatim_witness :
  let network :=
    bothAnswer (zapperBody [zapperEdge "0xt0" "TKN" "1.5" "1500000"])
               (alchemyPage [alchemyToken (Some "0xt1") "0x2a" "ALC" (Route.Value 6)]) in
  ∃ zapperTokens alchemyTokens,
    @Route.fetchZapperTokens network "0xowner" "zapper-key" start
    = (inr zapperTokens, mkWorld 1 [])
    ∧ @Route.fetchAlchemyPortfolioTokens network "0xowner" "alchemy-key" start
      = (inr alchemyTokens, mkWorld 1 [])
    ∧ (∀ edge, edge ∈ [zapperEdge "0xt0" "TKN" "1.5" "1500000"] →
         zapperNonzero (Route.node edge) = true →
         ∃ t, t ∈ zapperTokens
              ∧ Route.contractAddress t = Route.ZapperToken.tokenAddress (Route.node edge)
              ∧ Route.balance t = Route.ZapperToken.balanceRaw (Route.node edge))
    ∧ (∀ token, token ∈ [alchemyToken (Some "0xt1") "0x2a" "ALC" (Route.Value 6)] →
         Route.hasBalance token = true →
         ∃ t, t ∈ alchemyTokens
              ∧ Some (Route.contractAddress t) = Route.AlchemyPortfolioToken.tokenAddress token
              ∧ Route.balance t = Route.AlchemyPortfolioToken.tokenBalance token).
Proof.
  intros network.
  eapply (@raw_balance_passed_verbatim network "0xowner" "zapper-key" "alchemy-key");
    reflexivity.
Defined.

(** C4, as stated, fails on the Alchemy path: a token with the non-zero
    balance 0x2a whose metadata has [decimals: null] gets no entry, and
    neither does one whose token address is the empty string. *)
Lemma alchemy_drops_token_with_null_decimals :
  let network :=
    bothAnswer (zapperBody [])
               (alchemyPage [alchemyToken (Some "0xt0") "0x2a" "TKN" Route.Null;
                             alchemyToken (Some "") "0x2a" "ETH" (Route.Value 18)]) in
  JS.parseInt16 "0x2a" = Some 42
  ∧ JS.parseInt16_gt0 "0x2a" = true
  ∧ fst (@Route.fetchAlchemyPortfolioTokens network "0xowner" "alchemy-key" start) = inr []
  ∧ fst (@Route.GET byLength network
           {| Route.ZAPPER_API_KEY := None;
              Route.ALCHEMY_API_KEY := Some "alchemy-key";
              Route.NEXT_PUBLIC_ALCHEMY_API_KEY := None |}
           "0xowner" start)
    = inr {| Route.body := Route.TokensBody [] "none"; Route.statusCode := 200 |}.
Proof.
  vm_compute. repeat split; reflexivity.
Qed.

(* ================================================================== *)
(** * Further properties: call lists *)
(* ================================================================== *)

Section ApproveAndMint.
Import BatchedTransactions.
Context `{Viem}.

(** X1: converting the steps of [createApproveAndMintSteps] gives what
    [createApproveAndMintBatchCalls] gives, the same calls or the same
    thrown error: the approval of the spender on the ERC20 token without
    value, then the mint call with the mint value, which is zero when
    none is given. *)
Theorem approve_and_mint_steps_to_calls_agree
    (erc20TokenAddress spenderAddress : Address) (approvalAmount : Z)
    (mintContractAddress : Address) (mintAbi : Abi) (mintFunctionName : string)
    (mintArgs : list Arg) (mintValue : option Z) :
  let steps :=
    createApproveAndMintSteps erc20TokenAddress spenderAddress approvalAmount
      mintContractAddress mintAbi mintFunctionName mintArgs mintValue in
  let result :=
    createApproveAndMintBatchCalls erc20TokenAddress spenderAddress approvalAmount
      mintContractAddress mintAbi mintFunctionName mintArgs mintValue in
  transactionStepsToBatchCalls steps = result
  ∧ ∀ calls, result = inr calls →
      map to calls = [erc20TokenAddress; mintContractAddress]
      ∧ map value calls = [None; Some (default 0 mintValue)]
      ∧ inr <$> (data <$> calls !! 0%nat)
        = Some (encodeFunctionData erc20Abi "approve"
                  [AddressArg spenderAddress; BigIntArg approvalAmount])
      ∧ inr <$> (data <$> calls !! 1%nat)
        = Some (encodeFunctionData mintAbi mintFunctionName mintArgs).
Proof.
  cbv zeta.
  unfold transactionStepsToBatchCalls, createApproveAndMintSteps,
    createApproveAndMintBatchCalls.
  simpl.
  destruct (encodeFunctionData erc20Abi "approve" _) as [err|approveData];
    [split; [reflexivity|discriminate]|].
  destruct (encodeFunctionData mintAbi mintFunctionName mintArgs) as [err|mintData];
    [split; [reflexivity|discriminate]|].
  split; [reflexivity|].
  intros calls [= <-]. repeat split; reflexivity.
Qed.

(** X2: [checkTokenApproval] reports an approval only when the allowance
    was read and covers the amount: a failed read gives [false], and an
    approval for an amount holds for every smaller amount. *)
Theorem approval_needs_a_read_allowance
    (tokenAddress owner spender : Address) (amount smaller : Z)
    (publicClient : ReadAllowance) :
  checkTokenApproval tokenAddress owner spender amount publicClient = true →
  (∃ allowance, publicClient tokenAddress owner spender = inr allowance
                ∧ amount <= allowance)
  ∧ (smaller <= amount →
     checkTokenApproval tokenAddress owner spender smaller publicClient = true).
Proof.
  unfold checkTokenApproval.
  destruct (publicClient tokenAddress owner spender) as [e|allowance];
    [discriminate|].
  intros Hle. apply Z.leb_le in Hle. split.
  - exists allowance. split; [reflexivity|exact Hle].
  - intros Hsmaller. apply Z.leb_le. lia.
Qed.

Lemma approval_needs_a_read_allowance_witness :
  (∃ allowance, (fun _ _ _ => inr 100) "0xtoken" "0xowner" "0xspender"
                = (inr allowance : JS.Error + Z)
                ∧ 40 <= allowance)
  ∧ (7 <= 40 →
     checkTokenApproval "0xtoken" "0xowner" "0xspender" 7 (fun _ _ _ => inr 100)
     = true).
Proof.
  exact (approval_needs_a_read_allowance "0xtoken" "0xowner" "0xspender" 40 7
           (fun _ _ _ => inr 100) eq_refl).
Defined.

End ApproveAndMint.

(* ================================================================== *)
(** * Further properties: the retry helper *)
(* ================================================================== *)

Section RetryBounds.
Context {B : Type} (f : Fetch B).

Lemma mkWorld_eq (c c' : nat) (l l' : list Event) :
  c = c' → l = l' → mkWorld c l = mkWorld c' l'.
Proof. intros -> ->. reflexivity. Qed.

(** Whatever the network does, [n] attempts leave [n - 1] waits behind,
    and [n] is within what remains of the budget. *)
Lemma attempt_bounded_client (retries : Z) (report : bool) (remaining : nat) :
  ∀ (i : Z) (w : World),
    retries = i + Z.of_nat remaining →
    ∃ n : nat,
      (n ≤ remaining)%nat
      ∧ (remaining ≠ 0%nat → n ≠ 0%nat)
      ∧ snd (TokenBurner.attempt f retries (callback report) remaining i w)
        = mkWorld (clock w + n) (log w ++ reported report retries i (n - 1)).
Proof.
  induction remaining as [|r IH]; intros i w Hr.
  - exists 0%nat. simpl. unfold throw. simpl.
    rewrite Nat.add_0_r, app_nil_r. destruct w. auto.
  - destruct (failed (f (clock w))) eqn:Hfail.
    + rewrite failed_attempt_client by exact Hfail.
      destruct (Z.eqb_spec i (retries - 1)) as [Hlast|Hmore].
      * exists 1%nat. simpl. rewrite app_nil_r.
        split; [lia|]. split; [lia|]. apply mkWorld_eq; [lia|reflexivity].
      * destruct r as [|r]; [lia|].
        destruct (IH (i + 1)
                    (mkWorld (S (clock w)) (log w ++ reported report retries i 1)))
          as (n & Hn & Hpos & Hw); [lia|].
        exists (S n). rewrite Hw. simpl.
        destruct n as [|n]; [exfalso; apply Hpos; [discriminate|reflexivity]|].
        split; [lia|]. split; [discriminate|].
        simpl. rewrite Nat.sub_0_r, <- !app_assoc.
        apply mkWorld_eq; [lia|]. destruct report; reflexivity.
    + exists 1%nat. simpl.
      unfold bind, tryCatch, fetch, ret, throw. unfold failed in Hfail.
      destruct (f (clock w)) as [e|response]; [discriminate|].
      apply negb_false_iff in Hfail. rewrite Hfail. simpl.
      rewrite app_nil_r. split; [lia|]. split; [lia|].
      apply mkWorld_eq; [lia|reflexivity].
Qed.

(** The number of requests depends neither on the callback nor on the
    log. *)
Lemma attempt_clock_irrelevant (retries : Z) (b1 b2 : bool) (remaining : nat) :
  ∀ (i : Z) (w1 w2 : World),
    clock w1 = clock w2 →
    clock (snd (TokenBurner.attempt f retries (callback b1) remaining i w1))
    = clock (snd (TokenBurner.attempt f retries (callback b2) remaining i w2)).
Proof.
  induction remaining as [|r IH]; intros i w1 w2 Hclock; [exact Hclock|].
  simpl. unfold bind, tryCatch, fetch, ret, throw, sleep, record. simpl.
  rewrite Hclock.
  destruct (f (clock w2)) as [e|response]; simpl.
  - destruct (i =? retries - 1); [reflexivity|].
    destruct b1, b2; simpl; unfold TokenBurner.reportRetry, record; simpl;
      apply IH; reflexivity.
  - destruct (ok response); [reflexivity|]. simpl.
    destruct (i =? retries - 1); [reflexivity|].
    destruct b1, b2; simpl; unfold TokenBurner.reportRetry, record; simpl;
      apply IH; reflexivity.
Qed.

Lemma reported_take (report : bool) (retries : Z) (n m : nat) :
  ∀ i : Z,
    (n ≤ m)%nat →
    delays (reported report retries i n)
    = take n ((fun j => 2 ^ (i + Z.of_nat j) * 1000) <$> seq 0 m).
Proof.
  intros i Hn. rewrite delays_reported.
  rewrite <- fmap_take. f_equal.
  replace m with (n + (m - n))%nat by lia.
  rewrite seq_app, take_app_length'; [reflexivity|symmetry; apply length_seq].
Qed.

End RetryBounds.

(** X3: in every run, whatever the network answers, [fetchWithRetry]
    issues at least one and at most [retries] requests (3 by default) when
    the budget is positive, and after [n] requests it has waited exactly
    the first [n - 1] backoff delays of 1 s, 2 s, 4 s, ...: never more
    than the waits of a call that fails throughout. *)
Theorem fetchWithRetry_stays_within_budget {B : Type} (f : Fetch B)
    (retries : option Z) (report : bool) (w : World) :
  let budget := default 3 retries in
  let route := snd (Route.fetchWithRetry f retries w) in
  let client := snd (TokenBurner.fetchWithRetry f retries (callback report) w) in
  ∃ n : nat,
    (n ≤ Z.to_nat budget)%nat
    ∧ (0 < budget → n ≠ 0%nat)
    ∧ clock route = (clock w + n)%nat
    ∧ clock client = (clock w + n)%nat
    ∧ delays (log route) = delays (log w) ++ take (n - 1) (waits budget)
    ∧ delays (log client) = delays (log w) ++ take (n - 1) (waits budget).
Proof.
  intros budget route client.
  assert (Hr : route
               = snd (TokenBurner.attempt f budget None (Z.to_nat budget) 0 w)).
  { subst route budget. unfold Route.fetchWithRetry.
    rewrite route_attempt_as_client. reflexivity. }
  assert (Hc : client
               = snd (TokenBurner.attempt f budget (callback report)
                        (Z.to_nat budget) 0 w)) by reflexivity.
  destruct (Z.le_gt_cases budget 0) as [Hnone|Hsome].
  - exists 0%nat. rewrite Hr, Hc.
    replace (Z.to_nat budget) with 0%nat by lia. simpl. unfold throw. simpl.
    rewrite Nat.add_0_r, app_nil_r. repeat split; lia.
  - destruct (attempt_bounded_client f budget report (Z.to_nat budget) 0 w)
      as (n & Hn & Hpos & Hw); [lia|].
    destruct (attempt_bounded_client f budget false (Z.to_nat budget) 0 w)
      as (n' & Hn' & Hpos' & Hw'); [lia|].
    change (callback false) with (@None (Z → Z → M unit)) in Hw'.
    assert (Hnn : n' = n).
    { pose proof (f_equal clock Hw) as H1. pose proof (f_equal clock Hw') as H2.
      simpl in H1, H2.
      rewrite (attempt_clock_irrelevant f budget report false _ 0 w w eq_refl) in H1.
      change (callback false) with (@None (Z → Z → M unit)) in H1. lia. }
    subst n'. exists n. rewrite Hr, Hc, Hw, Hw'. simpl.
    rewrite !delays_app.
    assert (Htake : ∀ b, delays (reported b budget 0 (n - 1))
                         = take (n - 1) (waits budget)).
    { intros b. unfold waits.
      rewrite (reported_take b budget (n - 1) (Z.to_nat budget - 1) 0) by lia.
      reflexivity. }
    rewrite !Htake. split; [exact Hn|]. split; [intros _; apply Hpos; lia|].
    repeat split; reflexivity.
Qed.

(** X4: when the first [k] attempts fail, by rejection or by a status
    outside 200-299, and the next one, still within the budget, is
    answered with an ok response, [fetchWithRetry] returns that response
    after [k + 1] requests, having waited 1 s, 2 s, ... [2^(k-1)] s. *)
Theorem fetchWithRetry_returns_first_ok_response {B : Type} (f : Fetch B)
    (retries : Z) (report : bool) (response : Response B) (k : nat) (w : World) :
  (k < Z.to_nat retries)%nat →
  allFailed f (clock w) k = true →
  f (clock w + k)%nat = Resolved response →
  ok response = true →
  let route := Route.fetchWithRetry f (Some retries) w in
  let client := TokenBurner.fetchWithRetry f (Some retries) (callback report) w in
  fst route = inr response
  ∧ fst client = inr response
  ∧ clock (snd route) = (clock w + S k)%nat
  ∧ clock (snd client) = (clock w + S k)%nat
  ∧ delays (log (snd route))
    = delays (log w) ++ ((fun j => 2 ^ Z.of_nat j * 1000) <$> seq 0 k)
  ∧ delays (log (snd client))
    = delays (log w) ++ ((fun j => 2 ^ Z.of_nat j * 1000) <$> seq 0 k).
Proof.
  intros Hk Hall Hres Hok route client.
  destruct (fetchWithRetry_recovers f retries report response k w Hk Hall Hres Hok)
    as [Hr Hc].
  subst route client. rewrite Hr, Hc. simpl.
  rewrite !delays_app, !delays_reported.
  repeat split; reflexivity.
Qed.

Lemma fetchWithRetry_returns_first_ok_response_witness :
  fst (Route.fetchWithRetry (flaky 2) (Some 3) start)
  = inr (mkResponse 200 (inr tt))
  ∧ delays (log (snd (Route.fetchWithRetry (flaky 2) (Some 3) start)))
    = [1000; 2000].
Proof.
  pose proof (fetchWithRetry_returns_first_ok_response (flaky 2) 3 true
                (mkResponse 200 (inr tt)) 2 start) as Hrun.
  destruct Hrun as (Hr & _ & _ & _ & Hd & _); try reflexivity.
  - simpl. lia.
  - split; [exact Hr|exact Hd].
Defined.

(* ================================================================== *)
(** * Further properties: the route *)
(* ================================================================== *)

(** A request answered with an ok response at once. *)
Lemma fetchWithRetry_first_try {B : Type} (f : Fetch B) (response : Response B)
    (w : World) :
  f (clock w) = Resolved response →
  ok response = true →
  Route.fetchWithRetry f None w = (inr response, mkWorld (S (clock w)) (log w)).
Proof.
  intros Hres Hok. unfold Route.fetchWithRetry. simpl.
  unfold bind, tryCatch, fetch, ret. rewrite Hres, Hok. reflexivity.
Qed.

(** One call of the helper with the default budget: at most three
    requests and three seconds of waiting. *)
Lemma fetchWithRetry_default_cost {B : Type} (f : Fetch B) (w : World) :
  let w' := snd (Route.fetchWithRetry f None w) in
  (clock w ≤ clock w' ≤ clock w + 3)%nat
  ∧ totalDelay (log w) <= totalDelay (log w') <= totalDelay (log w) + 3000.
Proof.
  unfold Route.fetchWithRetry. simpl default.
  rewrite route_attempt_as_client.
  destruct (attempt_bounded_client f 3 false (Z.to_nat 3) 0 w)
    as (n & Hn & _ & Hw); [reflexivity|].
  change (callback false) with (@None (Z → Z → M unit)) in Hw.
  cbv zeta. rewrite Hw. simpl clock. simpl log.
  unfold totalDelay. rewrite delays_app, foldr_app.
  assert (Hsum : ∀ (l : list Z) (z : Z), foldr Z.add z l = foldr Z.add 0 l + z).
  { induction l as [|x l IH]; intros z; simpl; [lia|]. rewrite IH. lia. }
  change (Z.to_nat 3) with 3%nat in Hn.
  destruct n as [|[|[|[|n]]]]; simpl;
    try match goal with
        | |- context [foldr Z.add (?a + ?b) ?l] => rewrite (Hsum l (a + b))
        end;
    lia.
Qed.

Section Pagination.
Context `{Route.Network}.

Lemma fetchPages_follow (address alchemyApiKey : string)
    (answer : option string → Route.AlchemyResponse) :
  (∀ pageKey n, Route.alchemyTokensByAddress alchemyApiKey address pageKey n
                = Resolved (mkResponse 200 (inr (answer pageKey)))) →
  ∀ (remaining : nat) (pageKey : option string)
    (allTokens : list Route.AlchemyPortfolioToken.t) (w : World),
    Forall (fun page => Route.error page = None) (follow answer remaining pageKey) →
    Route.fetchPages address alchemyApiKey remaining pageKey allTokens w
    = (inr (allTokens ++ concat (pageTokens <$> follow answer remaining pageKey)),
       mkWorld (clock w + length (follow answer remaining pageKey)) (log w)).
Proof.
  intros Hnet. induction remaining as [|r IH]; intros pageKey allTokens w Hpages.
  - simpl. unfold ret. rewrite app_nil_r, Nat.add_0_r. destruct w. reflexivity.
  - simpl in Hpages. apply Forall_cons in Hpages as [Herr Hrest].
    simpl. unfold bind at 1.
    rewrite (fetchWithRetry_first_try _ (mkResponse 200 (inr (answer
               (if JS.truthy_opt pageKey then pageKey else None)))))
      by (try apply Hnet; reflexivity).
    unfold bind at 1, readJson, ret at 1. cbn [json]. cbv iota beta.
    rewrite Herr.
    fold (pageTokens (answer (if JS.truthy_opt pageKey then pageKey else None))).
    destruct r as [|r].
    + simpl. unfold ret.
      destruct (JS.truthy_opt (Route.alchemy_data _ ≫= Route.pageKey)); simpl;
        rewrite app_nil_r; (f_equal; apply mkWorld_eq; [lia|reflexivity]).
    + change (S r =? 0)%nat with false. cbv iota.
      destruct (JS.truthy_opt (Route.alchemy_data _ ≫= Route.pageKey)) eqn:Hnext.
      * rewrite IH by exact Hrest. simpl. rewrite <- app_assoc.
        f_equal. apply mkWorld_eq; [lia|reflexivity].
      * unfold ret. simpl. rewrite app_nil_r.
        f_equal. apply mkWorld_eq; [lia|reflexivity].
Qed.

Lemma follow_length (answer : option string → Route.AlchemyResponse)
    (remaining : nat) :
  ∀ pageKey, (length (follow answer remaining pageKey) ≤ remaining)%nat.
Proof.
  induction remaining as [|r IH]; intros pageKey; simpl; [lia|].
  destruct (JS.truthy_opt _); simpl; [specialize (IH (Route.alchemy_data
    (answer (if JS.truthy_opt pageKey then pageKey else None)) ≫= Route.pageKey))|];
    lia.
Qed.

End Pagination.

(** X5: when the Alchemy endpoint answers every request with the page
    for its key and none of the pages reports an error,
    [fetchAlchemyPortfolioTokens] follows the continuation keys from the
    first page on, with one request per page, stops at the first page
    without a key or after ten pages, and lists the tokens of these pages
    in order, those that pass its filter. *)
Theorem pagination_follows_continuation_keys `{Route.Network}
    (address alchemyApiKey : string)
    (answer : option string → Route.AlchemyResponse) (w : World) :
  (∀ pageKey n, Route.alchemyTokensByAddress alchemyApiKey address pageKey n
                = Resolved (mkResponse 200 (inr (answer pageKey)))) →
  let pages := follow answer 10 None in
  Forall (fun page => Route.error page = None) pages →
  Route.fetchAlchemyPortfolioTokens address alchemyApiKey w
  = (inr (map Route.alchemyToToken
            (filter (fun token => Route.hasBalance token = true)
               (concat (pageTokens <$> pages)))),
     mkWorld (clock w + length pages) (log w))
  ∧ (length pages ≤ 10)%nat.
Proof.
  intros Hnet pages Hpages. split; [|apply follow_length].
  rewrite fetchAlchemyPortfolioTokens_run.
  change Route.maxPages with 10%nat.
  rewrite (fetchPages_follow address alchemyApiKey answer Hnet 10 None [] w Hpages).
  reflexivity.
Qed.

Lemma pagination_follows_continuation_keys_witness :
  @Route.fetchAlchemyPortfolioTokens (pagedAlchemy twoPages) "0xowner" "alchemy-key" start
  = (inr [Route.mkToken "0xt1" "ONE" "ONE" "0x2a" (Route.Quotient "0x2a" 6);
          Route.mkToken "0xt2" "TWO" "TWO" "0x10" (Route.Quotient "0x10" 18)],
     mkWorld 2 []).
Proof.
  refine (proj1 (@pagination_follows_continuation_keys (pagedAlchemy twoPages)
                   "0xowner" "alchemy-key" twoPages start _ _)).
  - intros pageKey n. reflexivity.
  - repeat constructor.
Defined.

Section UpstreamCost.
Context `{JS.Intl} `{Route.Network}.

Lemma fetchPages_cost (address alchemyApiKey : string) (remaining : nat) :
  ∀ (pageKey : option string) (allTokens : list Route.AlchemyPortfolioToken.t)
    (w w' : World) (result : JS.Error + list Route.AlchemyPortfolioToken.t),
    Route.fetchPages address alchemyApiKey remaining pageKey allTokens w
    = (result, w') →
    (clock w ≤ clock w' ≤ clock w + 3 * remaining)%nat
    ∧ totalDelay (log w) <= totalDelay (log w')
      <= totalDelay (log w) + 3000 * Z.of_nat remaining.
Proof.
  induction remaining as [|r IH]; intros pageKey allTokens w w' result Hrun.
  - simpl in Hrun. unfold ret in Hrun. injection Hrun as <- <-. lia.
  - simpl in Hrun. unfold bind at 1 in Hrun.
    pose proof (fetchWithRetry_default_cost
                  (Route.alchemyTokensByAddress alchemyApiKey address
                     (if JS.truthy_opt pageKey then pageKey else None)) w) as Hcost.
    cbv zeta in Hcost.
    destruct (Route.fetchWithRetry _ None w) as [[e|response] w1];
      cbn [snd] in Hcost; [injection Hrun as <- <-; lia|].
    unfold bind at 1, readJson in Hrun.
    destruct (json response) as [e|data];
      [unfold throw in Hrun; injection Hrun as <- <-; lia|].
    unfold ret at 1 in Hrun.
    destruct (Route.error data);
      [unfold throw in Hrun; injection Hrun as <- <-; lia|].
    destruct r as [|r];
      [simpl in Hrun; unfold ret in Hrun; injection Hrun as <- <-; lia|].
    change (S r =? 0)%nat with false in Hrun. cbv iota in Hrun.
    destruct (JS.truthy_opt _);
      [|unfold ret in Hrun; injection Hrun as <- <-; lia].
    apply IH in Hrun. lia.
Qed.

Lemma fetchAlchemyPortfolioTokens_cost (address alchemyApiKey : string) (w : World) :
  let w' := snd (Route.fetchAlchemyPortfolioTokens address alchemyApiKey w) in
  (clock w ≤ clock w' ≤ clock w + 30)%nat
  ∧ totalDelay (log w) <= totalDelay (log w') <= totalDelay (log w) + 30000.
Proof.
  rewrite fetchAlchemyPortfolioTokens_run.
  destruct (Route.fetchPages address alchemyApiKey Route.maxPages None [] w)
    as [result w'] eqn:Hrun.
  apply fetchPages_cost in Hrun. change Route.maxPages with 10%nat in Hrun.
  destruct result; cbn [snd]; lia.
Qed.

Lemma fetchZapperTokens_cost (address zapperApiKey : string) (w : World) :
  let w' := snd (Route.fetchZapperTokens address zapperApiKey w) in
  (clock w ≤ clock w' ≤ clock w + 3)%nat
  ∧ totalDelay (log w) <= totalDelay (log w') <= totalDelay (log w) + 3000.
Proof.
  pose proof (fetchWithRetry_default_cost
                (Route.zapperGraphql zapperApiKey address) w) as Hcost.
  cbv zeta in Hcost.
  assert (Hworld : snd (Route.fetchZapperTokens address zapperApiKey w)
                   = snd (Route.fetchWithRetry
                            (Route.zapperGraphql zapperApiKey address) None w)).
  { unfold Route.fetchZapperTokens, bind, readJson.
    destruct (Route.fetchWithRetry _ None w) as [[e|response] w1]; [reflexivity|].
    destruct (json response) as [e|data]; [reflexivity|].
    unfold ret at 1.
    destruct (Route.errors data); [reflexivity|].
    destruct (Route.portfolioOf data); [|reflexivity].
    destruct (Route.edgesOf _); reflexivity. }
  cbv zeta. rewrite Hworld. exact Hcost.
Qed.

End UpstreamCost.

(** X6: one call of the handler costs at most 33 upstream requests and
    33 seconds of backoff: at most 3 requests and 3 s for Zapper, at most
    30 requests and 30 s for the pages of Alchemy, whatever the
    providers answer. *)
Theorem GET_upstream_cost_is_bounded `{JS.Intl} `{Route.Network}
    (env : Route.Env) (address apiKey : string) (w : World) :
  let wz := snd (Route.fetchZapperTokens address apiKey w) in
  let wa := snd (Route.fetchAlchemyPortfolioTokens address apiKey w) in
  let w' := snd (Route.GET env address w) in
  ((clock wz ≤ clock w + 3)%nat ∧ totalDelay (log wz) <= totalDelay (log w) + 3000)
  ∧ ((clock wa ≤ clock w + 30)%nat ∧ totalDelay (log wa) <= totalDelay (log w) + 30000)
  ∧ ((clock w ≤ clock w' ≤ clock w + 33)%nat
     ∧ totalDelay (log w) <= totalDelay (log w') <= totalDelay (log w) + 33000).
Proof.
  cbv zeta.
  pose proof (fetchZapperTokens_cost address apiKey w) as Hz.
  pose proof (fetchAlchemyPortfolioTokens_cost address apiKey w) as Ha.
  cbv zeta in Hz, Ha.
  split; [lia|]. split; [lia|].
  destruct (JS.truthy address) eqn:Haddress.
  2:{ unfold Route.GET. rewrite Haddress. simpl. lia. }
  rewrite (GET_run env address w Haddress). cbv zeta.
  clear Hz Ha.
  pose proof (fetchZapperTokens_cost address
                (default "" (Route.ZAPPER_API_KEY env)) w) as Hz1.
  cbv zeta in Hz1.
  remember (Route.fetchZapperTokens address
              (default "" (Route.ZAPPER_API_KEY env)) w) as zapper eqn:Hzapper.
  clear Hzapper.
  remember (if JS.truthy_opt (Route.ZAPPER_API_KEY env) then snd zapper else w)
    as w1 eqn:Hw1.
  assert (Hcost1 : (clock w ≤ clock w1 ≤ clock w + 3)%nat
                   ∧ totalDelay (log w) <= totalDelay (log w1)
                     <= totalDelay (log w) + 3000).
  { subst w1. destruct (JS.truthy_opt (Route.ZAPPER_API_KEY env)); [exact Hz1|lia]. }
  clear Hw1 Hz1.
  pose proof (fetchAlchemyPortfolioTokens_cost address
                (default "" (JS.or_opt (Route.ALCHEMY_API_KEY env)
                               (Route.NEXT_PUBLIC_ALCHEMY_API_KEY env))) w1) as Ha1.
  cbv zeta in Ha1.
  remember (Route.fetchAlchemyPortfolioTokens address _ w1) as alchemy eqn:Halchemy.
  clear Halchemy.
  remember (if JS.truthy_opt (JS.or_opt _ _) then snd alchemy else w1) as w2 eqn:Hw2.
  assert (Hcost2 : (clock w1 ≤ clock w2 ≤ clock w1 + 30)%nat
                   ∧ totalDelay (log w1) <= totalDelay (log w2)
                     <= totalDelay (log w1) + 30000).
  { subst w2. destruct (JS.truthy_opt (JS.or_opt _ _)); [exact Ha1|lia]. }
  clear Hw2 Ha1.
  destruct (if JS.truthy_opt (Route.ZAPPER_API_KEY env) then _ else _) as [|tz lz];
    [|cbn [snd]; lia].
  destruct (if JS.truthy_opt (JS.or_opt _ _) then _ else _) as [|ta la];
    [|cbn [snd]; lia].
  destruct (negb _ && negb _); cbn [snd]; lia.
Qed.

(** X7: the handler never throws, and the status of its answer is
    decided by the address and the keys alone: 400 "Address is required",
    without any upstream request, for an empty address; 500 when no key
    is set; 200 with a token list in every other case, so the failure of
    both providers gives an empty list, not an error. *)
Theorem GET_status_by_address_and_keys `{JS.Intl} `{Route.Network}
    (env : Route.Env) (address : string) (w : World) :
  let configured :=
    JS.truthy_opt (Route.ZAPPER_API_KEY env)
    || JS.truthy_opt (JS.or_opt (Route.ALCHEMY_API_KEY env)
                        (Route.NEXT_PUBLIC_ALCHEMY_API_KEY env)) in
  ∃ response w',
    Route.GET env address w = (inr response, w')
    ∧ Route.statusCode response
      = (if negb (JS.truthy address) then 400 else if configured then 200 else 500)
    ∧ (JS.truthy address = false →
       w' = w ∧ Route.body response = Route.ErrorBody "Address is required")
    ∧ (JS.truthy address = true → configured = false → w' = w)
    ∧ (Route.statusCode response = 200
       ↔ ∃ tokens source, Route.body response = Route.TokensBody tokens source).
Proof.
  cbv zeta. destruct (JS.truthy address) eqn:Haddress.
  2:{ unfold Route.GET. rewrite Haddress. simpl. unfold ret.
      eexists _, _. split; [reflexivity|]. simpl.
      repeat split; try discriminate.
      intros (tokens & source & Hbody). discriminate. }
  rewrite (GET_run env address w Haddress). cbv zeta.
  destruct (JS.truthy_opt (Route.ZAPPER_API_KEY env)) eqn:Hz;
    try destruct (Route.fetchZapperTokens address _ w) as [[ez|[|tz lz]] wz];
    cbn [fst snd negb andb orb];
    try destruct (JS.truthy_opt (JS.or_opt _ _)) eqn:Ha;
    try destruct (Route.fetchAlchemyPortfolioTokens address _ _) as [[ea|[|ta la]] wa];
    cbn [fst snd negb andb orb];
    eexists _, _; (split; [reflexivity|]);
    cbn [Route.statusCode Route.body Route.NextResponse_json default];
    (split; [reflexivity|]);
    (split; [discriminate|]);
    (split; [first [discriminate | reflexivity | intros _ _; reflexivity]|]);
    (split; [intros Hs; first [discriminate Hs | eexists _, _; reflexivity]
            | intros (tokens & source & Hbody);
              first [discriminate Hbody | reflexivity]]).
Qed.

(** X8: when the answer of Zapper has an [errors] entry, even an empty
    list and even beside valid data, or has no portfolio,
    [fetchZapperTokens] throws ("Zapper API Error: " with the first
    message or "Unknown error", or "No portfolio data returned from
    Zapper") and none of its tokens is used: the answer of the handler
    does not have the source "zapper". *)
Theorem zapper_errors_discard_its_data `{JS.Intl} `{Route.Network}
    (env : Route.Env) (address zapperApiKey : string) (w w' : World)
    (response : Response Route.ZapperResponse) (data : Route.ZapperResponse) :
  Route.fetchWithRetry (Route.zapperGraphql zapperApiKey address) None w
  = (inr response, w') →
  json response = inr data →
  Route.errors data ≠ None ∨ Route.portfolioOf data = None →
  Route.ZAPPER_API_KEY env = Some zapperApiKey →
  Route.fetchZapperTokens address zapperApiKey w
  = (inl (JS.mkError
            match Route.errors data with
            | Some errs =>
                "Zapper API Error: "
                +:+ JS.or_else (head errs ≫= Route.zapper_message) "Unknown error"
            | None => "No portfolio data returned from Zapper"
            end), w')
  ∧ ∀ tokens status,
      fst (Route.GET env address w)
      ≠ inr {| Route.body := Route.TokensBody tokens "zapper";
               Route.statusCode := status |}.
Proof.
  intros Hrun Hjson Hbad Hkey.
  assert (Hthrows :
            Route.fetchZapperTokens address zapperApiKey w
            = (inl (JS.mkError
                      match Route.errors data with
                      | Some errs =>
                          "Zapper API Error: "
                          +:+ JS.or_else (head errs ≫= Route.zapper_message)
                                "Unknown error"
                      | None => "No portfolio data returned from Zapper"
                      end), w')).
  { unfold Route.fetchZapperTokens, bind, readJson. rewrite Hrun, Hjson.
    unfold ret at 1.
    destruct (Route.errors data) as [errs|]; [reflexivity|].
    destruct Hbad as [Hbad|Hbad]; [congruence|]. rewrite Hbad. reflexivity. }
  split; [exact Hthrows|].
  intros tokens status.
  destruct (JS.truthy address) eqn:Haddress.
  2:{ unfold Route.GET. rewrite Haddress. simpl. discriminate. }
  rewrite (GET_run env address w Haddress). cbv zeta.
  rewrite Hkey. simpl default. rewrite Hthrows. cbn [fst snd].
  destruct (JS.truthy_opt (Some zapperApiKey));
    destruct (if JS.truthy_opt (JS.or_opt _ _) then _ else _) as [|ta la];
    try destruct (negb _ && negb _);
    cbn [fst Route.NextResponse_json]; intros Heq; discriminate Heq.
Qed.

Lemma zapper_errors_discard_its_data_witness :
  @Route.fetchZapperTokens (bothAnswer (zapperBodyWithErrors []) (alchemyPage []))
     "0xowner" "zapper-key" start
  = (inl (JS.mkError "Zapper API Error: Unknown error"), mkWorld 1 []).
Proof.
  refine (proj1 (@zapper_errors_discard_its_data byLength
                   (bothAnswer (zapperBodyWithErrors []) (alchemyPage []))
                   bothKeys "0xowner" "zapper-key" start (mkWorld 1 [])
                   (mkResponse 200 (inr (zapperBodyWithErrors [])))
                   (zapperBodyWithErrors []) _ _ _ _)).
  - reflexivity.
  - reflexivity.
  - left. discriminate.
  - reflexivity.
Defined.

(* ================================================================== *)
(** * Further properties: the client scans *)
(* ================================================================== *)

Section ClientScans.
Context `{JS.Intl} `{TokenBurner.Network}.

(** An address that lowercases to a priority token is in the metadata
    table. *)
Lemma priority_address_cached (lower : string) :
  lower ∈ TokenBurner.BASE_PRIORITY_TOKENS →
  ∃ cached, TokenBurner.TOKEN_METADATA_CACHE !! lower = Some cached
            ∧ TokenBurner.includesPriority lower = true.
Proof.
  intros Hin. unfold TokenBurner.BASE_PRIORITY_TOKENS in Hin. simpl in Hin.
  repeat (apply elem_of_cons in Hin as [->|Hin];
          [eexists; split; vm_compute; reflexivity|]).
  apply elem_of_nil in Hin. contradiction.
Qed.

Lemma fetchTokenMetadata_cached (contractAddress alchemyApiKey : string)
    (onRetry : option (Z → Z → M unit)) (w : World) :
  JS.toLowerCase contractAddress ∈ TokenBurner.BASE_PRIORITY_TOKENS →
  ∃ cached,
    TokenBurner.TOKEN_METADATA_CACHE !! JS.toLowerCase contractAddress = Some cached
    ∧ TokenBurner.fetchTokenMetadata contractAddress alchemyApiKey onRetry w
      = (inr (Some (TokenBurner.mkToken contractAddress
                      (TokenBurner.TokenCache.name cached)
                      (TokenBurner.TokenCache.symbol cached) "0"
                      (TokenBurner.TokenCache.decimals cached) None (Some true))),
         w).
Proof.
  intros Hin. destruct (priority_address_cached _ Hin) as (cached & Hc & Hp).
  exists cached. split; [exact Hc|].
  unfold TokenBurner.fetchTokenMetadata. rewrite Hc, Hp. reflexivity.
Qed.

(** The metadata of a token carries the address it was asked for. *)
Lemma fetchTokenMetadata_address (contractAddress alchemyApiKey : string)
    (onRetry : option (Z → Z → M unit)) (w : World) :
  ∃ metadata w',
    TokenBurner.fetchTokenMetadata contractAddress alchemyApiKey onRetry w
    = (inr metadata, w')
    ∧ ∀ t, metadata = Some t → TokenBurner.contractAddress t = contractAddress.
Proof.
  unfold TokenBurner.fetchTokenMetadata.
  destruct (TokenBurner.TOKEN_METADATA_CACHE !! _) as [cached|].
  { unfold ret. eexists _, _. split; [reflexivity|]. intros token Htoken; injection Htoken as <-; reflexivity. }
  unfold tryCatch, bind, readJson.
  destruct (TokenBurner.fetchWithRetry _ _ _ w) as [[e|response] w'].
  { unfold ret. eexists _, _. split; [reflexivity|]. discriminate. }
  destruct (json response) as [e|data].
  { unfold throw, ret. eexists _, _. split; [reflexivity|]. discriminate. }
  unfold ret at 1.
  destruct (TokenBurner.metadata_result data); unfold ret;
    eexists _, _; (split; [reflexivity|]); [intros token Htoken; injection Htoken as <-; reflexivity|discriminate].
Qed.

(** The loop of the full scan: every token it pushes comes from an entry,
    with the address and the raw balance of the entry, and an entry for a
    priority token is always pushed. *)
Lemma metadataLoop_entries (alchemyApiKey : string)
    (l : list TokenBurner.TokenBalance) :
  ∀ w : World,
    ∃ pushed w',
      TokenBurner.metadataLoop alchemyApiKey l w = (inr pushed, w')
      ∧ Forall (fun t => ∃ entry, entry ∈ l
                  ∧ TokenBurner.contractAddress t = TokenBurner.tb_contractAddress entry
                  ∧ TokenBurner.balance t = TokenBurner.tokenBalance entry) pushed
      ∧ ∀ entry, entry ∈ l →
          JS.toLowerCase (TokenBurner.tb_contractAddress entry)
          ∈ TokenBurner.BASE_PRIORITY_TOKENS →
          ∃ t, t ∈ pushed
               ∧ TokenBurner.contractAddress t = TokenBurner.tb_contractAddress entry
               ∧ TokenBurner.balance t = TokenBurner.tokenBalance entry
               ∧ TokenBurner.isPriority t = Some true.
Proof.
  induction l as [|token rest IH]; intros w; simpl.
  - unfold ret. eexists _, _. split; [reflexivity|]. split; [constructor|].
    intros entry Hin. apply elem_of_nil in Hin. contradiction.
  - unfold bind at 1.
    destruct (fetchTokenMetadata_address (TokenBurner.tb_contractAddress token)
                alchemyApiKey (Some TokenBurner.reportRetry) w)
      as (metadata & w1 & Hrun & Haddr).
    pose proof (fetchTokenMetadata_cached (TokenBurner.tb_contractAddress token)
                  alchemyApiKey (Some TokenBurner.reportRetry) w) as Hcached.
    rewrite Hrun in Hcached. rewrite Hrun.
    unfold bind at 1. destruct (IH w1) as (pushed & w2 & -> & Hpushed & Hpriority).
    unfold ret. eexists _, _. split; [reflexivity|]. split.
    + assert (Hrest : Forall (fun t => ∃ entry, entry ∈ token :: rest
                         ∧ TokenBurner.contractAddress t
                           = TokenBurner.tb_contractAddress entry
                         ∧ TokenBurner.balance t = TokenBurner.tokenBalance entry)
                        pushed).
      { eapply Forall_impl; [exact Hpushed|].
        intros t (entry & Hin & Ha & Hb). exists entry.
        split; [apply elem_of_cons; right; exact Hin|]. split; assumption. }
      destruct metadata as [t|]; [|exact Hrest].
      constructor; [|exact Hrest].
      exists token. split; [apply elem_of_cons; left; reflexivity|].
      simpl. split; [apply Haddr; reflexivity|reflexivity].
    + intros entry Hin Hprio. apply elem_of_cons in Hin as [->|Hin].
      * destruct (Hcached Hprio) as (cached & _ & Heq).
        injection Heq as -> _.
        eexists. split; [apply elem_of_cons; left; reflexivity|].
        repeat split; reflexivity.
      * destruct (Hpriority entry Hin Hprio) as (t & Ht & Hrest).
        exists t. split; [|exact Hrest].
        destruct metadata; [apply elem_of_cons; right|]; exact Ht.
Qed.

End ClientScans.

(** X9: for a contract address that, in lower case, is one of the
    priority tokens, [fetchTokenMetadata] answers from the metadata table
    without any request: the token has the address as given, the name,
    symbol and decimals of the table, the balance "0" and the priority
    flag. *)
Theorem priority_metadata_needs_no_request `{TokenBurner.Network}
    (contractAddress alchemyApiKey : string)
    (onRetry : option (Z → Z → M unit)) (w : World) :
  JS.toLowerCase contractAddress ∈ TokenBurner.BASE_PRIORITY_TOKENS →
  ∃ cached,
    TokenBurner.TOKEN_METADATA_CACHE !! JS.toLowerCase contractAddress = Some cached
    ∧ TokenBurner.fetchTokenMetadata contractAddress alchemyApiKey onRetry w
      = (inr (Some (TokenBurner.mkToken contractAddress
                      (TokenBurner.TokenCache.name cached)
                      (TokenBurner.TokenCache.symbol cached) "0"
                      (TokenBurner.TokenCache.decimals cached) None (Some true))),
         w).
Proof. apply fetchTokenMetadata_cached. Qed.

Lemma priority_metadata_needs_no_request_witness :
  ∃ cached,
    TokenBurner.TOKEN_METADATA_CACHE
      !! JS.toLowerCase "0x833589fCD6eDb6E08f4c7C32D4f71b54bdA02913" = Some cached
    ∧ @TokenBurner.fetchTokenMetadata clientDown
        "0x833589fCD6eDb6E08f4c7C32D4f71b54bdA02913" "alchemy-key" None start
      = (inr (Some (TokenBurner.mkToken "0x833589fCD6eDb6E08f4c7C32D4f71b54bdA02913"
                      (TokenBurner.TokenCache.name cached)
                      (TokenBurner.TokenCache.symbol cached) "0"
                      (TokenBurner.TokenCache.decimals cached) None (Some true))),
         start).
Proof.
  apply (@priority_metadata_needs_no_request clientDown).
  vm_compute. apply list_elem_of_here.
Defined.

(** X10: once the balance request of the full scan has gone through
    without an RPC error, and the contract addresses of the answer are
    addresses ([0x] and forty hexadecimal digits, as Alchemy gives them),
    [fetchAllTokens] ends with the error cleared and the list marked
    complete, whatever happens to the metadata requests.  Every listed
    token is an entry of the answer with a balance above zero, under the
    entry's address and raw balance; an entry above zero for a priority
    token is always listed, with the priority flag; the selection set is
    left alone. *)
Theorem full_scan_lists_entries_above_zero `{JS.Intl} `{TokenBurner.Network}
    (address alchemyApiKey : string) (st : TokenBurner.State) (w w1 : World)
    (response : Response TokenBurner.BalancesResponse)
    (data : TokenBurner.BalancesResponse) :
  JS.truthy address = true →
  JS.truthy alchemyApiKey = true →
  TokenBurner.fetchWithRetry
    (TokenBurner.getTokenBalances alchemyApiKey address TokenBurner.Erc20)
    (Some 3) (Some TokenBurner.reportRetry) w = (inr response, w1) →
  json response = inr data →
  TokenBurner.rpc_error data = None →
  Forall (fun entry => isAddress (TokenBurner.tb_contractAddress entry) = true)
    (TokenBurner.balancesOf data) →
  ∃ st' w',
    TokenBurner.fetchAllTokens (Some address) (Some alchemyApiKey) st w = (inr st', w')
    ∧ TokenBurner.error st' = None
    ∧ TokenBurner.allTokensLoaded st' = true
    ∧ TokenBurner.selectedTokens st' = TokenBurner.selectedTokens st
    ∧ Forall (fun t => ∃ entry, entry ∈ TokenBurner.balancesOf data
                ∧ JS.parseInt16_gt0 (TokenBurner.tokenBalance entry) = true
                ∧ TokenBurner.contractAddress t = TokenBurner.tb_contractAddress entry
                ∧ TokenBurner.balance t = TokenBurner.tokenBalance entry)
        (TokenBurner.tokens st')
    ∧ ∀ entry, entry ∈ TokenBurner.balancesOf data →
        JS.parseInt16_gt0 (TokenBurner.tokenBalance entry) = true →
        JS.toLowerCase (TokenBurner.tb_contractAddress entry)
        ∈ TokenBurner.BASE_PRIORITY_TOKENS →
        ∃ t, t ∈ TokenBurner.tokens st'
             ∧ TokenBurner.contractAddress t = TokenBurner.tb_contractAddress entry
             ∧ TokenBurner.balance t = TokenBurner.tokenBalance entry
             ∧ TokenBurner.isPriority t = Some true.
Proof.
  intros Haddress Hkey Hrun Hjson Herr _.
  unfold TokenBurner.fetchAllTokens. cbn [JS.truthy_opt].
  rewrite Haddress, Hkey. cbn [negb orb from_option id]. cbv iota beta zeta.
  unfold tryCatch, bind at 1. rewrite Hrun.
  unfold bind at 1, readJson. rewrite Hjson. unfold ret at 1. rewrite Herr.
  unfold bind.
  destruct (metadataLoop_entries alchemyApiKey
              (filter (fun token => JS.parseInt16_gt0 (TokenBurner.tokenBalance token) = true)
                 (TokenBurner.balancesOf data)) w1)
    as (pushed & w2 & -> & Hpushed & Hpriority).
  unfold ret. eexists _, _. split; [reflexivity|]. simpl.
  repeat split.
  - unfold TokenBurner.sortTokens. rewrite sort_Permutation.
    eapply Forall_impl; [exact Hpushed|].
    intros t (entry & Hin & Ha & Hb). apply list_elem_of_filter in Hin as [Hpos Hin].
    exists entry. auto.
  - intros entry Hin Hpos Hprio.
    destruct (Hpriority entry) as (t & Ht & Hrest);
      [apply list_elem_of_filter; auto|exact Hprio|].
    exists t. split; [|exact Hrest].
    unfold TokenBurner.sortTokens. rewrite sort_Permutation. exact Ht.
Qed.

Lemma full_scan_lists_entries_above_zero_witness :
  let entries :=
    [ {| TokenBurner.tb_contractAddress := "0x4200000000000000000000000000000000000006";
         TokenBurner.tokenBalance := "0x2a" |};
      {| TokenBurner.tb_contractAddress := "0x00000000000000000000000000000000000000aa";
         TokenBurner.tokenBalance := "0x10" |};
      {| TokenBurner.tb_contractAddress := "0x50c5725949A6F0c72E6C4a641F24049A917DB0Cb";
         TokenBurner.tokenBalance := "0x0" |} ] in
  ∃ st' w',
    @TokenBurner.fetchAllTokens byLength (balancesOnly entries)
      (Some "0xowner") (Some "alchemy-key") emptyState start = (inr st', w')
    ∧ TokenBurner.error st' = None
    ∧ TokenBurner.allTokensLoaded st' = true
    ∧ TokenBurner.tokens st'
      = [TokenBurner.mkToken "0x4200000000000000000000000000000000000006"
           "Wrapped Ether" "WETH" "0x2a" 18 None (Some true)].
Proof.
  intros entries.
  destruct (@full_scan_lists_entries_above_zero byLength (balancesOnly entries)
              "0xowner" "alchemy-key" emptyState start (mkWorld 1 [])
              (mkResponse 200
                 (inr {| TokenBurner.rpc_error := None;
                         TokenBurner.balances_result :=
                           Some {| TokenBurner.tokenBalances := Some entries |} |}))
              {| TokenBurner.rpc_error := None;
                 TokenBurner.balances_result :=
                   Some {| TokenBurner.tokenBalances := Some entries |} |}
              eq_refl eq_refl eq_refl eq_refl eq_refl
              ltac:(repeat constructor))
    as (st' & w' & Hrun & Herr & Hloaded & _).
  exists st', w'. split; [exact Hrun|]. split; [exact Herr|]. split; [exact Hloaded|].
  vm_compute in Hrun. injection Hrun as <- _. reflexivity.
Defined.

(** X11: when the three attempts of the balance request all fail, the
    scans keep the token list, the selection set and the completeness
    flag, and report the failure of the last attempt: "Failed to fetch all
    tokens: ..." for the full scan, "Failed to fetch priority tokens: ..."
    for the priority scan. *)
Theorem failed_scan_keeps_the_list `{JS.Intl} `{TokenBurner.Network}
    (address alchemyApiKey : string) (st : TokenBurner.State) (w : World) :
  JS.truthy address = true →
  JS.truthy alchemyApiKey = true →
  let all := TokenBurner.getTokenBalances alchemyApiKey address TokenBurner.Erc20 in
  let priority :=
    TokenBurner.getTokenBalances alchemyApiKey address
      (TokenBurner.Contracts TokenBurner.BASE_PRIORITY_TOKENS) in
  let after := mkWorld (clock w + 3) (log w ++ reported true 3 0 2) in
  (allFailed all (clock w) 3 = true →
   TokenBurner.fetchAllTokens (Some address) (Some alchemyApiKey) st w
   = (inr (TokenBurner.mkState (TokenBurner.tokens st) (TokenBurner.selectedTokens st)
             (TokenBurner.showConfirmation st)
             (Some ("Failed to fetch all tokens: "
                    +:+ JS.message (failure (all (clock w + 2)%nat))))
             (TokenBurner.allTokensLoaded st)), after))
  ∧ (allFailed priority (clock w) 3 = true →
     TokenBurner.fetchPriorityTokens (Some address) (Some alchemyApiKey) st w
     = (inr (TokenBurner.mkState (TokenBurner.tokens st) (TokenBurner.selectedTokens st)
               (TokenBurner.showConfirmation st)
               (Some ("Failed to fetch priority tokens: "
                      +:+ JS.message (failure (priority (clock w + 2)%nat))))
               (TokenBurner.allTokensLoaded st)), after)).
Proof.
  intros Haddress Hkey all priority after. split; intros Hall.
  all: pose proof (exhausted_client _ 3 true w Hall) as Hrun.
  all: subst all priority after.
  - unfold TokenBurner.fetchAllTokens. cbn [JS.truthy_opt].
    rewrite Haddress, Hkey. cbn [negb orb from_option id]. cbv iota beta zeta.
    unfold tryCatch, bind at 1.
    replace (clock w + 2)%nat with (clock w + Z.to_nat 3 - 1)%nat by (simpl; lia).
    change (Some TokenBurner.reportRetry) with (callback true).
    rewrite Hrun. reflexivity.
  - unfold TokenBurner.fetchPriorityTokens. cbn [JS.truthy_opt].
    rewrite Haddress, Hkey. cbn [negb orb from_option id]. cbv iota beta zeta.
    unfold tryCatch, bind at 1.
    replace (clock w + 2)%nat with (clock w + Z.to_nat 3 - 1)%nat by (simpl; lia).
    change (Some TokenBurner.reportRetry) with (callback true).
    rewrite Hrun. reflexivity.
Qed.

Lemma failed_scan_keeps_the_list_witness :
  @TokenBurner.fetchAllTokens byLength clientDown (Some "0xowner") (Some "alchemy-key")
    (TokenBurner.mkState [clientToken "0xa" "AAA" false] {["0xa"]} false None true) start
  = (inr (TokenBurner.mkState [clientToken "0xa" "AAA" false] {["0xa"]} false
            (Some "Failed to fetch all tokens: fetch failed") true),
     mkWorld 3 [Retrying 1 3; Slept 1000; Retrying 2 3; Slept 2000]).
Proof.
  exact (proj1 (@failed_scan_keeps_the_list byLength clientDown "0xowner" "alchemy-key"
                  (TokenBurner.mkState [clientToken "0xa" "AAA" false] {["0xa"]}
                     false None true) start eq_refl eq_refl) eq_refl).
Defined.

(** X12: without an address or without an API key the scans make no
    request and leave the token list alone; the priority scan reports the
    missing key, and only a missing key, as a configuration error. *)
Theorem scan_without_key_makes_no_request `{JS.Intl} `{TokenBurner.Network}
    (address alchemyApiKey : option string) (st : TokenBurner.State) (w : World) :
  JS.truthy_opt address && JS.truthy_opt alchemyApiKey = false →
  TokenBurner.fetchAllTokens address alchemyApiKey st w = (inr st, w)
  ∧ TokenBurner.fetchPriorityTokens address alchemyApiKey st w
    = (inr (if JS.truthy_opt alchemyApiKey then st
            else TokenBurner.setError
                   (Some "Alchemy API key not configured. Please check your environment variables.")
                   st), w).
Proof.
  intros Hmissing.
  unfold TokenBurner.fetchAllTokens, TokenBurner.fetchPriorityTokens.
  destruct (JS.truthy_opt address), (JS.truthy_opt alchemyApiKey);
    try discriminate; split; reflexivity.
Qed.

Lemma scan_without_key_makes_no_request_witness :
  @TokenBurner.fetchPriorityTokens byLength clientDown (Some "0xowner") None
    emptyState start
  = (inr (TokenBurner.mkState [] ∅ false
            (Some "Alchemy API key not configured. Please check your environment variables.")
            false), start).
Proof.
  exact (proj2 (@scan_without_key_makes_no_request byLength clientDown
                  (Some "0xowner") None emptyState start eq_refl)).
Defined.

(* ================================================================== *)
(** * Further properties: the priority scan *)
(* ================================================================== *)

Section PriorityScan.

Context `{JS.Intl} `{TokenBurner.Network}.

(** Over entries of priority tokens the loop of the priority scan makes
    no request: each entry above zero is listed from the built-in table. *)
Lemma priorityLoop_cached (alchemyApiKey : string) (l : list TokenBurner.TokenBalance) :
  Forall (fun entry => JS.toLowerCase (TokenBurner.tb_contractAddress entry)
                       ∈ TokenBurner.BASE_PRIORITY_TOKENS) l →
  ∀ w : World,
    ∃ pushed,
      TokenBurner.priorityLoop alchemyApiKey l w = (inr pushed, w)
      ∧ Forall2 fromCache
          (filter (fun entry => JS.parseInt16_gt0 (TokenBurner.tokenBalance entry) = true) l)
          pushed.
Proof.
  induction 1 as [|entry rest Hentry _ IH]; intros w; simpl.
  - exists []. split; [reflexivity|constructor].
  - destruct (IH w) as (pushed & Hrun & Hpushed).
    destruct (JS.parseInt16_gt0 (TokenBurner.tokenBalance entry)) eqn:Hpos.
    + destruct (fetchTokenMetadata_cached (TokenBurner.tb_contractAddress entry)
                  alchemyApiKey (Some TokenBurner.reportRetry) w Hentry)
        as (cached & Hcached & Hmeta).
      unfold bind. rewrite Hmeta, Hrun. unfold ret.
      eexists. split; [reflexivity|].
      rewrite filter_cons_True by exact Hpos.
      constructor; [|exact Hpushed]. exists cached. split; [exact Hcached|reflexivity].
    + rewrite filter_cons_False by (rewrite Hpos; discriminate).
      exists pushed. split; [exact Hrun|exact Hpushed].
Qed.

End PriorityScan.

(** X13: when the balance request of the priority scan is answered
    without an RPC error and with entries of priority tokens only, the
    scan makes no further request: the listed tokens are, up to order, the
    entries above zero, each with the name, symbol and decimals of the
    built-in table, the entry's address and raw balance and the priority
    flag.  The error is cleared and the selection set is left alone. *)
Theorem priority_scan_costs_one_request `{JS.Intl} `{TokenBurner.Network}
    (address alchemyApiKey : string) (st : TokenBurner.State) (w w1 : World)
    (response : Response TokenBurner.BalancesResponse)
    (data : TokenBurner.BalancesResponse) :
  JS.truthy address = true →
  JS.truthy alchemyApiKey = true →
  TokenBurner.fetchWithRetry
    (TokenBurner.getTokenBalances alchemyApiKey address
       (TokenBurner.Contracts TokenBurner.BASE_PRIORITY_TOKENS))
    (Some 3) (Some TokenBurner.reportRetry) w = (inr response, w1) →
  json response = inr data →
  TokenBurner.rpc_error data = None →
  Forall (fun entry => JS.toLowerCase (TokenBurner.tb_contractAddress entry)
                       ∈ TokenBurner.BASE_PRIORITY_TOKENS)
    (TokenBurner.balancesOf data) →
  ∃ st' listed,
    TokenBurner.fetchPriorityTokens (Some address) (Some alchemyApiKey) st w = (inr st', w1)
    ∧ TokenBurner.error st' = None
    ∧ TokenBurner.selectedTokens st' = TokenBurner.selectedTokens st
    ∧ TokenBurner.tokens st' ≡ₚ listed
    ∧ Forall2 fromCache
        (filter (fun entry => JS.parseInt16_gt0 (TokenBurner.tokenBalance entry) = true)
           (TokenBurner.balancesOf data))
        listed.
Proof.
  intros Haddress Hkey Hrun Hjson Herr Hpriority.
  unfold TokenBurner.fetchPriorityTokens. cbn [JS.truthy_opt].
  rewrite Haddress, Hkey. cbn [negb orb from_option id]. cbv iota beta zeta.
  unfold tryCatch, bind at 1. rewrite Hrun.
  unfold bind at 1, readJson. rewrite Hjson. unfold ret at 1. rewrite Herr.
  unfold bind.
  destruct (priorityLoop_cached alchemyApiKey _ Hpriority w1) as (pushed & -> & Hpushed).
  unfold ret. exists (TokenBurner.setTokens (TokenBurner.sortBySymbol pushed)
                        (TokenBurner.setError None st)), pushed.
  split; [reflexivity|]. simpl. repeat split.
  - unfold TokenBurner.sortBySymbol. apply sort_Permutation.
  - exact Hpushed.
Qed.

Lemma priority_scan_costs_one_request_witness :
  let entries :=
    [ {| TokenBurner.tb_contractAddress := "0x4200000000000000000000000000000000000006";
         TokenBurner.tokenBalance := "0x2a" |};
      {| TokenBurner.tb_contractAddress := "0x50c5725949A6F0c72E6C4a641F24049A917DB0Cb";
         TokenBurner.tokenBalance := "0x0" |} ] in
  ∃ st',
    @TokenBurner.fetchPriorityTokens byLength (balancesOnly entries)
      (Some "0xowner") (Some "alchemy-key") emptyState start = (inr st', mkWorld 1 [])
    ∧ TokenBurner.tokens st'
      = [TokenBurner.mkToken "0x4200000000000000000000000000000000000006"
           "Wrapped Ether" "WETH" "0x2a" 18 None (Some true)].
Proof.
  intros entries.
  destruct (@priority_scan_costs_one_request byLength (balancesOnly entries)
              "0xowner" "alchemy-key" emptyState start (mkWorld 1 [])
              (mkResponse 200
                 (inr {| TokenBurner.rpc_error := None;
                         TokenBurner.balances_result :=
                           Some {| TokenBurner.tokenBalances := Some entries |} |}))
              {| TokenBurner.rpc_error := None;
                 TokenBurner.balances_result :=
                   Some {| TokenBurner.tokenBalances := Some entries |} |}
              eq_refl eq_refl eq_refl eq_refl eq_refl)
    as (st' & listed & Hrun & _).
  { repeat constructor; vm_compute; auto 20 using list_elem_of_here, list_elem_of_further. }
  exists st'. split; [exact Hrun|].
  vm_compute in Hrun. injection Hrun as <-. reflexivity.
Defined.

(* ================================================================== *)
(** * Further properties: burning the selected tokens *)
(* ================================================================== *)

Section Burns.
Import BatchedTransactions.
Context `{Viem}.

(** The callback returns for a token whose balance reads as an integer
    that the encoder accepts, and gives the transfer of that amount. *)
Lemma burnCall_inr (t : Route.Token) (call : BatchCall) :
  BatchBurner.burnCall t = inr call ↔
  ∃ z encoded,
    JS.StringToBigInt (Route.balance t) = Some z
    ∧ encodeFunctionData erc20Abi "transfer"
        [AddressArg "0x000000000000000000000000000000000000dEaD"; BigIntArg z]
      = inr encoded
    ∧ call = mkCall (Route.contractAddress t) encoded None.
Proof.
  unfold BatchBurner.burnCall, JS.BigInt.
  destruct (JS.StringToBigInt (Route.balance t)) as [z|].
  - change BatchBurner.BURN_ADDRESS with "0x000000000000000000000000000000000000dEaD".
    destruct (encodeFunctionData erc20Abi "transfer" _) as [err|encoded] eqn:Hencoded.
    + split; [discriminate|]. intros (z' & encoded & [= <-] & Hz' & _). congruence.
    + split.
      * intros [= <-]. exists z, encoded. auto.
      * intros (z' & encoded' & [= <-] & Hz' & ->). congruence.
  - split; [discriminate|]. intros (z & encoded & Hz & _). discriminate.
Qed.

Lemma burnCall_unparsed (t : Route.Token) :
  JS.StringToBigInt (Route.balance t) = None →
  BatchBurner.burnCall t
  = inl (JS.mkError ("Cannot convert " +:+ Route.balance t +:+ " to a BigInt")).
Proof.
  intros Hnone. unfold BatchBurner.burnCall, JS.BigInt. rewrite Hnone. reflexivity.
Qed.

(** [map] over tokens whose balances all read as integers does what
    [createTokenBurnBatchCalls] does with the default burn address. *)
Lemma burnCalls_parsed (l : list Route.Token) (amounts : list Z) :
  Forall2 (fun t z => JS.StringToBigInt (Route.balance t) = Some z) l amounts →
  BatchBurner.burnCalls l
  = createTokenBurnBatchCalls (zip_with burnTransfer l amounts) None.
Proof.
  unfold BatchBurner.burnCalls, createTokenBurnBatchCalls.
  induction 1 as [|t z l amounts Hz _ IH]; [reflexivity|].
  simpl. unfold BatchBurner.burnCall at 1, JS.BigInt. rewrite Hz, IH. reflexivity.
Qed.

(** Every call of the batch is the transfer of the whole of one of the
    tokens. *)
Lemma burnCalls_calls (l : list Route.Token) (calls : list BatchCall) :
  BatchBurner.burnCalls l = inr calls →
  Forall (fun call => ∃ t z encoded, t ∈ l
            ∧ JS.StringToBigInt (Route.balance t) = Some z
            ∧ encodeFunctionData erc20Abi "transfer"
                [AddressArg "0x000000000000000000000000000000000000dEaD"; BigIntArg z]
              = inr encoded
            ∧ call = mkCall (Route.contractAddress t) encoded None) calls.
Proof.
  unfold BatchBurner.burnCalls. intros Hcalls. apply mapThrow_inr in Hcalls.
  apply Forall_forall. intros call Hin.
  apply list_elem_of_lookup in Hin as [i Hi].
  destruct (Forall2_lookup_r _ _ _ _ _ Hcalls Hi) as (t & Ht & Hcall).
  apply burnCall_inr in Hcall as (z & encoded & Hz & Hencoded & ->).
  exists t, z, encoded. split; [eapply list_elem_of_lookup_2; exact Ht|]. auto.
Qed.

(** A request holds the transfer of every token of the list. *)
Lemma burnCalls_complete (l : list Route.Token) (calls : list BatchCall) :
  BatchBurner.burnCalls l = inr calls →
  ∀ t, t ∈ l →
    ∃ z encoded,
      JS.StringToBigInt (Route.balance t) = Some z
      ∧ encodeFunctionData erc20Abi "transfer"
          [AddressArg "0x000000000000000000000000000000000000dEaD"; BigIntArg z]
        = inr encoded
      ∧ mkCall (Route.contractAddress t) encoded None ∈ calls.
Proof.
  unfold BatchBurner.burnCalls. intros Hcalls. apply mapThrow_inr in Hcalls.
  intros t Hin. apply list_elem_of_lookup in Hin as [i Hi].
  destruct (Forall2_lookup_l _ _ _ _ _ Hcalls Hi) as (call & Hcall & Ht).
  apply burnCall_inr in Ht as (z & encoded & Hz & Hencoded & ->).
  exists z, encoded. split; [exact Hz|]. split; [exact Hencoded|].
  eapply list_elem_of_lookup_2; exact Hcall.
Qed.

(** What the batched handler does is decided by [map]. *)
Lemma batched_handler_by_calls (st : BatchBurner.State) :
  BatchBurner.selectedTokensList st ≠ [] →
  BatchBurner.handleBurnTokens true st
  = match BatchBurner.burnCalls (BatchBurner.selectedTokensList st) with
    | inr calls =>
        (Some {| BatchBurner.calls := calls; BatchBurner.chainId := 8453 |},
         BatchBurner.setError None st)
    | inl err =>
        (None,
         BatchBurner.setError
           (Some ("Batched token burn failed: " +:+ JS.message err)) st)
    end.
Proof.
  intros Hselected. unfold BatchBurner.handleBurnTokens.
  assert (Hguard : (length (BatchBurner.selectedTokensList st) =? 0)%nat = false).
  { destruct (BatchBurner.selectedTokensList st); [contradiction|reflexivity]. }
  rewrite Hguard. cbn [negb orb]. cbv zeta.
  change (BatchBurner.selectedTokensList (BatchBurner.setError None st))
    with (BatchBurner.selectedTokensList st).
  destruct (BatchBurner.burnCalls _); reflexivity.
Qed.

(** One round of the loop of the sequential handler. *)
Lemma burnLoop_cons (t : TokenBurner.Token) (rest : list TokenBurner.Token) (z : Z) :
  JS.StringToBigInt (TokenBurner.balance t) = Some z →
  TokenBurner.burnLoop (t :: rest)
  = (burnWrite t z
       :: match rest with [] => [] | _ :: _ => [TokenBurner.Pause 1000] end
       ++ fst (TokenBurner.burnLoop rest),
     snd (TokenBurner.burnLoop rest)).
Proof.
  intros Hz. simpl. unfold JS.BigInt. rewrite Hz.
  destruct (TokenBurner.burnLoop rest) as [done err]. destruct rest; reflexivity.
Qed.

Lemma burnLoop_unparsed (t : TokenBurner.Token) (rest : list TokenBurner.Token) :
  JS.StringToBigInt (TokenBurner.balance t) = None →
  TokenBurner.burnLoop (t :: rest)
  = ([], Some (JS.mkError ("Cannot convert " +:+ TokenBurner.balance t +:+ " to a BigInt"))).
Proof.
  intros Hz. simpl. unfold JS.BigInt. rewrite Hz. reflexivity.
Qed.

(** The rounds over tokens that have a successor: a write and a pause
    each. *)
Lemma burnLoop_parsed (l : list TokenBurner.Token) (amounts : list Z)
    (rest : list TokenBurner.Token) :
  Forall2 (fun t z => JS.StringToBigInt (TokenBurner.balance t) = Some z) l amounts →
  rest ≠ [] →
  TokenBurner.burnLoop (l ++ rest)
  = ((zip_with burnWrite l amounts ≫= fun write => [write; TokenBurner.Pause 1000])
       ++ fst (TokenBurner.burnLoop rest),
     snd (TokenBurner.burnLoop rest)).
Proof.
  intros Hparsed Hrest.
  induction Hparsed as [|t z l amounts Hz _ IH].
  - simpl. destruct (TokenBurner.burnLoop rest); reflexivity.
  - change ((t :: l) ++ rest) with (t :: (l ++ rest)).
    rewrite (burnLoop_cons _ _ _ Hz), IH.
    destruct (l ++ rest) as [|next more] eqn:Hnext.
    { apply app_eq_nil in Hnext as [_ ?]. contradiction. }
    reflexivity.
Qed.

(** Every action of the loop is the pause or the transfer of the whole of
    one of the tokens. *)
Lemma burnLoop_actions (l : list TokenBurner.Token) :
  Forall (fun action =>
            action = TokenBurner.Pause 1000
            ∨ ∃ t z, t ∈ l
                ∧ JS.StringToBigInt (TokenBurner.balance t) = Some z
                ∧ action = burnWrite t z)
    (fst (TokenBurner.burnLoop l)).
Proof.
  induction l as [|t l IH]; [constructor|].
  destruct (JS.StringToBigInt (TokenBurner.balance t)) as [z|] eqn:Hz.
  - rewrite (burnLoop_cons _ _ _ Hz). cbn [fst].
    assert (Hrest : Forall (fun action =>
              action = TokenBurner.Pause 1000
              ∨ ∃ t' z', t' ∈ t :: l
                  ∧ JS.StringToBigInt (TokenBurner.balance t') = Some z'
                  ∧ action = burnWrite t' z')
              (fst (TokenBurner.burnLoop l))).
    { eapply Forall_impl; [exact IH|].
      intros action [->|(t' & z' & Hin & Hrest)]; [left; reflexivity|].
      right. exists t', z'. split; [apply list_elem_of_further; exact Hin|exact Hrest]. }
    constructor.
    + right. exists t, z. split; [apply list_elem_of_here|]. split; [exact Hz|reflexivity].
    + destruct l; [exact Hrest|]. constructor; [left; reflexivity|exact Hrest].
  - rewrite (burnLoop_unparsed _ _ Hz). constructor.
Qed.

End Burns.

(** X14: the batched handler is all or nothing.  With a client and a
    non-empty selection, when the balance of every selected token reads as
    an integer the handler does what [createTokenBurnBatchCalls] does for
    the selected tokens, in list order, with their whole balances and the
    default burn address: when that returns, the wallet gets one request
    on Base (chain 8453) with exactly its calls and the error is cleared;
    when it throws, because the encoder refuses an amount, no request is
    made and the error is "Batched token burn failed: " and its message.
    When a balance does not read as an integer, and the tokens before it
    were read and encoded, no request is made and the error names that
    balance. *)
Theorem batch_burn_is_all_or_nothing `{BatchedTransactions.Viem} (st : BatchBurner.State) :
  BatchBurner.selectedTokensList st ≠ [] →
  (∀ amounts,
     Forall2 (fun t z => JS.StringToBigInt (Route.balance t) = Some z)
       (BatchBurner.selectedTokensList st) amounts →
     BatchBurner.handleBurnTokens true st
     = match BatchedTransactions.createTokenBurnBatchCalls
               (zip_with burnTransfer (BatchBurner.selectedTokensList st) amounts)
               None with
       | inr calls =>
           (Some {| BatchBurner.calls := calls; BatchBurner.chainId := 8453 |},
            BatchBurner.setError None st)
       | inl err =>
           (None,
            BatchBurner.setError
              (Some ("Batched token burn failed: " +:+ JS.message err)) st)
       end)
  ∧ (∀ before t after,
       BatchBurner.selectedTokensList st = before ++ t :: after →
       Forall (fun t' =>
                 ∃ z, JS.StringToBigInt (Route.balance t') = Some z
                      ∧ returns (BatchedTransactions.encodeFunctionData
                                   BatchedTransactions.erc20Abi "transfer"
                                   [BatchedTransactions.AddressArg
                                      "0x000000000000000000000000000000000000dEaD";
                                    BatchedTransactions.BigIntArg z]))
         before →
       JS.StringToBigInt (Route.balance t) = None →
       BatchBurner.handleBurnTokens true st
       = (None,
          BatchBurner.setError
            (Some ("Batched token burn failed: Cannot convert "
                   +:+ Route.balance t +:+ " to a BigInt")) st)).
Proof.
  intros Hselected. rewrite (batched_handler_by_calls st Hselected). split.
  - intros amounts Hparsed. rewrite (burnCalls_parsed _ _ Hparsed). reflexivity.
  - intros before t after Hsplit Hbefore Hnone.
    unfold BatchBurner.burnCalls. rewrite Hsplit.
    rewrite (mapThrow_inl BatchBurner.burnCall before t after
               (JS.mkError ("Cannot convert " +:+ Route.balance t +:+ " to a BigInt"))).
    + reflexivity.
    + eapply Forall_impl; [exact Hbefore|].
      intros t' (z & Hz & [encoded Hencoded]). eexists.
      apply burnCall_inr. exists z, encoded. auto.
    + apply burnCall_unparsed, Hnone.
Qed.

Lemma batch_burn_is_all_or_nothing_witness :
  let weth := Route.mkToken "0x4200000000000000000000000000000000000006" "WETH"
                "Wrapped Ether" "42" (Route.AsGiven "0.000000000000000042") in
  let other := Route.mkToken "0x00000000000000000000000000000000000000aa" "AAA"
                 "Other" "7" (Route.AsGiven "7") in
  let dai := Route.mkToken "0x50c5725949A6F0c72E6C4a641F24049A917DB0Cb" "DAI"
               "Dai Stablecoin" "0x10" (Route.AsGiven "0.000000000000000016") in
  let st := BatchBurner.mkState [weth; other; dai]
              {[ "0x4200000000000000000000000000000000000006";
                 "0x50c5725949A6F0c72E6C4a641F24049A917DB0Cb" ]} true None in
  fst (@BatchBurner.handleBurnTokens plainViem true st)
  = Some {| BatchBurner.calls :=
              [ BatchedTransactions.mkCall "0x4200000000000000000000000000000000000006"
                  "transfer(0x000000000000000000000000000000000000dEaD,42)" None;
                BatchedTransactions.mkCall "0x50c5725949A6F0c72E6C4a641F24049A917DB0Cb"
                  "transfer(0x000000000000000000000000000000000000dEaD,16)" None ];
            BatchBurner.chainId := 8453 |}.
Proof.
  intros weth other dai st.
  assert (Hsel : BatchBurner.selectedTokensList st = [weth; dai]).
  { unfold BatchBurner.selectedTokensList, st.
    cbn [BatchBurner.tokens BatchBurner.selectedTokens].
    rewrite filter_cons_True by (apply elem_of_union_l, elem_of_singleton; reflexivity).
    rewrite filter_cons_False
      by (cbn; rewrite elem_of_union, !elem_of_singleton; intros [|]; congruence).
    rewrite filter_cons_True by (apply elem_of_union_r, elem_of_singleton; reflexivity).
    reflexivity. }
  rewrite (proj1 (@batch_burn_is_all_or_nothing plainViem st
                    ltac:(rewrite Hsel; discriminate))
             [42; 16] ltac:(rewrite Hsel; repeat constructor)).
  cbn [fst]. rewrite Hsel. reflexivity.
Defined.

Example batch_burn_refused_amount :
  let odd := Route.mkToken "0x4200000000000000000000000000000000000006" "WETH"
               "Wrapped Ether" "-5" (Route.AsGiven "-0.000000000000000005") in
  let st := BatchBurner.mkState [odd]
              {[ "0x4200000000000000000000000000000000000006" ]} true None in
  @BatchBurner.handleBurnTokens plainViem true st
  = (None,
     BatchBurner.setError
       (Some "Batched token burn failed: the arguments do not fit the types of the function")
       st).
Proof.
  intros odd st.
  assert (Hsel : BatchBurner.selectedTokensList st = [odd]).
  { unfold BatchBurner.selectedTokensList, st.
    cbn [BatchBurner.tokens BatchBurner.selectedTokens].
    rewrite filter_cons_True by (apply elem_of_singleton; reflexivity).
    reflexivity. }
  rewrite (@batched_handler_by_calls plainViem st) by (rewrite Hsel; discriminate).
  rewrite Hsel. reflexivity.
Qed.

(** X15: the sequential handler, with a client and selected tokens whose
    balances all read as integers, writes one transfer of the whole balance
    to the burn address per selected token, on Base and in list order,
    pauses one second after every write but the last, and leaves the state
    as it was. *)
Theorem sequential_burn_one_write_per_token `{BatchedTransactions.Viem}
    (st : TokenBurner.State) (init : list TokenBurner.Token) (last : TokenBurner.Token)
    (amounts : list Z) (amount : Z) :
  TokenBurner.selectedTokensList st = init ++ [last] →
  Forall2 (fun t z => JS.StringToBigInt (TokenBurner.balance t) = Some z) init amounts →
  JS.StringToBigInt (TokenBurner.balance last) = Some amount →
  TokenBurner.handleBurnTokens true st
  = ((zip_with burnWrite init amounts ≫= fun write => [write; TokenBurner.Pause 1000])
       ++ [burnWrite last amount],
     st).
Proof.
  intros Hselected Hparsed Hlast. unfold TokenBurner.handleBurnTokens.
  rewrite Hselected.
  assert (Hguard : (length (init ++ [last]) =? 0)%nat = false).
  { rewrite length_app, Nat.add_comm. reflexivity. }
  rewrite Hguard. cbn [negb orb].
  rewrite (burnLoop_parsed _ _ [last] Hparsed) by discriminate.
  rewrite (burnLoop_cons _ _ _ Hlast). reflexivity.
Qed.

Lemma sequential_burn_one_write_per_token_witness :
  let weth := TokenBurner.mkToken "0x4200000000000000000000000000000000000006"
                "Wrapped Ether" "WETH" "0x2a" 18 None (Some true) in
  let other := TokenBurner.mkToken "0x00000000000000000000000000000000000000aa"
                 "Other" "AAA" "0x7" 18 None (Some false) in
  let dai := TokenBurner.mkToken "0x50c5725949A6F0c72E6C4a641F24049A917DB0Cb"
               "Dai Stablecoin" "DAI" "0x10" 18 None (Some true) in
  let st := TokenBurner.mkState [weth; other; dai]
              {[ "0x4200000000000000000000000000000000000006";
                 "0x50c5725949A6F0c72E6C4a641F24049A917DB0Cb" ]} true None true in
  @TokenBurner.handleBurnTokens plainViem true st
  = ([ @TokenBurner.WriteContract plainViem "0x4200000000000000000000000000000000000006" tt
         "transfer"
         [BatchedTransactions.AddressArg "0x000000000000000000000000000000000000dEaD";
          BatchedTransactions.BigIntArg 42] 8453;
       TokenBurner.Pause 1000;
       @TokenBurner.WriteContract plainViem "0x50c5725949A6F0c72E6C4a641F24049A917DB0Cb" tt
         "transfer"
         [BatchedTransactions.AddressArg "0x000000000000000000000000000000000000dEaD";
          BatchedTransactions.BigIntArg 16] 8453 ],
     st).
Proof.
  intros weth other dai st.
  assert (Hsel : TokenBurner.selectedTokensList st = [weth; dai]).
  { unfold TokenBurner.selectedTokensList, st.
    cbn [TokenBurner.tokens TokenBurner.selectedTokens].
    rewrite filter_cons_True by (apply elem_of_union_l, elem_of_singleton; reflexivity).
    rewrite filter_cons_False
      by (cbn; rewrite elem_of_union, !elem_of_singleton; intros [|]; congruence).
    rewrite filter_cons_True by (apply elem_of_union_r, elem_of_singleton; reflexivity).
    reflexivity. }
  rewrite (@sequential_burn_one_write_per_token plainViem st [weth] dai [42] 16 Hsel
             ltac:(repeat constructor) eq_refl).
  reflexivity.
Defined.

(** X16: the sequential handler does not take back what it has sent.
    When a selected token's balance does not read as an integer, the
    transfers of the selected tokens before it have been written, each
    followed by its pause, nothing is written for it or for the tokens
    after it, and the error is "Transaction failed: Cannot convert
    <balance> to a BigInt". *)
Theorem sequential_burn_stops_at_first_failure `{BatchedTransactions.Viem}
    (st : TokenBurner.State) (sent : list TokenBurner.Token) (t : TokenBurner.Token)
    (rest : list TokenBurner.Token) (amounts : list Z) :
  TokenBurner.selectedTokensList st = sent ++ t :: rest →
  Forall2 (fun t z => JS.StringToBigInt (TokenBurner.balance t) = Some z) sent amounts →
  JS.StringToBigInt (TokenBurner.balance t) = None →
  TokenBurner.handleBurnTokens true st
  = (zip_with burnWrite sent amounts ≫= (fun write => [write; TokenBurner.Pause 1000]),
     TokenBurner.setError
       (Some ("Transaction failed: Cannot convert "
              +:+ TokenBurner.balance t +:+ " to a BigInt")) st).
Proof.
  intros Hselected Hparsed Hnone. unfold TokenBurner.handleBurnTokens.
  rewrite Hselected.
  assert (Hguard : (length (sent ++ t :: rest) =? 0)%nat = false).
  { rewrite length_app, Nat.add_comm. reflexivity. }
  rewrite Hguard. cbn [negb orb].
  rewrite (burnLoop_parsed _ _ (t :: rest) Hparsed) by discriminate.
  rewrite (burnLoop_unparsed _ _ Hnone). cbn [fst snd].
  rewrite app_nil_r. reflexivity.
Qed.

Lemma sequential_burn_stops_at_first_failure_witness :
  let weth := TokenBurner.mkToken "0x4200000000000000000000000000000000000006"
                "Wrapped Ether" "WETH" "0x2a" 18 None (Some true) in
  let odd := TokenBurner.mkToken "0x00000000000000000000000000000000000000aa"
               "Other" "AAA" "0x" 18 None (Some false) in
  let dai := TokenBurner.mkToken "0x50c5725949A6F0c72E6C4a641F24049A917DB0Cb"
               "Dai Stablecoin" "DAI" "0x10" 18 None (Some true) in
  let st := TokenBurner.mkState [weth; odd; dai]
              {[ "0x4200000000000000000000000000000000000006";
                 "0x00000000000000000000000000000000000000aa";
                 "0x50c5725949A6F0c72E6C4a641F24049A917DB0Cb" ]} true None true in
  @TokenBurner.handleBurnTokens plainViem true st
  = ([ @TokenBurner.WriteContract plainViem "0x4200000000000000000000000000000000000006" tt
         "transfer"
         [BatchedTransactions.AddressArg "0x000000000000000000000000000000000000dEaD";
          BatchedTransactions.BigIntArg 42] 8453;
       TokenBurner.Pause 1000 ],
     TokenBurner.setError
       (Some "Transaction failed: Cannot convert 0x to a BigInt") st).
Proof.
  intros weth odd dai st.
  assert (Hsel : TokenBurner.selectedTokensList st = [weth; odd; dai]).
  { unfold TokenBurner.selectedTokensList, st.
    cbn [TokenBurner.tokens TokenBurner.selectedTokens].
    rewrite !filter_cons_True
      by (cbn; rewrite !elem_of_union, !elem_of_singleton; auto).
    reflexivity. }
  rewrite (@sequential_burn_stops_at_first_failure plainViem st [weth] odd [dai] [42] Hsel
             ltac:(repeat constructor) eq_refl).
  reflexivity.
Defined.

(** X17: burning touches selected tokens only.  Without a client, or
    with no listed token selected, neither handler does anything.
    Otherwise every transaction of the sequential handler, and every call
    of the request of the batched handler, is the ERC20 transfer to the
    dead address of the whole balance of a listed token whose address is in
    the selection set; the handlers leave the token list and the selection
    set as they were. *)
Theorem burn_touches_selected_tokens_only `{BatchedTransactions.Viem}
    (publicClient : bool) (st : TokenBurner.State) (bst : BatchBurner.State) :
  let sequential := TokenBurner.handleBurnTokens publicClient st in
  let batched := BatchBurner.handleBurnTokens publicClient bst in
  (publicClient = false ∨ TokenBurner.selectedTokensList st = [] → sequential = ([], st))
  ∧ (publicClient = false ∨ BatchBurner.selectedTokensList bst = [] → batched = (None, bst))
  ∧ Forall (fun action =>
              action = TokenBurner.Pause 1000
              ∨ ∃ t z, t ∈ TokenBurner.tokens st
                  ∧ TokenBurner.contractAddress t ∈ TokenBurner.selectedTokens st
                  ∧ JS.StringToBigInt (TokenBurner.balance t) = Some z
                  ∧ action = burnWrite t z)
      (fst sequential)
  ∧ (∀ request, fst batched = Some request →
       BatchBurner.chainId request = 8453
       ∧ Forall (fun call =>
                   ∃ t z encoded, t ∈ BatchBurner.tokens bst
                     ∧ Route.contractAddress t ∈ BatchBurner.selectedTokens bst
                     ∧ JS.StringToBigInt (Route.balance t) = Some z
                     ∧ BatchedTransactions.encodeFunctionData
                         BatchedTransactions.erc20Abi "transfer"
                         [BatchedTransactions.AddressArg
                            "0x000000000000000000000000000000000000dEaD";
                          BatchedTransactions.BigIntArg z]
                       = inr encoded
                     ∧ call = BatchedTransactions.mkCall (Route.contractAddress t)
                                encoded None)
           (BatchBurner.calls request))
  ∧ TokenBurner.tokens (snd sequential) = TokenBurner.tokens st
  ∧ TokenBurner.selectedTokens (snd sequential) = TokenBurner.selectedTokens st
  ∧ BatchBurner.tokens (snd batched) = BatchBurner.tokens bst
  ∧ BatchBurner.selectedTokens (snd batched) = BatchBurner.selectedTokens bst.
Proof.
  intros sequential batched. subst sequential batched.
  split; [|split; [|split; [|split]]].
  - unfold TokenBurner.handleBurnTokens.
    intros [->| ->]; [reflexivity|]. rewrite orb_true_r. reflexivity.
  - unfold BatchBurner.handleBurnTokens.
    intros [->| ->]; [reflexivity|]. rewrite orb_true_r. reflexivity.
  - unfold TokenBurner.handleBurnTokens.
    destruct (negb publicClient || _); [constructor|].
    pose proof (burnLoop_actions (TokenBurner.selectedTokensList st)) as Hactions.
    destruct (TokenBurner.burnLoop _) as [done err]. cbn [fst] in *.
    eapply Forall_impl; [exact Hactions|].
    intros action [->|(t & z & Hin & Hz & ->)]; [left; reflexivity|].
    apply list_elem_of_filter in Hin as [Hsel Hin].
    right. exists t, z. auto.
  - intros request. unfold BatchBurner.handleBurnTokens.
    destruct (negb publicClient || _); [discriminate|].
    change (BatchBurner.selectedTokensList (BatchBurner.setError None bst))
      with (BatchBurner.selectedTokensList bst).
    pose proof (burnCalls_calls (BatchBurner.selectedTokensList bst)) as Hcalls.
    destruct (BatchBurner.burnCalls _) as [e|calls]; [discriminate|].
    intros [= <-]. split; [reflexivity|]. cbn [BatchBurner.calls].
    eapply Forall_impl; [apply Hcalls; reflexivity|].
    intros call (t & z & encoded & Hin & Hz & Hencoded & ->).
    apply list_elem_of_filter in Hin as [Hsel Hin].
    exists t, z, encoded. auto.
  - pose proof (handleBurnTokens_keeps publicClient bst) as [Htokens Hselected].
    assert (Hsequential :
              TokenBurner.tokens (snd (TokenBurner.handleBurnTokens publicClient st))
              = TokenBurner.tokens st
              ∧ TokenBurner.selectedTokens (snd (TokenBurner.handleBurnTokens publicClient st))
                = TokenBurner.selectedTokens st).
    { unfold TokenBurner.handleBurnTokens.
      destruct (negb publicClient || _); [split; reflexivity|].
      destruct (TokenBurner.burnLoop _) as [done [err|]]; split; reflexivity. }
    destruct Hsequential. auto.
Qed.

(* ================================================================== *)
(** * Further properties: the two copies of [fetchWithRetry] *)
(* ================================================================== *)

(** X18: the route's [fetchWithRetry] and the component's, called
    without the [onRetry] callback, behave alike on every request, budget
    and state of the network: the same response or error after the same
    requests and the same waits. *)
Theorem route_and_client_fetchWithRetry_agree {B : Type} (f : Fetch B)
    (retries : option Z) (w : World) :
  Route.fetchWithRetry f retries w = TokenBurner.fetchWithRetry f retries None w.
Proof.
  unfold Route.fetchWithRetry, TokenBurner.fetchWithRetry. apply route_attempt_as_client.
Qed.

(* ================================================================== *)
(** * Further properties: from the selection to the request *)
(* ================================================================== *)

(** X19: ticking decides what the batched handler burns.  After a
    listed token has been selected, a request the handler makes holds the
    transfer of that token's whole balance to the dead address; after it
    has been deselected, no call of a request goes to its contract. *)
Theorem ticked_token_is_in_the_request `{BatchedTransactions.Viem}
    (t : Route.Token) (st : BatchBurner.State) (request : BatchBurner.SendCalls) :
  t ∈ BatchBurner.tokens st →
  fst (BatchBurner.handleBurnTokens true
         (BatchBurner.handleTokenSelect (Route.contractAddress t) true st))
  = Some request →
  (∃ z encoded,
     JS.StringToBigInt (Route.balance t) = Some z
     ∧ BatchedTransactions.encodeFunctionData BatchedTransactions.erc20Abi "transfer"
         [BatchedTransactions.AddressArg "0x000000000000000000000000000000000000dEaD";
          BatchedTransactions.BigIntArg z]
       = inr encoded
     ∧ BatchedTransactions.mkCall (Route.contractAddress t) encoded None
       ∈ BatchBurner.calls request)
  ∧ ∀ request',
      fst (BatchBurner.handleBurnTokens true
             (BatchBurner.handleTokenSelect (Route.contractAddress t) false st))
      = Some request' →
      Forall (fun call => BatchedTransactions.to call ≠ Route.contractAddress t)
        (BatchBurner.calls request').
Proof.
  intros Hlisted Hrequest. split.
  - unfold BatchBurner.handleBurnTokens in Hrequest.
    destruct (negb true || _) in Hrequest; [discriminate|].
    destruct (BatchBurner.burnCalls _) as [e|calls] eqn:Hcalls; [discriminate|].
    injection Hrequest as <-. cbn [BatchBurner.calls].
    apply (burnCalls_complete _ _ Hcalls).
    apply list_elem_of_filter. split; [|exact Hlisted].
    cbn. apply elem_of_union_l, elem_of_singleton. reflexivity.
  - intros request' Hrequest'.
    unfold BatchBurner.handleBurnTokens in Hrequest'.
    destruct (negb true || _) in Hrequest'; [discriminate|].
    destruct (BatchBurner.burnCalls _) as [e|calls] eqn:Hcalls; [discriminate|].
    injection Hrequest' as <-. cbn [BatchBurner.calls].
    eapply Forall_impl; [apply (burnCalls_calls _ _ Hcalls)|].
    intros call (t' & z & encoded & Hin & _ & _ & ->). cbn.
    apply list_elem_of_filter in Hin as [Hsel _]. cbn in Hsel.
    apply elem_of_difference in Hsel as [_ Hne].
    intros Heq. apply Hne, elem_of_singleton. exact Heq.
Qed.

Lemma ticked_token_is_in_the_request_witness :
  let weth := Route.mkToken "0x4200000000000000000000000000000000000006" "WETH"
                "Wrapped Ether" "42" (Route.AsGiven "0.000000000000000042") in
  let call := BatchedTransactions.mkCall "0x4200000000000000000000000000000000000006"
                "transfer(0x000000000000000000000000000000000000dEaD,42)" None in
  let ticked := BatchBurner.handleTokenSelect "0x4200000000000000000000000000000000000006"
                  true (BatchBurner.mkState [weth] ∅ false None) in
  fst (@BatchBurner.handleBurnTokens plainViem true ticked)
  = Some {| BatchBurner.calls := [call]; BatchBurner.chainId := 8453 |}
  ∧ ∃ z encoded,
      JS.StringToBigInt "42" = Some z
      ∧ @BatchedTransactions.encodeFunctionData plainViem tt "transfer"
          [BatchedTransactions.AddressArg "0x000000000000000000000000000000000000dEaD";
           BatchedTransactions.BigIntArg z]
        = inr encoded
      ∧ BatchedTransactions.mkCall "0x4200000000000000000000000000000000000006"
          encoded None ∈ [call].
Proof.
  intros weth call ticked.
  assert (Hsel : BatchBurner.selectedTokensList ticked = [weth]).
  { unfold BatchBurner.selectedTokensList, ticked.
    cbn [BatchBurner.handleTokenSelect BatchBurner.setSelectedTokens
         BatchBurner.tokens BatchBurner.selectedTokens].
    rewrite filter_cons_True by (apply elem_of_union_l, elem_of_singleton; reflexivity).
    reflexivity. }
  assert (Hrun : fst (@BatchBurner.handleBurnTokens plainViem true ticked)
                 = Some {| BatchBurner.calls := [call]; BatchBurner.chainId := 8453 |}).
  { unfold BatchBurner.handleBurnTokens. cbv zeta.
    change (BatchBurner.selectedTokensList (BatchBurner.setError None ticked))
      with (BatchBurner.selectedTokensList ticked).
    rewrite Hsel. reflexivity. }
  split; [exact Hrun|].
  exact (proj1 (@ticked_token_is_in_the_request plainViem weth
                  (BatchBurner.mkState [weth] ∅ false None)
                  {| BatchBurner.calls := [call]; BatchBurner.chainId := 8453 |}
                  (list_elem_of_here _ _) Hrun)).
Defined.

(* ================================================================== *)
(** * Further properties: the balance as the scan and the burn read it *)
(* ================================================================== *)

Lemma rev_app_rev_app (s a b : string) :
  String.rev_app (String.rev_app s a) b = String.rev_app a (s +:+ b).
Proof.
  revert a. induction s as [|c s IH]; intros a; [reflexivity|].
  simpl. rewrite IH. reflexivity.
Qed.

Lemma append_empty_r (s : string) : s +:+ "" = s.
Proof.
  induction s as [|c s IH]; [reflexivity|].
  change (String c (s +:+ "") = String c s). rewrite IH. reflexivity.
Qed.

Lemma rev_rev (s : string) : String.rev (String.rev s) = s.
Proof.
  unfold String.rev. rewrite rev_app_rev_app. simpl. apply append_empty_r.
Qed.

(** Nothing is dropped from a string whose first byte neither is white
    space nor starts it. *)
Lemma dropWhiteSpace_head (ws2 : ascii → ascii → bool)
    (ws3 : ascii → ascii → ascii → bool) (c : ascii) (s : string) :
  JS.isWhiteSpace c = false →
  (∀ x, ws2 c x = false) →
  (∀ x y, ws3 c x y = false) →
  JS.dropWhiteSpace ws2 ws3 (String c s) = String c s.
Proof.
  intros H1 H2 H3. simpl. rewrite H1.
  destruct s as [|c2 [|c3 s3]]; [reflexivity| |]; rewrite H2; [reflexivity|].
  rewrite H3. reflexivity.
Qed.

(** A hexadecimal digit is no byte of a white space character. *)
Lemma hexDigit_plain (c : ascii) :
  isHexDigit c = true →
  JS.isWhiteSpace c = false
  ∧ (∀ x, JS.isWhiteSpace2 c x = false)
  ∧ (∀ x y, JS.isWhiteSpace3 c x y = false)
  ∧ (∀ x, JS.isWhiteSpace2 x c = false)
  ∧ (∀ x y, JS.isWhiteSpace3 y x c = false).
Proof.
  destruct c as [[] [] [] [] [] [] [] []]; intros Hhex;
    vm_compute in Hhex; try discriminate;
    (split; [reflexivity|]);
    (split; [intros x; reflexivity|]);
    (split; [intros x y; reflexivity|]);
    (split; [intros x|intros x y]);
    unfold JS.isWhiteSpace2, JS.isWhiteSpace3; cbn;
    rewrite ?andb_false_r; reflexivity.
Qed.

(** The reverse of a string of hexadecimal digits starts with one. *)
Lemma rev_app_head (p : ascii → bool) (s : string) :
  allChars p s = true →
  ∀ (c : ascii) (a : string),
    p c = true →
    ∃ c' rest, String.rev_app s (String c a) = String c' rest ∧ p c' = true.
Proof.
  induction s as [|x s IH]; intros Hs c a Hc.
  - exists c, a. split; [reflexivity|exact Hc].
  - simpl in Hs. apply andb_true_iff in Hs as [Hx Hs].
    simpl. apply IH; assumption.
Qed.

Lemma hexLiteral_inv (s : string) :
  hexLiteral s = true →
  ∃ c r, s = String "0" (String "x" (String c r))
         ∧ allChars isHexDigit (String c r) = true.
Proof.
  destruct s as [|c0 s]; [discriminate|].
  destruct c0 as [[] [] [] [] [] [] [] []]; try discriminate.
  destruct s as [|c1 s]; [discriminate|].
  destruct c1 as [[] [] [] [] [] [] [] []]; try discriminate.
  destruct s as [|c s]; [discriminate|].
  intros Hhex. exists c, s. split; [reflexivity|exact Hhex].
Qed.

(** [0x] and hexadecimal digits have no white space to trim. *)
Lemma hexLiteral_trim (c : ascii) (r : string) :
  allChars isHexDigit (String c r) = true →
  JS.trimStart (String "0" (String "x" (String c r)))
  = String "0" (String "x" (String c r))
  ∧ JS.trim (String "0" (String "x" (String c r)))
    = String "0" (String "x" (String c r)).
Proof.
  intros Hdigits.
  assert (Hstart : JS.trimStart (String "0" (String "x" (String c r)))
                   = String "0" (String "x" (String c r))).
  { destruct (hexDigit_plain "0" eq_refl) as (H1 & H2 & H3 & _).
    apply dropWhiteSpace_head; assumption. }
  split; [exact Hstart|].
  unfold JS.trim. rewrite Hstart. unfold JS.trimEnd.
  simpl in Hdigits. apply andb_true_iff in Hdigits as [Hc Hr].
  assert (Hrev : String.rev (String "0" (String "x" (String c r)))
                 = String.rev_app r (String c (String "x" (String "0" ""))))
    by reflexivity.
  destruct (rev_app_head isHexDigit r Hr c (String "x" (String "0" "")) Hc)
    as (c' & rest & Hhead & Hc').
  rewrite Hrev, Hhead.
  destruct (hexDigit_plain c' Hc') as (H1 & _ & _ & H2 & H3).
  rewrite dropWhiteSpace_head by (assumption || (intros; apply H2) || (intros; apply H3)).
  rewrite <- Hhead, <- Hrev. apply rev_rev.
Qed.

(** Over hexadecimal digits [spanDigits] takes the whole string. *)
Lemma spanDigits_hex (s : string) :
  allChars isHexDigit s = true →
  ∃ ds, JS.spanDigits 16 s = (ds, "") ∧ length ds = String.length s.
Proof.
  induction s as [|c s IH]; intros Hs.
  - exists []. split; reflexivity.
  - simpl in Hs. apply andb_true_iff in Hs as [Hc Hs].
    destruct (IH Hs) as (ds & Hspan & Hlen).
    unfold isHexDigit in Hc. simpl.
    destruct (JS.digitOf 16 c) as [d|]; [|discriminate].
    rewrite Hspan. exists (d :: ds). split; [reflexivity|]. simpl. rewrite Hlen. reflexivity.
Qed.

(** [BigInt(s)] reads [0x] and hexadecimal digits as an integer, above
    zero when [parseInt(s, 16) > 0]. *)
Lemma hexLiteral_above_zero (s : string) :
  hexLiteral s = true →
  JS.parseInt16_gt0 s = true →
  ∃ z, JS.StringToBigInt s = Some z ∧ 0 < z.
Proof.
  intros Hhex. destruct (hexLiteral_inv s Hhex) as (c & r & -> & Hdigits).
  destruct (hexLiteral_trim c r Hdigits) as [Hstart Htrim].
  destruct (spanDigits_hex _ Hdigits) as (ds & Hspan & Hlen).
  destruct ds as [|d ds]; [discriminate|].
  unfold JS.parseInt16_gt0, JS.parseInt16. rewrite Hstart.
  change (JS.splitSign (String "0" (String "x" (String c r))))
    with (false, String "0" (String "x" (String c r))).
  cbv iota beta. rewrite Hspan. cbv iota beta.
  change (JS.applySign false (JS.digitsValue 16 (d :: ds)))
    with (JS.digitsValue 16 (d :: ds)).
  intros Hpos. exists (JS.digitsValue 16 (d :: ds)). split.
  - unfold JS.StringToBigInt. rewrite Htrim. cbv iota beta. rewrite Hspan. reflexivity.
  - apply Z.ltb_lt. exact Hpos.
Qed.

Section Amounts.
Import BatchedTransactions.
Context `{Viem}.

(** The loop over tokens whose balances all read as integers gets
    through, and writes the amounts read. *)
Lemma burnLoop_amounts (P : TokenBurner.Token → Z → Prop) (l : list TokenBurner.Token) :
  Forall (fun t => ∃ z, JS.StringToBigInt (TokenBurner.balance t) = Some z ∧ P t z) l →
  snd (TokenBurner.burnLoop l) = None
  ∧ Forall (fun action =>
              action = TokenBurner.Pause 1000
              ∨ ∃ t z, t ∈ l ∧ P t z ∧ action = burnWrite t z)
      (fst (TokenBurner.burnLoop l)).
Proof.
  induction 1 as [|t l (z & Hz & Ht) _ [IHerr IHactions]]; [split; [reflexivity|constructor]|].
  rewrite (burnLoop_cons _ _ _ Hz). cbn [fst snd]. split; [exact IHerr|].
  assert (Hrest : Forall (fun action =>
            action = TokenBurner.Pause 1000
            ∨ ∃ t' z', t' ∈ t :: l ∧ P t' z' ∧ action = burnWrite t' z')
            (fst (TokenBurner.burnLoop l))).
  { eapply Forall_impl; [exact IHactions|].
    intros action [->|(t' & z' & Hin & Hrest)]; [left; reflexivity|].
    right. exists t', z'. split; [apply list_elem_of_further; exact Hin|exact Hrest]. }
  constructor.
  - right. exists t, z. split; [apply list_elem_of_here|]. split; [exact Ht|reflexivity].
  - destruct l; [exact Hrest|]. constructor; [left; reflexivity|exact Hrest].
Qed.

End Amounts.

(** X20: what the scan lets through, the burn can send.  When the
    balance of every selected token is [0x] and hexadecimal digits, as
    Alchemy gives it, and passed the filter of the scan
    ([parseInt(balance, 16) > 0]), the sequential handler gets through
    without an error, and the amount of every transfer it writes, the
    integer [BigInt] reads from the balance, is above zero. *)
Theorem filtered_hex_balances_burn_above_zero `{BatchedTransactions.Viem}
    (st : TokenBurner.State) :
  Forall (fun t => hexLiteral (TokenBurner.balance t) = true
                   ∧ JS.parseInt16_gt0 (TokenBurner.balance t) = true)
    (TokenBurner.selectedTokensList st) →
  snd (TokenBurner.handleBurnTokens true st) = st
  ∧ Forall (fun action =>
              action = TokenBurner.Pause 1000
              ∨ ∃ t z, t ∈ TokenBurner.selectedTokensList st
                  ∧ (JS.StringToBigInt (TokenBurner.balance t) = Some z ∧ 0 < z)
                  ∧ action = burnWrite t z)
      (fst (TokenBurner.handleBurnTokens true st)).
Proof.
  intros Hselected. unfold TokenBurner.handleBurnTokens.
  destruct (negb true || _); [split; [reflexivity|constructor]|].
  destruct (burnLoop_amounts
              (fun t z => JS.StringToBigInt (TokenBurner.balance t) = Some z ∧ 0 < z)
              (TokenBurner.selectedTokensList st)) as [Herr Hactions].
  { eapply Forall_impl; [exact Hselected|].
    intros t [Hhex Hpos].
    destruct (hexLiteral_above_zero _ Hhex Hpos) as (z & Hbig & Hz).
    exists z. auto. }
  destruct (TokenBurner.burnLoop _) as [done err]. cbn [fst snd] in *.
  subst err. split; [reflexivity|exact Hactions].
Qed.

Lemma filtered_hex_balances_burn_above_zero_witness :
  let weth := TokenBurner.mkToken "0x4200000000000000000000000000000000000006"
                "Wrapped Ether" "WETH" "0x2a" 18 None (Some true) in
  let st := TokenBurner.mkState [weth]
              {[ "0x4200000000000000000000000000000000000006" ]} true None true in
  snd (@TokenBurner.handleBurnTokens plainViem true st) = st.
Proof.
  intros weth st.
  assert (Hsel : TokenBurner.selectedTokensList st = [weth]).
  { unfold TokenBurner.selectedTokensList, st.
    cbn [TokenBurner.tokens TokenBurner.selectedTokens].
    rewrite filter_cons_True by (apply elem_of_singleton; reflexivity).
    reflexivity. }
  refine (proj1 (@filtered_hex_balances_burn_above_zero plainViem st _)).
  rewrite Hsel. repeat constructor.
Defined.
